(** * server.js: the health-record backend, embedded and verified

    The development follows src/server.js from top to bottom: the values
    that travel in requests and documents, the [try]/[catch] discipline of
    the handlers, the user schema, the document store that the handlers
    reach through the model [User], the security middleware and the
    thirteen routes.  Theorems come after the definitions. *)

From Stdlib Require Import ZArith Ascii String List Sorting.Sorted Permutation Lia.
From stdpp Require Import base option list gmap strings pretty.

Open Scope string_scope.
Open Scope Z_scope.

Local Set Warnings "-register-all".

(** ** Values *)

(** A value as it arrives in a parsed body or sits in a [Mixed] path.
    Numbers are taken to be integers. *)
Inductive JsVal :=
  | JUndefined
  | JNull
  | JBool (b : bool)
  | JNum (n : Z)
  | JStr (s : string)
  | JArr (items : list JsVal)
  | JObj (props : list (string * JsVal)).

(** [a === b].  Primitives compare by value; an array or object is only
    identical to itself, and a value parsed from a request is never the
    object loaded from a document. *)
Definition strict_eq (a b : JsVal) : bool :=
  match a, b with
  | JUndefined, JUndefined => true
  | JNull, JNull => true
  | JBool x, JBool y => Bool.eqb x y
  | JNum x, JNum y => Z.eqb x y
  | JStr x, JStr y => String.eqb x y
  | _, _ => false
  end.

(** Truthiness, as [!v] and [v || d] use it. *)
Definition truthy (v : JsVal) : bool :=
  match v with
  | JUndefined | JNull => false
  | JBool b => b
  | JNum n => negb (Z.eqb n 0)
  | JStr s => negb (String.eqb s "")
  | JArr _ | JObj _ => true
  end.

Definition js_or (v d : JsVal) : JsVal := if truthy v then v else d.

Definition is_undefined (v : JsVal) : bool :=
  match v with JUndefined => true | _ => false end.

Definition is_object (v : JsVal) : bool :=
  match v with JObj _ => true | _ => false end.

(** A text field of a body: a string, or [undefined] when the key is
    missing. *)
Definition field (o : option string) : JsVal :=
  match o with Some s => JStr s | None => JUndefined end.

Fixpoint assoc (k : string) (props : list (string * JsVal)) : option JsVal :=
  match props with
  | [] => None
  | (k', v) :: rest => if String.eqb k k' then Some v else assoc k rest
  end.

(** ** Exceptions *)

Inductive Exc (A : Type) :=
  | Ok (a : A)
  | Throw (err : string).
Arguments Ok {A} a.
Arguments Throw {A} err.

#[global] Instance Exc_ret : MRet Exc := fun A a => Ok a.
#[global] Instance Exc_bind : MBind Exc := fun A B k m =>
  match m with
  | Ok a => k a
  | Throw e => Throw e
  end.

(** [try { body } catch (err) { handler }]. *)
Definition try_catch {A} (body : Exc A) (handler : string -> A) : A :=
  match body with
  | Ok a => a
  | Throw e => handler e
  end.

(** [v.key]: reading a property of [undefined] or [null] throws.  The one
    key the server reads this way is [url], which strings, numbers,
    booleans and arrays do not have. *)
Definition get_prop (v : JsVal) (key : string) : Exc JsVal :=
  match v with
  | JUndefined | JNull => Throw "TypeError"
  | JObj props => Ok (default JUndefined (assoc key props))
  | _ => Ok JUndefined
  end.

(** [v?.key]: the short-circuiting read. *)
Definition get_prop_opt (v : JsVal) (key : string) : JsVal :=
  match v with
  | JObj props => default JUndefined (assoc key props)
  | _ => JUndefined
  end.

(** ** What a document keeps of a value *)

Fixpoint remove_key (k : string) (props : list (string * JsVal))
  : list (string * JsVal) :=
  match props with
  | [] => []
  | (k', v) :: rest =>
      if String.eqb k k' then remove_key k rest else (k', v) :: remove_key k rest
  end.

(** The properties of an object that are not bound to [undefined].  Of two
    bindings of a key the first is the property, as [assoc] reads it. *)
Fixpoint clean (props : list (string * JsVal)) : list (string * JsVal) :=
  match props with
  | [] => []
  | (k, v) :: rest =>
      let rest' := remove_key k (clean rest) in
      if is_undefined v then rest' else (k, v) :: rest'
  end.

(** The schema option [minimize], which is on unless a schema turns it
    off: a document is written without its empty objects.  The properties
    of an object are minimized first, those left [undefined] are deleted,
    and an object left with no property becomes [undefined] itself.  An
    array stays, with its elements minimized; an element that is an
    object left with no property stays as an empty object. *)
Fixpoint minimize (v : JsVal) : JsVal :=
  match v with
  | JObj props =>
      match clean (map (fun kv => (kv.1, minimize kv.2)) props) with
      | [] => JUndefined
      | kept => JObj kept
      end
  | JArr items =>
      JArr (map (fun item =>
                   let kept := minimize item in
                   if is_object item && is_undefined kept then JObj [] else kept)
                items)
  | _ => v
  end.

(** What the driver writes for a value of a [$set]: [undefined] goes out
    as [null]. *)
Definition bson (v : JsVal) : JsVal :=
  match v with
  | JUndefined => JNull
  | _ => v
  end.

Definition serialize (kvs : list (string * JsVal)) : list (string * JsVal) :=
  map (fun kv => (kv.1, bson kv.2)) kvs.

(** The cast of a plain object to [String]: the object's [_id] when that
    is a non-empty string, and a [CastError] otherwise. *)
Definition castString_object (props : list (string * JsVal)) : Exc string :=
  match assoc "_id" props with
  | Some (JStr s) => if String.eqb s "" then Throw "CastError" else Ok s
  | _ => Throw "CastError"
  end.

(** ** The user schema *)

(** An [ObjectId]; the store hands them out from a counter. *)
Definition Id := nat.

(** The text of a path parameter [:id], by what the cast to [ObjectId]
    makes of it: the id it writes, or no id. *)
Inductive Param :=
  | ObjectIdText (id : Id)
  | OtherText (raw : string).

Definition castObjectId (p : Param) : Exc Id :=
  match p with
  | ObjectIdText id => Ok id
  | OtherText _ => Throw "CastError"
  end.

(** One element of [savedData]. *)
Module SavedData.
Record t := {
  _id : Id;
  title : JsVal;
  informationType : JsVal;
  content : JsVal;
  savedAt : Z
}.
End SavedData.

(** One element of [newsHistory]. *)
Module NewsHistory.
Record t := {
  _id : Id;
  title : JsVal;
  source : JsVal;
  date : JsVal;
  url : JsVal;
  addedAt : Z
}.
End NewsHistory.

(** A user document: the string paths by name, and the three arrays.  The
    element declared for [appointmentHistory] has a key named [type]
    ([type: String]), which the schema reads as the type of the element:
    the path is an array of strings, and the other keys of the element
    are options of that string type, not paths. *)
Record User := {
  _id : Id;
  paths : gmap string JsVal;
  savedData : list SavedData.t;
  newsHistory : list NewsHistory.t;
  appointmentHistory : list string
}.

(** [user.key] for a string path; a path with no value reads [undefined]. *)
Definition path (u : User) (key : string) : JsVal :=
  default JUndefined (paths u !! key).

(** Paths declared [required: true]. *)
Definition required_paths : list string := ["fullName"; "email"; "password"].

(** Paths declared [default: ""]. *)
Definition defaulted_paths : list string :=
  ["phone"; "address"; "gender"; "dob"; "profileImg";
   "bloodType"; "height"; "weight"; "allergies"; "conditions"].

Definition mem_string (k : string) (l : list string) : bool :=
  existsb (String.eqb k) l.

(** The [required] validator of a string path: a non-empty string passes. *)
Definition checkRequired (v : JsVal) : bool :=
  match v with
  | JStr s => negb (String.eqb s "")
  | _ => false
  end.

(** The schema validators on a set of (path, value) pairs: each required
    path among them must pass [checkRequired].  [save()] runs them on the
    whole document, an update with [runValidators: true] on the keys of
    the update. *)
Definition validate (kvs : list (string * JsVal)) : bool :=
  forallb (fun kv => implb (mem_string kv.1 required_paths) (checkRequired kv.2)) kvs.

Definition set_paths (kvs : list (string * JsVal)) (m : gmap string JsVal)
  : gmap string JsVal :=
  fold_left (fun acc kv => <[kv.1 := kv.2]> acc) kvs m.

(** ** Built-ins of the language and of the libraries *)

(** [Array.prototype.sort(cmp)]: a stable sort; [x] goes before [y] when
    [cmp x y <= 0]. *)
Fixpoint sort_insert {A} (cmp : A -> A -> Z) (x : A) (l : list A) : list A :=
  match l with
  | [] => [x]
  | y :: l' => if Z.leb (cmp x y) 0 then x :: l else y :: sort_insert cmp x l'
  end.

Definition array_sort {A} (cmp : A -> A -> Z) (l : list A) : list A :=
  fold_right (sort_insert cmp) [] l.

(** [Array.prototype.reverse()]. *)
Definition array_reverse {A} (l : list A) : list A := rev l.

(** [Array.prototype.some(p)]. *)
Definition array_some {A} (p : A -> bool) (l : list A) : bool := existsb p l.

(** [s.startsWith(p)] and [s.slice(n, s.length)]. *)
Definition startsWith (p s : string) : bool := String.prefix p s.
Definition slice_from (n : nat) (s : string) : string :=
  String.substring n (String.length s - n) s.

(** ** The document store *)

Record Store := {
  users : list User;
  nextId : Id
}.

(** How a [$set] treats a key bound to [undefined]: the key is sent (the
    validators see [undefined], and what the driver writes for it is
    [null]), or it is removed from the update before anything else looks
    at it.  Which one holds is the document library's choice, not the
    server's (Mongoose 5 sends the key unless [omitUndefined] is set,
    Mongoose 6 and later always remove it), and the repository pins no
    version. *)
Inductive UndefinedPolicy := WriteUndefined | OmitUndefined.

Definition has_id (uid : Id) (u : User) : bool := Nat.eqb (_id u) uid.

(** [User.findById(uid)]. *)
Definition findById (uid : Id) (st : Store) : option User :=
  find (has_id uid) (users st).

(** [User.findOne({ email })]. *)
Definition findOne_email (email : JsVal) (st : Store) : option User :=
  find (fun u => strict_eq (path u "email") email) (users st).

Fixpoint alter_by_id (f : User -> User) (uid : Id) (us : list User) : list User :=
  match us with
  | [] => []
  | u :: rest =>
      if has_id uid u then f u :: rest else u :: alter_by_id f uid rest
  end.

(** [User.findByIdAndUpdate(uid, update)]: the matching document, if any,
    is rewritten by [update]; the result is the rewritten document. *)
Definition findByIdAndUpdate (uid : Id) (update : User -> User) (st : Store)
  : Store * option User :=
  ({| users := alter_by_id update uid (users st); nextId := nextId st |},
   update <$> findById uid st).

(** The update operators the routes use. *)
Definition op_set (kvs : list (string * JsVal)) (u : User) : User :=
  {| _id := _id u; paths := set_paths kvs (paths u);
     savedData := savedData u; newsHistory := newsHistory u;
     appointmentHistory := appointmentHistory u |}.

Definition op_push_savedData (e : SavedData.t) (u : User) : User :=
  {| _id := _id u; paths := paths u;
     savedData := savedData u ++ [e]; newsHistory := newsHistory u;
     appointmentHistory := appointmentHistory u |}.

Definition op_push_newsHistory (e : NewsHistory.t) (u : User) : User :=
  {| _id := _id u; paths := paths u;
     savedData := savedData u; newsHistory := newsHistory u ++ [e];
     appointmentHistory := appointmentHistory u |}.

Definition op_push_appointmentHistory (e : string) (u : User) : User :=
  {| _id := _id u; paths := paths u;
     savedData := savedData u; newsHistory := newsHistory u;
     appointmentHistory := appointmentHistory u ++ [e] |}.

Definition op_pull_savedData (sub : Id) (u : User) : User :=
  {| _id := _id u; paths := paths u;
     savedData := filter (fun e => SavedData._id e ≠ sub) (savedData u);
     newsHistory := newsHistory u;
     appointmentHistory := appointmentHistory u |}.

Definition op_pull_newsHistory (sub : Id) (u : User) : User :=
  {| _id := _id u; paths := paths u;
     savedData := savedData u;
     newsHistory := filter (fun e => NewsHistory._id e ≠ sub) (newsHistory u);
     appointmentHistory := appointmentHistory u |}.

(** [$pull: { appointmentHistory: { _id: id } }]: the condition is one on
    documents, and the elements are strings; no string meets it. *)
Definition op_pull_appointmentHistory (id : Param) (u : User) : User := u.

(** The unique index on [email]: a write that would give the document the
    email of another document is refused. *)
Definition email_taken (uid : Id) (kvs : list (string * JsVal)) (st : Store) : bool :=
  match findById uid st, assoc "email" kvs with
  | Some _, Some email =>
      existsb (fun other =>
                 negb (has_id uid other) && strict_eq (path other "email") email)
              (users st)
  | _, _ => false
  end.

(** ** Responses *)

Inductive Body :=
  | Message (message : string)
  | MessageError (message error : string)
  | LoginOk (token : string) (id : Id) (name email : JsVal)
  | Profile (id : Id) (fields : list (string * JsVal))
  | Updated (message : string) (user : User)
  | SavedPages (items : list SavedData.t)
  | News (items : list NewsHistory.t)
  | Appointments (items : list string).

Record Response := {
  status : Z;
  body : Body
}.

(** [res.json(b)] and [res.status(code).json(b)]. *)
Definition json (b : Body) : Response := {| status := 200; body := b |}.
Definition status_json (code : Z) (b : Body) : Response :=
  {| status := code; body := b |}.

(** [.select('-password')]. *)
Definition select_no_password (u : User) : User :=
  {| _id := _id u; paths := delete "password" (paths u);
     savedData := savedData u; newsHistory := newsHistory u;
     appointmentHistory := appointmentHistory u |}.

(** ** The server *)

(** The decoded token: [jwt.sign({ id: user._id }, ...)] puts the user id
    in it. *)
Module Jwt.
Record payload := { id : Id }.
End Jwt.

(** [req.file] after [upload.single('profileImage')]. *)
Record File := {
  originalname : string;
  filename : string
}.

(** The eleven body fields of the profile update, in the order of the
    object literal. *)
Definition profile_fields : list string :=
  ["fullName"; "email"; "phone"; "address"; "gender"; "dob";
   "bloodType"; "height"; "weight"; "allergies"; "conditions"].

Section Server.

(** What the libraries supply: the treatment of [undefined] in updates,
    [jwt.sign] (at a given time) and [jwt.verify] with the server's
    secret, and [path.extname]. *)
Variable policy : UndefinedPolicy.
Variable jwt_sign : Id -> Z -> string.
Variable jwt_verify : string -> Exc Jwt.payload.
Variable extname : string -> string.

(** *** Multer storage *)

(** [filename]: ['profile-' + Date.now() + path.extname(file.originalname)]. *)
Definition storage_filename (now : Z) (original : string) : string :=
  "profile-" +:+ pretty now +:+ extname original.

(** [upload.single('profileImage')]: [req.file] is set when the form
    carries the file. *)
Definition upload_single (now : Z) (upload : option string) : option File :=
  (fun original =>
     {| originalname := original; filename := storage_filename now original |})
  <$> upload.

(** *** Security middleware *)

Inductive Guard :=
  | Next (user : Jwt.payload)
  | Rejected (res : Response).

Definition verifyToken (headers : gmap string string) : Guard :=
  let token := headers !! "authorization" in
  if negb (truthy (field token))
  then Rejected (status_json 401 (Message "Access Denied: No Token"))
  else
    try_catch
      (let token := default "" token in
       let cleanToken :=
         if startsWith "Bearer " token then slice_from 7 token else token in
       verified ← jwt_verify cleanToken;
       mret (Next verified))
      (fun err => Rejected (status_json 400 (Message "Invalid Token"))).

(** *** Updates sent through the model *)

(** A plain-object update is a [$set] of its keys.  The validators see
    the keys that are sent, with the values the handler gave them. *)
Definition castUpdate (update : list (string * JsVal)) : list (string * JsVal) :=
  match policy with
  | WriteUndefined => update
  | OmitUndefined => filter (fun kv => is_undefined kv.2 = false) update
  end.

(** [User.findByIdAndUpdate(uid, update, { new: true, runValidators: true })]:
    the validators run on the update, the unique index is checked, and
    the document receives the keys as the driver writes them. *)
Definition findByIdAndUpdate_set (uid : Id) (update : list (string * JsVal))
    (st : Store) : Exc (Store * option User) :=
  let casted := castUpdate update in
  if negb (validate casted) then Throw "Validation failed"
  else if email_taken uid casted st then Throw "E11000 duplicate key error"
  else mret (findByIdAndUpdate uid (op_set (serialize casted)) st).

(** *** Routes *)

(** 1. [POST /api/register] *)
Definition register (fullName email password : option string) (st : Store)
  : Store * Response :=
  try_catch
    (let existingUser := findOne_email (field email) st in
     match existingUser with
     | Some _ => mret (st, status_json 400 (Message "Email already in use."))
     | None =>
       let given :=
         filter (fun kv => is_undefined kv.2 = false)
                [("fullName", field fullName); ("email", field email);
                 ("password", field password)] in
       let newUser :=
         {| _id := nextId st;
            paths := set_paths given
                       (set_paths (map (fun k => (k, JStr "")) defaulted_paths) ∅);
            savedData := []; newsHistory := []; appointmentHistory := [] |} in
       if negb (validate (map (fun k => (k, path newUser k)) required_paths))
       then Throw "User validation failed"
       else
         mret ({| users := users st ++ [newUser]; nextId := S (nextId st) |},
               status_json 201 (Message "Account created! Please log in."))
     end)
    (fun err => (st, status_json 500 (MessageError "Server Error" err))).

(** 2. [POST /api/login] *)
Definition login (now : Z) (email password : option string) (st : Store)
  : Store * Response :=
  try_catch
    (let user := findOne_email (field email) st in
     match user with
     | None => mret (st, status_json 400 (Message "Invalid email or password."))
     | Some user =>
         if negb (strict_eq (path user "password") (field password))
         then mret (st, status_json 400 (Message "Invalid email or password."))
         else
           let token := jwt_sign (_id user) now in
           mret (st, json (LoginOk token (_id user)
                                   (path user "fullName") (path user "email")))
     end)
    (fun err => (st, status_json 500 (MessageError "Server Error" err))).

(** 3. [GET /api/user-profile] *)
Definition getUserProfile (uid : Id) (st : Store) : Store * Response :=
  try_catch
    (let user := select_no_password <$> findById uid st in
     match user with
     | None => mret (st, status_json 404 (Message "User not found"))
     | Some user =>
         mret (st, json (Profile (_id user)
           [("name", path user "fullName");
            ("fullName", path user "fullName");
            ("email", path user "email");
            ("phone", path user "phone");
            ("address", path user "address");
            ("gender", path user "gender");
            ("dob", path user "dob");
            ("profileImg", path user "profileImg");
            ("bloodType", path user "bloodType");
            ("height", path user "height");
            ("weight", path user "weight");
            ("allergies", path user "allergies");
            ("conditions", path user "conditions")]))
     end)
    (fun err => (st, status_json 500 (Message "Server Error fetching profile"))).

(** 4. [PUT /api/update-profile] *)
Definition updateData (body : gmap string string) (file : option File)
  : list (string * JsVal) :=
  let fullName := field (body !! "fullName") in
  let email := field (body !! "email") in
  let phone := field (body !! "phone") in
  let address := field (body !! "address") in
  let gender := field (body !! "gender") in
  let dob := field (body !! "dob") in
  let bloodType := field (body !! "bloodType") in
  let height := field (body !! "height") in
  let weight := field (body !! "weight") in
  let allergies := field (body !! "allergies") in
  let conditions := field (body !! "conditions") in
  let updateData :=
    [("fullName", fullName); ("email", email); ("phone", phone);
     ("address", address); ("gender", gender); ("dob", dob);
     ("bloodType", bloodType); ("height", height); ("weight", weight);
     ("allergies", allergies); ("conditions", conditions)] in
  match file with
  | Some file => updateData ++ [("profileImg", JStr ("/uploads/" +:+ filename file))]
  | None => updateData
  end.

Definition updateProfile (uid : Id) (body : gmap string string)
    (file : option File) (st : Store) : Store * Response :=
  try_catch
    ('(st', updatedUser) ← findByIdAndUpdate_set uid (updateData body file) st;
     match select_no_password <$> updatedUser with
     | None => mret (st', status_json 404 (Message "User not found"))
     | Some updatedUser =>
         mret (st', json (Updated "Profile updated successfully!" updatedUser))
     end)
    (fun err => (st, status_json 500 (MessageError "Error updating profile" err))).

(** 5. [POST /api/save-page] *)
Definition content_url (item : SavedData.t) : JsVal :=
  get_prop_opt (SavedData.content item) "url".

(** The handler up to the answer of its first [await]: the url to check,
    the lookup, and the duplicate check on the document as loaded. *)
Definition savePage_check (uid : Id) (pageData : JsVal) (st : Store) : Exc bool :=
  urlToCheck ← get_prop pageData "url";
  let user := findById uid st in
  savedData ← match user with
              | Some user => mret (savedData user)
              | None => Throw "TypeError"
              end;
  mret (array_some (fun item => strict_eq (content_url item) urlToCheck) savedData).

(** The second [await]: the [$push], on the store as it is by then. *)
Definition savePage_push (now : Z) (uid : Id) (title : option string)
    (pageData : JsVal) (informationType : option string) (st : Store) : Store :=
  let entry :=
    {| SavedData._id := nextId st;
       SavedData.title := js_or (field title) (JStr "Untitled");
       SavedData.informationType := js_or (field informationType) (JStr "General");
       SavedData.content := minimize pageData;
       SavedData.savedAt := now |} in
  let '(st', _) := findByIdAndUpdate uid (op_push_savedData entry) st in
  {| users := users st'; nextId := S (nextId st') |}.

(** The handler from the answer of the lookup on: [lookup] is what the
    check gave on the store of that moment, [st] is the store when the
    handler goes on. *)
Definition savePage_continue (now : Z) (uid : Id) (title : option string)
    (pageData : JsVal) (informationType : option string)
    (lookup : Exc bool) (st : Store) : Store * Response :=
  try_catch
    (isDuplicate ← lookup;
     if isDuplicate : bool
     then mret (st, status_json 400 (Message "You have already saved this article."))
     else mret (savePage_push now uid title pageData informationType st,
                json (Message "Page saved successfully!")))
    (fun err => (st, status_json 500 (Message "Error saving page"))).

(** The request served with no other request in between. *)
Definition savePage (now : Z) (uid : Id) (title : option string) (pageData : JsVal)
    (informationType : option string) (st : Store) : Store * Response :=
  savePage_continue now uid title pageData informationType
    (savePage_check uid pageData st) st.

(** Two save-page requests of one user in flight together: both lookups
    are answered from the store as it is, then the first handler goes
    on, then the second.  The second handler's check has not seen the
    first one's push. *)
Definition savePage_overlapped (uid : Id)
    (now1 : Z) (title1 : option string) (pageData1 : JsVal) (type1 : option string)
    (now2 : Z) (title2 : option string) (pageData2 : JsVal) (type2 : option string)
    (st : Store) : Store * Response * Response :=
  let isDuplicate1 := savePage_check uid pageData1 st in
  let isDuplicate2 := savePage_check uid pageData2 st in
  let '(st1, res1) :=
    savePage_continue now1 uid title1 pageData1 type1 isDuplicate1 st in
  let '(st2, res2) :=
    savePage_continue now2 uid title2 pageData2 type2 isDuplicate2 st1 in
  (st2, res1, res2).

(** 6. [GET /api/my-saved-pages] *)
Definition by_savedAt_desc (a b : SavedData.t) : Z :=
  SavedData.savedAt b - SavedData.savedAt a.

Definition getMySavedPages (uid : Id) (st : Store) : Store * Response :=
  try_catch
    (match findById uid st with
     | None => mret (st, status_json 404 (Message "User not found"))
     | Some user =>
         let sortedData := array_sort by_savedAt_desc (savedData user) in
         mret (st, json (SavedPages sortedData))
     end)
    (fun err => (st, status_json 500 (Message "Error fetching data"))).

(** 7. [DELETE /api/my-saved-pages/:id] *)
Definition deleteMySavedPage (uid : Id) (id : Param) (st : Store) : Store * Response :=
  try_catch
    (id ← castObjectId id;
     let '(st', _) := findByIdAndUpdate uid (op_pull_savedData id) st in
     mret (st', json (Message "Item deleted successfully")))
    (fun err => (st, status_json 500 (Message "Server error deleting item"))).

(** 8. [POST /api/news] *)
Definition addNews (now : Z) (uid : Id) (title source date url : option string)
    (st : Store) : Store * Response :=
  try_catch
    (let entry :=
       {| NewsHistory._id := nextId st;
          NewsHistory.title := field title;
          NewsHistory.source := field source;
          NewsHistory.date := field date;
          NewsHistory.url := field url;
          NewsHistory.addedAt := now |} in
     let '(st', _) := findByIdAndUpdate uid (op_push_newsHistory entry) st in
     mret ({| users := users st'; nextId := S (nextId st') |},
           json (Message "News saved successfully!")))
    (fun err => (st, status_json 500 (Message "Error saving news"))).

(** 9. [GET /api/news] *)
Definition getNews (uid : Id) (st : Store) : Store * Response :=
  try_catch
    (let user := findById uid st in
     newsHistory ← match user with
                   | Some user => mret (newsHistory user)
                   | None => Throw "TypeError"
                   end;
     mret (st, json (News (array_reverse newsHistory))))
    (fun err => (st, status_json 500 (Message "Error fetching news"))).

(** 10. [DELETE /api/news/:id] *)
Definition deleteNews (uid : Id) (id : Param) (st : Store) : Store * Response :=
  try_catch
    (id ← castObjectId id;
     let '(st', _) := findByIdAndUpdate uid (op_pull_newsHistory id) st in
     mret (st', json (Message "News deleted")))
    (fun err => (st, status_json 500 (Message "Error deleting news"))).

(** 11. [POST /api/appointments].  The pushed object is cast to the
    element type of the array, [String]. *)
Definition addAppointment (uid : Id) (doctor type date status : option string)
    (st : Store) : Store * Response :=
  try_catch
    (entry ← castString_object
               [("doctor", field doctor); ("type", field type);
                ("date", field date); ("status", field status)];
     let '(st', _) := findByIdAndUpdate uid (op_push_appointmentHistory entry) st in
     mret (st', json (Message "Appointment added!")))
    (fun err => (st, status_json 500 (Message "Error adding appointment"))).

(** 12. [GET /api/appointments] *)
Definition getAppointments (uid : Id) (st : Store) : Store * Response :=
  try_catch
    (let user := findById uid st in
     appointmentHistory ← match user with
                          | Some user => mret (appointmentHistory user)
                          | None => Throw "TypeError"
                          end;
     mret (st, json (Appointments (array_reverse appointmentHistory))))
    (fun err => (st, status_json 500 (Message "Error fetching appointments"))).

(** 13. [DELETE /api/appointments/:id] *)
Definition deleteAppointment (uid : Id) (id : Param) (st : Store) : Store * Response :=
  try_catch
    (let '(st', _) := findByIdAndUpdate uid (op_pull_appointmentHistory id) st in
     mret (st', json (Message "Appointment deleted")))
    (fun err => (st, status_json 500 (Message "Error deleting appointment"))).

(** *** The server as a transition system *)

(** A route behind [verifyToken]: the handler runs with [req.user.id]. *)
Definition protected (headers : gmap string string)
    (handler : Id -> Store -> Store * Response) (st : Store) : Store * Response :=
  match verifyToken headers with
  | Next user => handler (Jwt.id user) st
  | Rejected res => (st, res)
  end.

Inductive Request :=
  | PostRegister (fullName email password : option string)
  | PostLogin (email password : option string)
  | GetUserProfile (headers : gmap string string)
  | PutUpdateProfile (headers : gmap string string) (body : gmap string string)
                     (profileImage : option string)
  | PostSavePage (headers : gmap string string) (title : option string)
                 (pageData : JsVal) (informationType : option string)
  | GetMySavedPages (headers : gmap string string)
  | DeleteMySavedPage (headers : gmap string string) (id : Param)
  | PostNews (headers : gmap string string) (title source date url : option string)
  | GetNews (headers : gmap string string)
  | DeleteNews (headers : gmap string string) (id : Param)
  | PostAppointment (headers : gmap string string)
                    (doctor type date status : option string)
  | GetAppointments (headers : gmap string string)
  | DeleteAppointment (headers : gmap string string) (id : Param).

(** One request served at time [now]. *)
Definition serve (now : Z) (req : Request) (st : Store) : Store * Response :=
  match req with
  | PostRegister fullName email password => register fullName email password st
  | PostLogin email password => login now email password st
  | GetUserProfile h => protected h getUserProfile st
  | PutUpdateProfile h body profileImage =>
      protected h (fun uid => updateProfile uid body (upload_single now profileImage)) st
  | PostSavePage h title pageData informationType =>
      protected h (fun uid => savePage now uid title pageData informationType) st
  | GetMySavedPages h => protected h getMySavedPages st
  | DeleteMySavedPage h id => protected h (fun uid => deleteMySavedPage uid id) st
  | PostNews h title source date url =>
      protected h (fun uid => addNews now uid title source date url) st
  | GetNews h => protected h getNews st
  | DeleteNews h id => protected h (fun uid => deleteNews uid id) st
  | PostAppointment h doctor type date status =>
      protected h (fun uid => addAppointment uid doctor type date status) st
  | GetAppointments h => protected h getAppointments st
  | DeleteAppointment h id => protected h (fun uid => deleteAppointment uid id) st
  end.

(** The empty database. *)
Definition empty_store : Store := {| users := []; nextId := 0%nat |}.

(** The stores the server can be in: requests served one after another
    from the empty database. *)
Inductive reachable : Store -> Prop :=
  | reachable_empty : reachable empty_store
  | reachable_serve st now req :
      reachable st -> reachable (serve now req st).1.

End Server.

(** ** Sample requests *)

Module Sample.

(** A token check that accepts the one token issued to user 0. *)
Definition jwt_verify (token : string) : Exc Jwt.payload :=
  if String.eqb token "token-of-0" then Ok {| Jwt.id := 0%nat |}
  else Throw "invalid signature".

Definition jwt_sign (uid : Id) (now : Z) : string := "token-of-" +:+ pretty uid.

(** The extension of a plain file name: from its last dot on. *)
Fixpoint from_last_dot (name : string) : option string :=
  match name with
  | EmptyString => None
  | String c rest =>
      match from_last_dot rest with
      | Some ext => Some ext
      | None => if Ascii.eqb c "."%char then Some name else None
      end
  end.

Definition extname (name : string) : string := default "" (from_last_dot name).

(** The database after Ann has registered: she is user 0. *)
Definition ann_store : Store :=
  (register (Some "Ann") (Some "ann@example.org") (Some "secret") empty_store).1.


(** The update of the specification's example: two fields, nothing else. *)
Definition phone_and_blood : gmap string string :=
  <["phone" := "555"]> (<["bloodType" := "O+"]> ∅).

(** An update that resends the name and the email and changes the gender. *)
Definition name_email_gender : gmap string string :=
  <["fullName" := "Ann"]> (<["email" := "ann@example.org"]> (<["gender" := "F"]> ∅)).

Definition article (url : string) : JsVal :=
  JObj [("url", JStr url); ("heading", JStr "Hypertension")].

Definition note : JsVal := JObj [("heading", JStr "A note without a link")].

Definition bearer : gmap string string := {["authorization" := "Bearer token-of-0"]}.

(** Ann's document as registration leaves it. *)
Definition ann : User :=
  {| _id := 0%nat;
     paths :=
       set_paths [("fullName", JStr "Ann"); ("email", JStr "ann@example.org");
                  ("password", JStr "secret")]
                 (set_paths (map (fun k => (k, JStr "")) defaulted_paths) ∅);
     savedData := []; newsHistory := []; appointmentHistory := [] |}.

(** Two pages Ann saves, at times 1000 and 2000, and a note with no url. *)
Definition page1 : SavedData.t :=
  {| SavedData._id := 1%nat;
     SavedData.title := JStr "Blood pressure";
     SavedData.informationType := JStr "General";
     SavedData.content := article "https://example.org/bp";
     SavedData.savedAt := 1000 |}.

Definition page2 : SavedData.t :=
  {| SavedData._id := 2%nat;
     SavedData.title := JStr "Untitled";
     SavedData.informationType := JStr "Cardiology";
     SavedData.content := article "https://example.org/heart";
     SavedData.savedAt := 2000 |}.

(** The server configured with the sample libraries. *)
Definition run (policy : UndefinedPolicy) :=
  serve policy jwt_sign jwt_verify extname.

Definition one_page (policy : UndefinedPolicy) : Store :=
  (run policy 1000
     (PostSavePage bearer (Some "Blood pressure") (article "https://example.org/bp") None)
     (run policy 0
        (PostRegister (Some "Ann") (Some "ann@example.org") (Some "secret"))
        empty_store).1).1.

Definition two_pages (policy : UndefinedPolicy) : Store :=
  (run policy 2000
     (PostSavePage bearer None (article "https://example.org/heart") (Some "Cardiology"))
     (one_page policy)).1.

Definition with_note (policy : UndefinedPolicy) : Store :=
  (run policy 3000 (PostSavePage bearer (Some "Note") note None)
     (two_pages policy)).1.

End Sample.

(** ** Predicates used in the statements *)

(** A listing of saved pages in which [savedAt] never increases. *)
Definition newer_first (a b : SavedData.t) : Prop :=
  SavedData.savedAt b <= SavedData.savedAt a.

(** The urls that [===] compares by value and that an entry can hold: a
    string, a number, a boolean or [null]. *)
Definition is_primitive_url (v : JsVal) : bool :=
  match v with
  | JNull | JBool _ | JNum _ | JStr _ => true
  | JUndefined | JArr _ | JObj _ => false
  end.

(** [a] is a url and [b] is [===] to it. *)
Definition same_url (a b : JsVal) : bool :=
  negb (is_undefined a) && strict_eq a b.

(** No entry that has a url compared by value has the url of a later
    entry.  Entries without a url, and entries whose url is an array or
    an object, are not constrained. *)
Fixpoint primitive_urls_distinct (l : list SavedData.t) : Prop :=
  match l with
  | [] => True
  | e :: rest =>
      Forall (fun e' => same_url (content_url e) (content_url e') = false) rest
      /\ primitive_urls_distinct rest
  end.

(** The same of every user's savedData. *)
Definition saved_urls_distinct (st : Store) : Prop :=
  Forall (fun u => primitive_urls_distinct (savedData u)) (users st).

(** A value as [JSON.parse] gives it, each key once and nothing bound to
    [undefined], that holds no object without properties. *)
Fixpoint keys_once (props : list (string * JsVal)) : bool :=
  match props with
  | [] => true
  | (k, _) :: rest => negb (mem_string k (map fst rest)) && keys_once rest
  end.

Fixpoint no_empty_object (v : JsVal) : bool :=
  match v with
  | JObj props =>
      match props with [] => false | _ => true end
      && keys_once props
      && forallb (fun kv => negb (is_undefined kv.2) && no_empty_object kv.2) props
  | JArr items => forallb no_empty_object items
  | _ => true
  end.

(** No user has an appointment stored. *)
Definition no_appointments (st : Store) : Prop :=
  Forall (fun u => appointmentHistory u = []) (users st).


(** ** Accounts *)

(** The document [new User({ fullName, email, password })] builds when all
    three are given: the schema defaults, then the three values. *)
Definition new_account (uid : Id) (fullName email password : string) : User :=
  {| _id := uid;
     paths :=
       set_paths [("fullName", JStr fullName); ("email", JStr email);
                  ("password", JStr password)]
                 (set_paths (map (fun k => (k, JStr "")) defaulted_paths) ∅);
     savedData := []; newsHistory := []; appointmentHistory := [] |}.

(** What an account is to the outside: its id and its string paths. *)
Definition account_of (u : User) : Id * gmap string JsVal := (_id u, paths u).

(** What every route keeps true of the accounts: ids are below the
    counter and pairwise different, the required paths hold non-empty
    strings, and no two accounts have the same email. *)
Record well_formed (st : Store) : Prop := {
  ids_below : Forall (fun u => (_id u < nextId st)%nat) (users st);
  ids_distinct : NoDup (map _id (users st));
  required_filled :
    Forall (fun u => Forall (fun k => checkRequired (path u k) = true) required_paths)
           (users st);
  emails_distinct :
    forall i j u v,
      users st !! i = Some u -> users st !! j = Some v -> i <> j ->
      strict_eq (path u "email") (path v "email") = false
}.

(** ** Requests by kind *)

(** The headers [verifyToken] reads, for the routes that are behind it. *)
Definition request_headers (req : Request) : option (gmap string string) :=
  match req with
  | PostRegister _ _ _ | PostLogin _ _ => None
  | GetUserProfile h | PutUpdateProfile h _ _ | PostSavePage h _ _ _
  | GetMySavedPages h | DeleteMySavedPage h _ | PostNews h _ _ _ _
  | GetNews h | DeleteNews h _ | PostAppointment h _ _ _ _
  | GetAppointments h | DeleteAppointment h _ => Some h
  end.

(** The routes that only read: the login and the four [GET]s. *)
Definition reads_only (req : Request) : bool :=
  match req with
  | PostLogin _ _ | GetUserProfile _ | GetMySavedPages _ | GetNews _
  | GetAppointments _ => true
  | _ => false
  end.

(** ** What the outside can see of the store *)

(** The store with every document read through [.select('-password')]. *)
Definition public_view (st : Store) : list User * Id :=
  (map select_no_password (users st), nextId st).

Definition is_login (req : Request) : bool :=
  match req with PostLogin _ _ => true | _ => false end.

(** A handler whose answer, and whose effect on what the outside can see,
    are the same in two stores that differ only in the stored
    passwords. *)
Definition password_blind (h : Store -> Store * Response) : Prop :=
  forall st st', public_view st = public_view st' ->
    (h st).2 = (h st').2 /\ public_view (h st).1 = public_view (h st').1.

(** ** The earlier revision of the server (src/unnamed/part_000)

    The same application before the medical fields, the news and the
    appointments were added.  Registration, login, the guard, the listing
    and the deletion of saved pages read the same as in server.js; the
    three routes below differ. *)
Module Part000.

(** [GET /api/user-profile] *)
Definition getUserProfile (uid : Id) (st : Store) : Store * Response :=
  try_catch
    (let user := select_no_password <$> findById uid st in
     match user with
     | None => mret (st, status_json 404 (Message "User not found"))
     | Some user =>
         mret (st, json (Profile (_id user)
           [("name", path user "fullName");
            ("email", path user "email");
            ("phone", path user "phone");
            ("address", path user "address");
            ("gender", path user "gender");
            ("dob", path user "dob");
            ("profileImg", path user "profileImg")]))
     end)
    (fun err => (st, status_json 500 (Message "Server Error fetching profile"))).

(** [PUT /api/update-profile] *)
Definition profile_fields : list string :=
  ["fullName"; "email"; "phone"; "address"; "gender"; "dob"].

Definition updateData (body : gmap string string) (file : option File)
  : list (string * JsVal) :=
  let fullName := field (body !! "fullName") in
  let email := field (body !! "email") in
  let phone := field (body !! "phone") in
  let address := field (body !! "address") in
  let gender := field (body !! "gender") in
  let dob := field (body !! "dob") in
  let updateData :=
    [("fullName", fullName); ("email", email); ("phone", phone);
     ("address", address); ("gender", gender); ("dob", dob)] in
  match file with
  | Some file => updateData ++ [("profileImg", JStr ("/uploads/" +:+ filename file))]
  | None => updateData
  end.

Definition updateProfile (policy : UndefinedPolicy) (uid : Id)
    (body : gmap string string) (file : option File) (st : Store)
  : Store * Response :=
  try_catch
    ('(st', updatedUser) ← findByIdAndUpdate_set policy uid (updateData body file) st;
     match select_no_password <$> updatedUser with
     | None => mret (st', status_json 404 (Message "User not found"))
     | Some updatedUser =>
         mret (st', json (Updated "Profile updated successfully!" updatedUser))
     end)
    (fun err => (st, status_json 500 (MessageError "Error updating profile" err))).

(** [POST /api/save-page] *)
Definition savePage (now : Z) (uid : Id) (title : option string) (pageData : JsVal)
    (informationType : option string) (st : Store) : Store * Response :=
  try_catch
    (let entry :=
       {| SavedData._id := nextId st;
          SavedData.title := js_or (field title) (JStr "Untitled Save");
          SavedData.informationType := js_or (field informationType) (JStr "General");
          SavedData.content := minimize pageData;
          SavedData.savedAt := now |} in
     let '(st', updatedUser) := findByIdAndUpdate uid (op_push_savedData entry) st in
     match updatedUser with
     | None =>
         mret ({| users := users st'; nextId := S (nextId st') |},
               status_json 404 (Message "User not found."))
     | Some _ =>
         mret ({| users := users st'; nextId := S (nextId st') |},
               json (Message "Page saved successfully!"))
     end)
    (fun err => (st, status_json 500 (Message "Error saving page"))).

End Part000.

(** ** More sample requests *)

Module More.

(** Bob's document as registration leaves it. *)
Definition bob : User := new_account 1%nat "Bob" "bob@example.org" "hunter2".

(** A profile form whose name was blanked. *)
Definition blank_name : gmap string string := {["fullName" := ""]}.

(** A page whose url is an object. *)
Definition linked_page : JsVal :=
  JObj [("url", JObj [("href", JStr "https://example.org/x")])].

(** Ann alone, and Ann and Bob, reached by serving their registrations. *)
Definition ann_registered : Store :=
  (Sample.run OmitUndefined 0
     (PostRegister (Some "Ann") (Some "ann@example.org") (Some "secret"))
     empty_store).1.

Definition both_registered : Store :=
  (Sample.run OmitUndefined 1
     (PostRegister (Some "Bob") (Some "bob@example.org") (Some "hunter2"))
     ann_registered).1.

(** The database after Ann has registered with another password. *)
Definition ann_other_password : Store :=
  (register (Some "Ann") (Some "ann@example.org") (Some "other") empty_store).1.

(** Ann saves the page whose url is an object, twice. *)
Definition linked_twice : Store :=
  (Sample.run OmitUndefined 2000 (PostSavePage Sample.bearer None linked_page None)
     (Sample.run OmitUndefined 1000 (PostSavePage Sample.bearer None linked_page None)
        ann_registered).1).1.

(** A page whose url is an empty object, and Ann's store once she has
    saved her two articles, her note and that page. *)
Definition empty_url_page : JsVal :=
  JObj [("url", JObj []); ("heading", JStr "No link yet")].

Definition note_and_empty_url : Store :=
  (Sample.run OmitUndefined 4000 (PostSavePage Sample.bearer None empty_url_page None)
     (Sample.with_note OmitUndefined)).1.

End More.

(** * Properties *)

(** ** The store *)

Lemma has_id_true uid u : has_id uid u = true <-> _id u = uid.
Proof. unfold has_id. apply Nat.eqb_eq. Qed.

Lemma has_id_other uid uid' u :
  has_id uid u = true -> uid' <> uid -> has_id uid' u = false.
Proof.
  intros H Hne. apply has_id_true in H. apply not_true_is_false.
  intros H'. apply has_id_true in H'. congruence.
Qed.

Lemma find_alter_by_id f uid uid' us :
  (forall u, _id (f u) = _id u) ->
  find (has_id uid') (alter_by_id f uid us) =
  if decide (uid' = uid) then f <$> find (has_id uid) us else find (has_id uid') us.
Proof.
  intros Hid. induction us as [|u us IH]; simpl.
  - by case_decide.
  - destruct (has_id uid u) eqn:Hu; simpl.
    + assert (has_id uid' (f u) = has_id uid' u) as ->.
      { unfold has_id. by rewrite Hid. }
      case_decide as Heq.
      * subst uid'. by rewrite Hu.
      * by rewrite (has_id_other uid uid' u).
    + rewrite IH. case_decide as Heq; [subst uid'; by rewrite Hu|done].
Qed.

Lemma findById_update_same f uid st :
  (forall u, _id (f u) = _id u) ->
  findById uid (findByIdAndUpdate uid f st).1 = f <$> findById uid st.
Proof.
  intros Hid. unfold findById at 1. simpl.
  rewrite find_alter_by_id by done. by rewrite decide_True.
Qed.

Lemma findById_update_other f uid uid' st :
  (forall u, _id (f u) = _id u) -> uid' <> uid ->
  findById uid' (findByIdAndUpdate uid f st).1 = findById uid' st.
Proof.
  intros Hid Hne. unfold findById at 1. simpl.
  rewrite find_alter_by_id by done. by rewrite decide_False.
Qed.

Lemma alter_by_id_missing f uid us :
  find (has_id uid) us = None -> alter_by_id f uid us = us.
Proof.
  induction us as [|u us IH]; simpl; [done|].
  destruct (has_id uid u); [done|]. intros H. by rewrite IH.
Qed.

Lemma Forall_alter_by_id (P : User -> Prop) f uid us :
  Forall P us ->
  (forall u, find (has_id uid) us = Some u -> P u -> P (f u)) ->
  Forall P (alter_by_id f uid us).
Proof.
  induction 1 as [|u us Hu Hus IH]; simpl; intros Hf; [constructor|].
  destruct (has_id uid u) eqn:E.
  - constructor; [by apply Hf|done].
  - constructor; [done|]. by apply IH.
Qed.

Lemma alter_by_id_fixed f uid us :
  (forall u, find (has_id uid) us = Some u -> f u = u) ->
  alter_by_id f uid us = us.
Proof.
  induction us as [|u us IH]; simpl; [done|].
  destruct (has_id uid u); intros H; [by rewrite H|by rewrite IH].
Qed.

Lemma filter_all {A} (P : A -> Prop) `{!forall x, Decision (P x)} (l : list A) :
  Forall P l -> filter P l = l.
Proof.
  induction 1 as [|x l Hx Hl IH]; [done|].
  rewrite filter_cons_True by done. by rewrite IH.
Qed.

(** ** Deleting from a sub-list *)

Lemma alter_by_id_id uid us : alter_by_id (fun u => u) uid us = us.
Proof. by apply alter_by_id_fixed. Qed.

Lemma deleteMySavedPage_ObjectId uid id st :
  deleteMySavedPage uid (ObjectIdText id) st =
    ((findByIdAndUpdate uid (op_pull_savedData id) st).1,
     json (Message "Item deleted successfully")).
Proof. reflexivity. Qed.

Lemma deleteNews_ObjectId uid id st :
  deleteNews uid (ObjectIdText id) st =
    ((findByIdAndUpdate uid (op_pull_newsHistory id) st).1,
     json (Message "News deleted")).
Proof. reflexivity. Qed.

Lemma deleteMySavedPage_OtherText uid raw st :
  deleteMySavedPage uid (OtherText raw) st =
    (st, status_json 500 (Message "Server error deleting item")).
Proof. reflexivity. Qed.

Lemma deleteNews_OtherText uid raw st :
  deleteNews uid (OtherText raw) st =
    (st, status_json 500 (Message "Error deleting news")).
Proof. reflexivity. Qed.

Lemma deleteAppointment_answer uid id st :
  deleteAppointment uid id st = (st, json (Message "Appointment deleted")).
Proof.
  unfold deleteAppointment, findByIdAndUpdate; cbn.
  change (alter_by_id (op_pull_appointmentHistory id)) with (alter_by_id (fun u => u)).
  rewrite alter_by_id_id. by destruct st.
Qed.

(** C5, as the code has it.  A delete of a saved page or of a news entry
    whose path parameter writes an id answers with the route's success
    message whatever the store holds, and leaves a store in which the
    addressed user's sub-list has lost exactly the entries with that
    sub-id, in the same order, while the user's paths, the other
    sub-lists, every other user and the id counter are as before; when
    nothing matches, or the user does not resolve, the documents are the
    same and the answer is still the success message.  A path parameter
    that writes no id is answered 500 with the route's error message, and
    the store is as before. *)
Theorem delete_by_id_removes_matching_or_fails (uid : Id) (p : Param) (st : Store) :
  let saved := deleteMySavedPage uid p st in
  let news := deleteNews uid p st in
  match p with
  | ObjectIdText id =>
      (saved.2 = json (Message "Item deleted successfully")
       /\ findById uid saved.1 =
            (fun u => {| _id := _id u; paths := paths u;
                         savedData := filter (fun e => SavedData._id e ≠ id) (savedData u);
                         newsHistory := newsHistory u;
                         appointmentHistory := appointmentHistory u |})
            <$> findById uid st
       /\ (forall other, other <> uid -> findById other saved.1 = findById other st)
       /\ nextId saved.1 = nextId st)
      /\
      (news.2 = json (Message "News deleted")
       /\ findById uid news.1 =
            (fun u => {| _id := _id u; paths := paths u;
                         savedData := savedData u;
                         newsHistory :=
                           filter (fun e => NewsHistory._id e ≠ id) (newsHistory u);
                         appointmentHistory := appointmentHistory u |})
            <$> findById uid st
       /\ (forall other, other <> uid -> findById other news.1 = findById other st)
       /\ nextId news.1 = nextId st)
      /\
      (* nothing matched: the documents are the same, the answer still a success *)
      (forall u, findById uid st = Some u ->
         (Forall (fun e => SavedData._id e ≠ id) (savedData u) ->
            users saved.1 = users st) /\
         (Forall (fun e => NewsHistory._id e ≠ id) (newsHistory u) ->
            users news.1 = users st))
      /\
      (findById uid st = None -> users saved.1 = users st /\ users news.1 = users st)
  | OtherText raw =>
      saved = (st, status_json 500 (Message "Server error deleting item"))
      /\ news = (st, status_json 500 (Message "Error deleting news"))
  end.
Proof.
  destruct p as [id|raw]; cbv zeta; [|by split].
  rewrite deleteMySavedPage_ObjectId, deleteNews_ObjectId. cbn [fst snd].
  split; [|split; [|split]].
  - repeat split; try (by apply findById_update_same).
    by intros other Hne; apply findById_update_other.
  - repeat split; try (by apply findById_update_same).
    by intros other Hne; apply findById_update_other.
  - intros u Hu. split; intros Hall; cbn; apply alter_by_id_fixed; intros u' Hu';
      unfold findById in Hu; rewrite Hu in Hu'; injection Hu' as <-.
    + destruct u; unfold op_pull_savedData; cbn in *. by rewrite filter_all.
    + destruct u; unfold op_pull_newsHistory; cbn in *. by rewrite filter_all.
  - intros Hnone. split; cbn; by apply alter_by_id_missing.
Qed.

Lemma getNews_found uid st u :
  findById uid st = Some u ->
  getNews uid st = (st, json (News (rev (newsHistory u)))).
Proof. intros H. unfold getNews. by rewrite H. Qed.

Lemma getAppointments_found uid st u :
  findById uid st = Some u ->
  getAppointments uid st = (st, json (Appointments (rev (appointmentHistory u)))).
Proof. intros H. unfold getAppointments. by rewrite H. Qed.

Lemma findById_addNews now uid title source date url st :
  findById uid (addNews now uid title source date url st).1 =
  op_push_newsHistory
    {| NewsHistory._id := nextId st;
       NewsHistory.title := field title;
       NewsHistory.source := field source;
       NewsHistory.date := field date;
       NewsHistory.url := field url;
       NewsHistory.addedAt := now |}
  <$> findById uid st.
Proof.
  unfold addNews, findById; cbn. rewrite find_alter_by_id by done.
  by rewrite decide_True.
Qed.

Lemma addAppointment_refused uid doctor type date status st :
  addAppointment uid doctor type date status st =
    (st, status_json 500 (Message "Error adding appointment")).
Proof. reflexivity. Qed.

(** ** An identity that no longer resolves *)

(** C9. When the authenticated id resolves to no document, the two
    listings that read the sub-list straight off the lookup result answer
    500 (the read of a property of [null] throws and the [catch] answers),
    while the profile and the saved-pages routes test the result first and
    answer 404. *)
Theorem missing_user_500_for_news_and_appointments (uid : Id) (st : Store) :
  findById uid st = None ->
  getNews uid st = (st, status_json 500 (Message "Error fetching news"))
  /\ getAppointments uid st =
       (st, status_json 500 (Message "Error fetching appointments"))
  /\ getUserProfile uid st = (st, status_json 404 (Message "User not found"))
  /\ getMySavedPages uid st = (st, status_json 404 (Message "User not found")).
Proof.
  intros H. unfold getNews, getAppointments, getUserProfile, getMySavedPages.
  rewrite H. repeat split.
Qed.

(** ** Login failures *)


(** ** The security middleware *)

Lemma substring_all s : String.substring 0 (String.length s) s = s.
Proof. induction s as [|c s IH]; simpl; [done|by rewrite IH]. Qed.

Lemma Bearer_cons rest :
  "Bearer " +:+ rest =
  String "B"%char (String "e"%char (String "a"%char (String "r"%char
    (String "e"%char (String "r"%char (String " "%char rest)))))).
Proof. reflexivity. Qed.

Lemma slice_from_Bearer rest : slice_from 7 ("Bearer " +:+ rest) = rest.
Proof.
  rewrite Bearer_cons. unfold slice_from.
  cbn [String.length String.substring Nat.sub].
  rewrite Nat.sub_0_r. apply substring_all.
Qed.

Lemma startsWith_Bearer rest : startsWith "Bearer " ("Bearer " +:+ rest) = true.
Proof. rewrite Bearer_cons. unfold startsWith. cbn. by destruct rest. Qed.

Lemma verifyToken_nonempty jwt_verify (headers : gmap string string) token :
  headers !! "authorization" = Some token -> token <> "" ->
  verifyToken jwt_verify headers =
    match jwt_verify (if startsWith "Bearer " token then slice_from 7 token else token) with
    | Ok verified => Next verified
    | Throw _ => Rejected (status_json 400 (Message "Invalid Token"))
    end.
Proof.
  intros H Hne. unfold verifyToken. rewrite H. cbn [field truthy default].
  assert (String.eqb token "" = false) as ->.
  { by apply String.eqb_neq. }
  cbn [negb]. by destruct (jwt_verify _).
Qed.

(** C6, as the code has it.  The guard answers 401 "Access Denied: No
    Token" exactly when the Authorization header is absent or its value is
    the empty string.  Otherwise it drops a leading "Bearer " from the
    value (nothing else), verifies what remains, answers 400 "Invalid
    Token" exactly when the verification throws, and when it succeeds
    hands the decoded payload on: the protected handler runs with the id
    the payload carries. *)
Theorem verifyToken_contract
    (jwt_verify : string -> Exc Jwt.payload) (headers : gmap string string) :
  (verifyToken jwt_verify headers =
     Rejected (status_json 401 (Message "Access Denied: No Token"))
   <-> headers !! "authorization" = None \/ headers !! "authorization" = Some "")
  /\ (forall rest,
        headers !! "authorization" = Some ("Bearer " +:+ rest) ->
        verifyToken jwt_verify headers =
          match jwt_verify rest with
          | Ok verified => Next verified
          | Throw _ => Rejected (status_json 400 (Message "Invalid Token"))
          end)
  /\ (forall token,
        headers !! "authorization" = Some token -> token <> "" ->
        startsWith "Bearer " token = false ->
        verifyToken jwt_verify headers =
          match jwt_verify token with
          | Ok verified => Next verified
          | Throw _ => Rejected (status_json 400 (Message "Invalid Token"))
          end)
  /\ (forall verified handler st,
        verifyToken jwt_verify headers = Next verified ->
        protected jwt_verify headers handler st = handler (Jwt.id verified) st).
Proof.
  repeat split.
  - intros H. destruct (headers !! "authorization") as [token|] eqn:Hh; [|by left].
    right. f_equal. destruct (decide (token = "")) as [->|Hne]; [done|].
    rewrite (verifyToken_nonempty _ _ token) in H by done.
    by destruct (jwt_verify _).
  - intros [H|H]; unfold verifyToken; by rewrite H.
  - intros rest H.
    rewrite (verifyToken_nonempty _ _ _ H) by done.
    by rewrite startsWith_Bearer, slice_from_Bearer.
  - intros token H Hne Hp.
    rewrite (verifyToken_nonempty _ _ _ H Hne). by rewrite Hp.
  - intros verified handler st H. unfold protected. by rewrite H.
Qed.

(** ** Listing saved pages *)

Lemma sort_insert_perm {A} (cmp : A -> A -> Z) x l :
  Permutation (sort_insert cmp x l) (x :: l).
Proof.
  induction l as [|y l IH]; simpl; [done|].
  destruct (Z.leb (cmp x y) 0); [done|].
  rewrite IH. apply perm_swap.
Qed.

Lemma array_sort_perm {A} (cmp : A -> A -> Z) l :
  Permutation (array_sort cmp l) l.
Proof.
  induction l as [|x l IH]; simpl; [done|].
  rewrite sort_insert_perm. by constructor.
Qed.

Lemma sort_insert_sorted x l :
  StronglySorted newer_first l ->
  StronglySorted newer_first (sort_insert by_savedAt_desc x l).
Proof.
  induction 1 as [|y l Hl IH Hy]; simpl.
  - repeat constructor.
  - destruct (Z.leb_spec (by_savedAt_desc x y) 0) as [Hle|Hgt].
    + constructor; [by constructor|].
      constructor.
      * unfold newer_first, by_savedAt_desc in *. lia.
      * eapply Forall_impl; [exact Hy|].
        intros z Hz. unfold newer_first, by_savedAt_desc in *. lia.
    + constructor; [done|].
      eapply Permutation_Forall; [symmetry; apply sort_insert_perm|].
      constructor; [|done].
      unfold newer_first, by_savedAt_desc in *. lia.
Qed.

Lemma array_sort_sorted l :
  StronglySorted newer_first (array_sort by_savedAt_desc l).
Proof.
  induction l as [|x l IH]; simpl; [constructor|by apply sort_insert_sorted].
Qed.

Lemma sorted_before (l1 l2 : list SavedData.t) x y :
  StronglySorted newer_first (l1 ++ x :: l2) -> In y l1 -> newer_first y x.
Proof.
  induction l1 as [|z l1 IH]; simpl; [done|].
  intros Hs [->|Hin].
  - apply StronglySorted_inv in Hs as [_ Hall].
    rewrite List.Forall_forall in Hall. apply Hall, in_elt.
  - apply StronglySorted_inv in Hs as [Hs _]. by apply IH.
Qed.

Lemma savePage_saved now uid title pageData informationType st :
  status (savePage now uid title pageData informationType st).2 = 200 ->
  exists u url,
    findById uid st = Some u
    /\ get_prop pageData "url" = Ok url
    /\ array_some (fun item => strict_eq (content_url item) url) (savedData u) = false
    /\ (savePage now uid title pageData informationType st).1 =
       {| users :=
            alter_by_id
              (op_push_savedData
                 {| SavedData._id := nextId st;
                    SavedData.title := js_or (field title) (JStr "Untitled");
                    SavedData.informationType :=
                      js_or (field informationType) (JStr "General");
                    SavedData.content := minimize pageData;
                    SavedData.savedAt := now |})
              uid (users st);
          nextId := S (nextId st) |}.
Proof.
  unfold savePage, savePage_continue, savePage_check.
  destruct (get_prop pageData "url") as [url|] eqn:Hurl; cbn; [|done].
  destruct (findById uid st) as [u|] eqn:Hu; cbn; [|done].
  destruct (array_some _ _) eqn:Hdup; cbn; [done|].
  intros _. by exists u, url.
Qed.

Lemma savePage_not_saved now uid title pageData informationType st :
  status (savePage now uid title pageData informationType st).2 <> 200 ->
  (savePage now uid title pageData informationType st).1 = st.
Proof.
  unfold savePage, savePage_continue, savePage_check.
  destruct (get_prop pageData "url") as [url|] eqn:Hurl; cbn; [|done].
  destruct (findById uid st) as [u|] eqn:Hu; cbn; [|done].
  destruct (array_some _ _) eqn:Hdup; cbn; done.
Qed.

Lemma findById_savePage_saved now uid title pageData informationType st u :
  status (savePage now uid title pageData informationType st).2 = 200 ->
  findById uid st = Some u ->
  findById uid (savePage now uid title pageData informationType st).1 =
  Some (op_push_savedData
          {| SavedData._id := nextId st;
             SavedData.title := js_or (field title) (JStr "Untitled");
             SavedData.informationType :=
               js_or (field informationType) (JStr "General");
             SavedData.content := minimize pageData;
             SavedData.savedAt := now |} u).
Proof.
  intros Hok Hu. apply savePage_saved in Hok as (u' & url & Hu' & _ & _ & ->).
  unfold findById in *. cbn. rewrite find_alter_by_id by done.
  rewrite decide_True by done. by rewrite Hu.
Qed.

(** C3. For a user that resolves, [GET /api/my-saved-pages] answers with
    the stored savedData rearranged (every entry, once) so that savedAt
    never increases along the list: most recently saved first.  After two
    successful saves at times T1 < T2, the entry saved at T2 comes before
    the entry saved at T1 in the listing; each holds the page data of its
    request, as the store keeps it. *)
Theorem saved_pages_listed_newest_first (uid : Id) (st : Store) (u : User) :
  findById uid st = Some u ->
  (exists sortedData,
     getMySavedPages uid st = (st, json (SavedPages sortedData))
     /\ Permutation sortedData (savedData u)
     /\ StronglySorted
          (fun a b => SavedData.savedAt b <= SavedData.savedAt a) sortedData)
  /\ (forall T1 T2 title1 pageData1 type1 title2 pageData2 type2,
        let first := savePage T1 uid title1 pageData1 type1 st in
        let second := savePage T2 uid title2 pageData2 type2 first.1 in
        status first.2 = 200 -> status second.2 = 200 -> T1 < T2 ->
        exists before between after e1 e2,
          getMySavedPages uid second.1 =
            (second.1,
             json (SavedPages (before ++ e2 :: between ++ e1 :: after)))
          /\ SavedData._id e1 = nextId st
          /\ SavedData.content e1 = minimize pageData1
          /\ SavedData.savedAt e1 = T1
          /\ SavedData._id e2 = nextId first.1
          /\ SavedData.content e2 = minimize pageData2
          /\ SavedData.savedAt e2 = T2).
Proof.
  intros Hu. split.
  - exists (array_sort by_savedAt_desc (savedData u)). split.
    + unfold getMySavedPages. by rewrite Hu.
    + split; [apply array_sort_perm|apply array_sort_sorted].
  - intros T1 T2 title1 pageData1 type1 title2 pageData2 type2 first second H1 H2 Hlt.
    pose proof (findById_savePage_saved _ _ _ _ _ _ _ H1 Hu) as Hu1.
    fold first in Hu1.
    pose proof (findById_savePage_saved _ _ _ _ _ _ _ H2 Hu1) as Hu2.
    fold second in Hu2.
    set (e1 := {| SavedData._id := nextId st;
                  SavedData.title := js_or (field title1) (JStr "Untitled");
                  SavedData.informationType := js_or (field type1) (JStr "General");
                  SavedData.content := minimize pageData1;
                  SavedData.savedAt := T1 |}) in *.
    set (e2 := {| SavedData._id := nextId first.1;
                  SavedData.title := js_or (field title2) (JStr "Untitled");
                  SavedData.informationType := js_or (field type2) (JStr "General");
                  SavedData.content := minimize pageData2;
                  SavedData.savedAt := T2 |}) in *.
    set (stored := savedData (op_push_savedData e2 (op_push_savedData e1 u))).
    set (sorted := array_sort by_savedAt_desc stored).
    assert (Hget : getMySavedPages uid second.1 = (second.1, json (SavedPages sorted))).
    { unfold getMySavedPages. by rewrite Hu2. }
    assert (Hperm : Permutation sorted stored) by apply array_sort_perm.
    assert (Hsorted : StronglySorted newer_first sorted) by apply array_sort_sorted.
    assert (Hin2 : In e2 sorted).
    { eapply Permutation_in; [symmetry; exact Hperm|].
      subst stored. cbn. apply in_or_app. right. by left. }
    assert (Hin1 : In e1 sorted).
    { eapply Permutation_in; [symmetry; exact Hperm|].
      subst stored. cbn. apply in_or_app. left. apply in_or_app. right. by left. }
    apply in_split in Hin2 as (before & rest & Hsplit).
    rewrite Hsplit in Hin1, Hsorted.
    apply in_app_or in Hin1 as [Hbad|[Heq|Hrest]].
    + pose proof (sorted_before _ _ _ _ Hsorted Hbad) as Hle.
      unfold newer_first in Hle. subst e1 e2. cbn in Hle. lia.
    + assert (SavedData.savedAt e2 = SavedData.savedAt e1) as Hsame by (by rewrite Heq).
      subst e1 e2. cbn in Hsame. lia.
    + apply in_split in Hrest as (between & after & ->).
      exists before, between, after, e1, e2.
      rewrite Hget, Hsplit. by repeat split.
Qed.

(** ** Saving a page *)

Lemma strict_eq_sym a b : strict_eq a b = strict_eq b a.
Proof.
  destruct a, b; simpl; try done.
  - by destruct b, b0.
  - apply Z.eqb_sym.
  - apply String.eqb_sym.
Qed.

Lemma get_prop_opt_of_get_prop v key x :
  get_prop v key = Ok x -> get_prop_opt v key = x.
Proof. destruct v; simpl; congruence. Qed.

(** *** What the store keeps of the page data *)

Lemma assoc_remove_key_same k props : assoc k (remove_key k props) = None.
Proof.
  induction props as [|[k' v] rest IH]; cbn; [done|].
  destruct (String.eqb k k') eqn:E; [done|]. cbn. by rewrite E.
Qed.

Lemma assoc_remove_key_other k k' props :
  k <> k' -> assoc k (remove_key k' props) = assoc k props.
Proof.
  intros Hne. induction props as [|[k'' v] rest IH]; cbn; [done|].
  destruct (String.eqb_spec k' k'') as [<-|Hne'].
  - rewrite IH. by destruct (String.eqb_spec k k').
  - cbn. by rewrite IH.
Qed.

Lemma assoc_clean k props :
  assoc k (clean props) =
  match assoc k props with
  | Some v => if is_undefined v then None else Some v
  | None => None
  end.
Proof.
  induction props as [|[k' v] rest IH]; cbn; [done|].
  destruct (String.eqb_spec k k') as [->|Hne].
  - destruct (is_undefined v); cbn.
    + apply assoc_remove_key_same.
    + by rewrite String.eqb_refl.
  - destruct (is_undefined v); cbn.
    + by rewrite assoc_remove_key_other.
    + destruct (String.eqb_spec k k'); [done|]. by rewrite assoc_remove_key_other.
Qed.

Lemma assoc_map_value (f : JsVal -> JsVal) k props :
  assoc k (map (fun kv => (kv.1, f kv.2)) props) = f <$> assoc k props.
Proof.
  induction props as [|[k' v] rest IH]; cbn; [done|].
  by destruct (String.eqb k k').
Qed.

Lemma minimize_JObj props :
  minimize (JObj props) =
  match clean (map (fun kv => (kv.1, minimize kv.2)) props) with
  | [] => JUndefined
  | kept => JObj kept
  end.
Proof. reflexivity. Qed.

Lemma minimize_JArr items :
  minimize (JArr items) =
  JArr (map (fun item =>
               let kept := minimize item in
               if is_object item && is_undefined kept then JObj [] else kept)
            items).
Proof. reflexivity. Qed.

(** Reading a property off the minimized value gives the minimized
    property. *)
Lemma get_prop_opt_minimize v key :
  get_prop_opt (minimize v) key = minimize (get_prop_opt v key).
Proof.
  destruct v as [| | | | | |props]; try reflexivity.
  rewrite minimize_JObj.
  assert (H : default JUndefined
                (assoc key (clean (map (fun kv => (kv.1, minimize kv.2)) props))) =
              minimize (get_prop_opt (JObj props) key)).
  { rewrite assoc_clean, assoc_map_value. cbn [get_prop_opt].
    destruct (assoc key props) as [x|]; cbn; [|done].
    by destruct (minimize x). }
  destruct (clean _); [by rewrite <- H|exact H].
Qed.

Lemma content_url_stored pageData url id title type now :
  get_prop pageData "url" = Ok url ->
  content_url {| SavedData._id := id; SavedData.title := title;
                 SavedData.informationType := type;
                 SavedData.content := minimize pageData;
                 SavedData.savedAt := now |} = minimize url.
Proof.
  intros Hurl. unfold content_url. cbn [SavedData.content].
  by rewrite get_prop_opt_minimize, (get_prop_opt_of_get_prop _ _ _ Hurl).
Qed.

Lemma remove_key_absent k props :
  mem_string k (map fst props) = false -> remove_key k props = props.
Proof.
  induction props as [|[k' v] rest IH]; cbn; [done|].
  intros [Hk Hrest]%orb_false_iff. rewrite Hk. by rewrite IH.
Qed.

Lemma clean_parsed props :
  keys_once props = true ->
  forallb (fun kv => negb (is_undefined kv.2)) props = true ->
  clean props = props.
Proof.
  induction props as [|[k v] rest IH]; cbn; [done|].
  intros [Hk Hrest]%andb_true_iff [Hv Hvs]%andb_true_iff.
  rewrite IH by done. apply negb_true_iff in Hk, Hv.
  by rewrite Hv, remove_key_absent.
Qed.

(** Page data with no empty object in it is stored as sent. *)
Lemma minimize_no_empty_object v : no_empty_object v = true -> minimize v = v.
Proof.
  revert v. fix IH 1. intros [| | | | |items|props]; try reflexivity.
  - rewrite minimize_JArr. cbn [no_empty_object]. intros Hall. f_equal.
    induction items as [|x rest IHrest]; [done|].
    cbn in Hall. apply andb_true_iff in Hall as [Hx Hrest].
    cbn [map]. cbv zeta. rewrite (IH x Hx), IHrest by done.
    destruct x as [| | | | | |[|kv props]]; try done.
  - rewrite minimize_JObj. cbn [no_empty_object].
    intros [[Hne Hkeys]%andb_true_iff Hall]%andb_true_iff.
    assert (Hmap : map (fun kv => (kv.1, minimize kv.2)) props = props).
    { clear Hne Hkeys. induction props as [|[k x] rest IHrest]; [done|].
      cbn in Hall. apply andb_true_iff in Hall as [[_ Hx]%andb_true_iff Hrest].
      cbn. by rewrite (IH x Hx), IHrest. }
    rewrite Hmap, clean_parsed; [by destruct props|done|].
    apply forallb_forall. intros kv Hin.
    rewrite forallb_forall in Hall. by apply Hall, andb_true_iff in Hin as [? _].
Qed.

Lemma minimize_primitive v : strict_eq v v = true -> minimize v = v.
Proof. by destruct v. Qed.

Lemma strict_eq_minimize x u :
  strict_eq x (minimize u) = true -> strict_eq x u = true \/ x = JUndefined.
Proof.
  destruct u as [| | | | |items|props];
    [by left..|rewrite minimize_JArr; by destruct x|].
  rewrite minimize_JObj. destruct (clean _).
  - destruct x; try done. by right.
  - by destruct x.
Qed.

Lemma same_url_minimize x u : same_url x u = false -> same_url x (minimize u) = false.
Proof.
  unfold same_url. intros H. apply not_true_is_false. intros H'.
  apply andb_true_iff in H' as [Hx [Heq| ->]%strict_eq_minimize]; [|done].
  by rewrite Hx, Heq in H.
Qed.

Lemma same_url_refl a : is_primitive_url a = true -> same_url a a = true.
Proof.
  destruct a; cbn; try done.
  - by destruct b.
  - intros _. apply Z.eqb_refl.
  - intros _. apply String.eqb_refl.
Qed.

Lemma primitive_urls_distinct_snoc l e :
  primitive_urls_distinct l ->
  Forall (fun item => same_url (content_url item) (content_url e) = false) l ->
  primitive_urls_distinct (l ++ [e]).
Proof.
  induction l as [|x l IH]; simpl.
  - intros _ _. split; [constructor|done].
  - intros [Hx Hl] [Hxe Hle]%Forall_cons. split.
    + apply Forall_app. split; [done|]. constructor; [done|constructor].
    + by apply IH.
Qed.

Lemma primitive_urls_distinct_filter (P : SavedData.t -> Prop)
    `{!forall e, Decision (P e)} l :
  primitive_urls_distinct l -> primitive_urls_distinct (filter P l).
Proof.
  induction l as [|x l IH]; simpl; [done|].
  intros [Hx Hl]. destruct (decide (P x)).
  - rewrite filter_cons_True by done. simpl. split; [|by apply IH].
    apply List.Forall_forall. intros y Hy.
    rewrite List.Forall_forall in Hx. apply Hx.
    apply list_elem_of_In. apply list_elem_of_In in Hy.
    by apply list_elem_of_filter in Hy as [_ ?].
  - rewrite filter_cons_False by done. by apply IH.
Qed.

Lemma primitive_urls_distinct_lookup l i j ei ej :
  primitive_urls_distinct l -> l !! i = Some ei -> l !! j = Some ej -> i <> j ->
  is_primitive_url (content_url ei) = true ->
  content_url ei <> content_url ej.
Proof.
  revert i j. induction l as [|x l IH]; intros i j; [done|].
  intros [Hx Hl] Hi Hj Hne Hprim Heq. rewrite List.Forall_forall in Hx.
  pose proof (same_url_refl _ Hprim) as Hsame.
  destruct i as [|i], j as [|j]; simpl in *.
  - done.
  - injection Hi as <-.
    assert (Hin : In ej l) by (apply list_elem_of_In; by eapply list_elem_of_lookup_2).
    apply Hx in Hin. rewrite <- Heq in Hin. congruence.
  - injection Hj as <-.
    assert (Hin : In ei l) by (apply list_elem_of_In; by eapply list_elem_of_lookup_2).
    apply Hx in Hin. rewrite <- Heq in Hin. congruence.
  - apply (IH i j Hl Hi Hj); [lia|done|done].
Qed.

(** *** What each route does to the saved pages *)

Lemma saved_urls_distinct_update f uid st :
  saved_urls_distinct st ->
  (forall u, findById uid st = Some u ->
             primitive_urls_distinct (savedData u) ->
             primitive_urls_distinct (savedData (f u))) ->
  saved_urls_distinct (findByIdAndUpdate uid f st).1.
Proof. intros Hst Hf. by apply Forall_alter_by_id. Qed.

Lemma register_appended (P : User -> Prop) fullName email password st :
  Forall P (users st) ->
  (forall u, savedData u = [] -> newsHistory u = [] -> appointmentHistory u = [] -> P u) ->
  Forall P (users (register fullName email password st).1).
Proof.
  intros Hst Hnew. unfold register.
  destruct (findOne_email _ _); cbv zeta; [done|].
  match goal with |- context [validate ?kvs] => destruct (validate kvs) end;
    cbn [negb try_catch mret Exc_ret fst]; [|done].
  apply Forall_app. split; [done|]. constructor; [|constructor]. by apply Hnew.
Qed.

Lemma register_urls_distinct fullName email password st :
  saved_urls_distinct st ->
  saved_urls_distinct (register fullName email password st).1.
Proof.
  intros Hst. apply register_appended; [done|]. by intros u ->.
Qed.

Lemma login_store jwt_sign now email password st :
  (login jwt_sign now email password st).1 = st.
Proof.
  unfold login. destruct (findOne_email _ _); cbn; [|done].
  by destruct (strict_eq _ _).
Qed.

Lemma getUserProfile_store uid st : (getUserProfile uid st).1 = st.
Proof. unfold getUserProfile. by destruct (findById uid st). Qed.

Lemma getMySavedPages_store uid st : (getMySavedPages uid st).1 = st.
Proof. unfold getMySavedPages. by destruct (findById uid st). Qed.

Lemma getNews_store uid st : (getNews uid st).1 = st.
Proof. unfold getNews. by destruct (findById uid st). Qed.

Lemma getAppointments_store uid st : (getAppointments uid st).1 = st.
Proof. unfold getAppointments. by destruct (findById uid st). Qed.

Lemma updateProfile_store policy uid body file st :
  let res := updateProfile policy uid body file st in
  let casted := castUpdate policy (updateData body file) in
  (status res.2 = 200
   /\ validate casted = true
   /\ (exists u, findById uid st = Some u)
   /\ res.1 = (findByIdAndUpdate uid (op_set (serialize casted)) st).1)
  \/ (status res.2 <> 200 /\ res.1 = st).
Proof.
  cbv zeta. unfold updateProfile, findByIdAndUpdate_set.
  destruct (validate _) eqn:Hv; cbn; [|by right].
  destruct (email_taken _ _ _); cbn; [by right|].
  destruct (findById uid st) as [u|] eqn:Hu; cbn.
  - left. repeat split; eauto.
  - right. split; [done|].
    rewrite alter_by_id_missing by done. by destruct st.
Qed.

Lemma updateProfile_urls_distinct policy uid body file st :
  saved_urls_distinct st ->
  saved_urls_distinct (updateProfile policy uid body file st).1.
Proof.
  intros Hst.
  destruct (updateProfile_store policy uid body file st) as [(_ & _ & _ & ->)|[_ ->]];
    [|done].
  by apply saved_urls_distinct_update.
Qed.

Lemma savePage_urls_distinct now uid title pageData informationType st :
  saved_urls_distinct st ->
  saved_urls_distinct (savePage now uid title pageData informationType st).1.
Proof.
  intros Hst.
  destruct (decide (status (savePage now uid title pageData informationType st).2 = 200))
    as [Hok|Hno].
  - apply savePage_saved in Hok as (u & url & Hu & Hurl & Hdup & ->).
    unfold saved_urls_distinct; cbn.
    apply Forall_alter_by_id; [done|].
    intros u' Hu' Hd. unfold findById in Hu. rewrite Hu in Hu'. injection Hu' as <-.
    cbn. apply primitive_urls_distinct_snoc; [done|].
    rewrite (content_url_stored _ _ _ _ _ _ Hurl).
    apply List.Forall_forall. intros item Hin. apply same_url_minimize.
    unfold same_url. apply andb_false_iff. right.
    unfold array_some in Hdup.
    destruct (strict_eq (content_url item) url) eqn:E; [|done].
    assert (existsb (fun item => strict_eq (content_url item) url) (savedData u) = true)
      as Hex; [|congruence].
    apply existsb_exists. eauto.
  - by rewrite savePage_not_saved.
Qed.

Lemma deleteMySavedPage_urls_distinct uid id st :
  saved_urls_distinct st -> saved_urls_distinct (deleteMySavedPage uid id st).1.
Proof.
  intros Hst. destruct id as [id|raw]; [|done].
  apply (saved_urls_distinct_update (op_pull_savedData id)); [done|].
  intros u _ Hd. cbn. by apply primitive_urls_distinct_filter.
Qed.

Lemma deleteNews_urls_distinct uid id st :
  saved_urls_distinct st -> saved_urls_distinct (deleteNews uid id st).1.
Proof.
  intros Hst. destruct id as [id|raw]; [|done].
  by apply (saved_urls_distinct_update (op_pull_newsHistory id)).
Qed.

Lemma addNews_urls_distinct now uid title source date url st :
  saved_urls_distinct st ->
  saved_urls_distinct (addNews now uid title source date url st).1.
Proof.
  intros Hst. unfold addNews, saved_urls_distinct; cbn.
  by apply Forall_alter_by_id.
Qed.

Lemma protected_preserves (P : Store -> Prop) jwt_verify headers handler st :
  P st -> (forall uid, P (handler uid st).1) ->
  P (protected jwt_verify headers handler st).1.
Proof.
  intros Hst Hh. unfold protected. by destruct (verifyToken _ _).
Qed.

Lemma serve_urls_distinct policy jwt_sign jwt_verify extname now req st :
  saved_urls_distinct st ->
  saved_urls_distinct (serve policy jwt_sign jwt_verify extname now req st).1.
Proof.
  intros Hst. destruct req; cbn [serve];
    try (apply protected_preserves; [done|intros uid]).
  - by apply register_urls_distinct.
  - by rewrite login_store.
  - by rewrite getUserProfile_store.
  - by apply updateProfile_urls_distinct.
  - by apply savePage_urls_distinct.
  - by rewrite getMySavedPages_store.
  - by apply deleteMySavedPage_urls_distinct.
  - by apply addNews_urls_distinct.
  - by rewrite getNews_store.
  - by apply deleteNews_urls_distinct.
  - by rewrite addAppointment_refused.
  - by rewrite getAppointments_store.
  - by rewrite deleteAppointment_answer.
Qed.

Lemma reachable_urls_distinct policy jwt_sign jwt_verify extname st :
  reachable policy jwt_sign jwt_verify extname st -> saved_urls_distinct st.
Proof.
  induction 1 as [|st now req Hr IH]; [constructor|].
  by apply serve_urls_distinct.
Qed.

Lemma savePage_duplicate now uid title pageData informationType st u url item :
  findById uid st = Some u ->
  get_prop pageData "url" = Ok url ->
  In item (savedData u) ->
  strict_eq (content_url item) url = true ->
  savePage now uid title pageData informationType st =
    (st, status_json 400 (Message "You have already saved this article.")).
Proof.
  intros Hu Hurl Hin Heq. unfold savePage, savePage_continue, savePage_check.
  rewrite Hurl; cbn. rewrite Hu; cbn.
  assert (array_some (fun item => strict_eq (content_url item) url) (savedData u) = true)
    as ->; [|done].
  apply existsb_exists. eauto.
Qed.

(** C2, as the code has it.  A save-page request whose [pageData.url] is
    [===] to the [content.url] of an entry the user already has is
    answered 400 "You have already saved this article." and leaves the
    store as it was.  Consequently, in every store the server reaches by
    serving requests one after another from the empty database, an entry
    whose [content.url] is a string, a number, a boolean or [null] shares
    it with no other entry of the same user. *)
Theorem duplicate_url_rejected_and_primitive_urls_distinct :
  (forall now uid title pageData informationType st u url item,
     findById uid st = Some u ->
     get_prop pageData "url" = Ok url ->
     In item (savedData u) ->
     strict_eq (content_url item) url = true ->
     savePage now uid title pageData informationType st =
       (st, status_json 400 (Message "You have already saved this article.")))
  /\ (forall policy jwt_sign jwt_verify extname st,
        reachable policy jwt_sign jwt_verify extname st ->
        forall u i j ei ej,
          In u (users st) ->
          savedData u !! i = Some ei -> savedData u !! j = Some ej -> i <> j ->
          is_primitive_url (content_url ei) = true ->
          content_url ei <> content_url ej).
Proof.
  split; [by apply savePage_duplicate|].
  intros policy jwt_sign jwt_verify extname st Hr u i j ei ej Hu Hi Hj Hne Hprim.
  apply reachable_urls_distinct in Hr.
  unfold saved_urls_distinct in Hr. rewrite List.Forall_forall in Hr.
  exact (primitive_urls_distinct_lookup _ _ _ _ _ (Hr u Hu) Hi Hj Hne Hprim).
Qed.

Lemma findById_savePage_url_less now uid title pageData informationType st :
  get_prop pageData "url" = Ok JUndefined ->
  status (savePage now uid title pageData informationType st).2 = 200 ->
  exists u item,
    findById uid (savePage now uid title pageData informationType st).1 = Some u
    /\ In item (savedData u)
    /\ content_url item = JUndefined.
Proof.
  intros Hurl Hok.
  pose proof (savePage_saved _ _ _ _ _ _ Hok) as (u & url' & Hu & _ & _ & _).
  pose proof (findById_savePage_saved _ _ _ _ _ _ u Hok Hu) as Hu1.
  eexists _, _. split; [exact Hu1|]. split.
  - cbn [op_push_savedData savedData]. apply in_or_app. right. by left.
  - by rewrite (content_url_stored _ _ _ _ _ _ Hurl).
Qed.

(** C10, as the code has it.  A save-page request whose [pageData] has no
    [url] is answered 400 "You have already saved this article." as soon
    as the user has an entry whose [content?.url] is [undefined], which
    includes entries with no [content]: [undefined === undefined].  So
    once a request without a url has been saved, the next request without
    a url, served after it, is refused whatever else it carries. *)
Theorem url_less_request_refused_after_url_less_entry :
  (forall now uid title pageData informationType st u item,
     get_prop pageData "url" = Ok JUndefined ->
     findById uid st = Some u ->
     In item (savedData u) ->
     content_url item = JUndefined ->
     savePage now uid title pageData informationType st =
       (st, status_json 400 (Message "You have already saved this article.")))
  /\ (forall item, SavedData.content item = JUndefined -> content_url item = JUndefined)
  /\ (forall now now' uid title title' pageData pageData'
             informationType informationType' st,
        let first := savePage now uid title pageData informationType st in
        get_prop pageData "url" = Ok JUndefined ->
        get_prop pageData' "url" = Ok JUndefined ->
        status first.2 = 200 ->
        savePage now' uid title' pageData' informationType' first.1 =
          (first.1, status_json 400 (Message "You have already saved this article."))).
Proof.
  split; [|split].
  - intros now uid title pageData informationType st u item Hurl Hu Hin Hitem.
    eapply savePage_duplicate; eauto. by rewrite Hitem.
  - intros item H. unfold content_url. by rewrite H.
  - intros now now' uid title title' pageData pageData' informationType
      informationType' st first Hurl Hurl' Hok.
    destruct (findById_savePage_url_less _ _ _ _ _ _ Hurl Hok)
      as (u & item & Hu & Hin & Hitem).
    eapply savePage_duplicate; eauto. by rewrite Hitem.
Qed.

(** ** Appointments: nothing is ever stored *)

Lemma no_appointments_update f uid st :
  no_appointments st ->
  (forall u, appointmentHistory (f u) = appointmentHistory u) ->
  no_appointments (findByIdAndUpdate uid f st).1.
Proof.
  intros Hst Hf. apply Forall_alter_by_id; [done|].
  intros u _ Hu. by rewrite Hf.
Qed.

Lemma serve_no_appointments policy jwt_sign jwt_verify extname now req st :
  no_appointments st ->
  no_appointments (serve policy jwt_sign jwt_verify extname now req st).1.
Proof.
  intros Hst.
  destruct req
    as [fullName email password|email password|headers|headers fields profileImage
       |headers title pageData informationType|headers|headers id
       |headers title source date url|headers|headers id
       |headers doctor type date status|headers|headers id];
    cbn [serve]; try (apply protected_preserves; [done|intros uid]).
  - by apply register_appended.
  - by rewrite login_store.
  - by rewrite getUserProfile_store.
  - destruct (updateProfile_store policy uid fields
                (upload_single extname now profileImage) st)
      as [(_ & _ & _ & ->)|[_ ->]]; [|done].
    by apply no_appointments_update.
  - destruct (decide (status (savePage now uid title pageData informationType st).2
                      = 200)) as [Hok|Hno]; [|by rewrite savePage_not_saved].
    apply savePage_saved in Hok as (u & url & _ & _ & _ & ->).
    unfold no_appointments; cbn [users].
    apply Forall_alter_by_id; [done|]. by intros w _ Hw.
  - by rewrite getMySavedPages_store.
  - destruct id as [id|raw]; [|done].
    by apply (no_appointments_update (op_pull_savedData id)).
  - unfold addNews, no_appointments; cbn.
    apply Forall_alter_by_id; [done|]. by intros w _ Hw.
  - by rewrite getNews_store.
  - destruct id as [id|raw]; [|done].
    by apply (no_appointments_update (op_pull_newsHistory id)).
  - by rewrite addAppointment_refused.
  - by rewrite getAppointments_store.
  - by rewrite deleteAppointment_answer.
Qed.

Lemma reachable_no_appointments policy jwt_sign jwt_verify extname st :
  reachable policy jwt_sign jwt_verify extname st -> no_appointments st.
Proof.
  induction 1 as [|st now req Hr IH]; [constructor|].
  by apply serve_no_appointments.
Qed.

(** ** Listing news and appointments *)

(** C4, as the code runs.  For a user that resolves, [GET /api/news] and
    [GET /api/appointments] answer with the stored sub-list reversed, last
    appended first, and after appending news A and then B the listing is
    B, then A, then what was stored before.  An appointment is never
    appended: the pushed object does not cast to the element type of the
    array, so every [POST /api/appointments] is answered 500 "Error adding
    appointment" and changes nothing.  After posting appointment A and
    then B the listing is what it was before, and in a store the server
    has reached it is empty. *)
Theorem news_listed_in_reverse_appointments_never_added
    (uid : Id) (st : Store) (u : User) :
  findById uid st = Some u ->
  getNews uid st = (st, json (News (rev (newsHistory u))))
  /\ getAppointments uid st = (st, json (Appointments (rev (appointmentHistory u))))
  /\ (forall nowA titleA sourceA dateA urlA nowB titleB sourceB dateB urlB,
        let stA := (addNews nowA uid titleA sourceA dateA urlA st).1 in
        let stB := (addNews nowB uid titleB sourceB dateB urlB stA).1 in
        let A := {| NewsHistory._id := nextId st;
                    NewsHistory.title := field titleA;
                    NewsHistory.source := field sourceA;
                    NewsHistory.date := field dateA;
                    NewsHistory.url := field urlA;
                    NewsHistory.addedAt := nowA |} in
        let B := {| NewsHistory._id := nextId stA;
                    NewsHistory.title := field titleB;
                    NewsHistory.source := field sourceB;
                    NewsHistory.date := field dateB;
                    NewsHistory.url := field urlB;
                    NewsHistory.addedAt := nowB |} in
        getNews uid stB = (stB, json (News (B :: A :: rev (newsHistory u)))))
  /\ (forall doctorA typeA dateA statusA doctorB typeB dateB statusB,
        let resA := addAppointment uid doctorA typeA dateA statusA st in
        let resB := addAppointment uid doctorB typeB dateB statusB resA.1 in
        resA = (st, status_json 500 (Message "Error adding appointment"))
        /\ resB = (st, status_json 500 (Message "Error adding appointment"))
        /\ getAppointments uid resB.1 =
           (st, json (Appointments (rev (appointmentHistory u)))))
  /\ (forall policy jwt_sign jwt_verify extname,
        reachable policy jwt_sign jwt_verify extname st ->
        getAppointments uid st = (st, json (Appointments []))).
Proof.
  intros Hu. split; [by apply getNews_found|].
  split; [by apply getAppointments_found|]. split; [|split].
  - intros. subst stA stB A B.
    erewrite getNews_found.
    2:{ rewrite !findById_addNews, Hu. reflexivity. }
    cbn [op_push_newsHistory newsHistory].
    by rewrite !rev_app_distr.
  - intros. subst resA resB. rewrite !addAppointment_refused. cbn [fst].
    repeat split. by apply getAppointments_found.
  - intros policy jwt_sign jwt_verify extname Hr.
    apply reachable_no_appointments in Hr.
    unfold no_appointments in Hr. rewrite List.Forall_forall in Hr.
    rewrite (getAppointments_found _ _ _ Hu), (Hr u); [done|].
    apply find_some in Hu as [Hin _]. exact Hin.
Qed.

(** ** Updating the profile *)

Lemma set_paths_notin kvs (m : gmap string JsVal) k :
  k ∉ kvs.*1 -> set_paths kvs m !! k = m !! k.
Proof.
  revert m. induction kvs as [|[k' v'] kvs IH]; intros m Hk; [done|].
  cbn in *. apply not_elem_of_cons in Hk as [Hne Hk].
  unfold set_paths in *. cbn. rewrite IH by done. by rewrite lookup_insert_ne.
Qed.

Lemma set_paths_in kvs (m : gmap string JsVal) k v :
  NoDup kvs.*1 -> (k, v) ∈ kvs -> set_paths kvs m !! k = Some v.
Proof.
  revert m. induction kvs as [|[k' v'] kvs IH]; intros m Hnd Hin.
  - by apply elem_of_nil in Hin.
  - cbn in Hnd. apply NoDup_cons in Hnd as [Hk' Hnd].
    apply elem_of_cons in Hin as [Heq|Hin].
    + injection Heq as <- <-.
      change (set_paths kvs (<[k:=v]> m) !! k = Some v).
      rewrite set_paths_notin by done. apply lookup_insert_eq.
    + change (set_paths kvs (<[k':=v']> m) !! k = Some v). by apply IH.
Qed.

Lemma path_op_set_notin kvs u k :
  k ∉ kvs.*1 -> path (op_set kvs u) k = path u k.
Proof. intros H. unfold path; cbn. by rewrite set_paths_notin. Qed.

Lemma path_op_set_in kvs u k v :
  NoDup kvs.*1 -> (k, v) ∈ kvs -> path (op_set kvs u) k = v.
Proof. intros Hnd Hin. unfold path; cbn. by rewrite (set_paths_in _ _ _ v). Qed.

Lemma serialize_keys kvs : (serialize kvs).*1 = kvs.*1.
Proof.
  unfold serialize. change (map ?f) with (fmap (M:=list) f).
  rewrite <- list_fmap_compose. by apply list_fmap_ext.
Qed.

Lemma serialize_elem kvs k v : (k, v) ∈ kvs -> (k, bson v) ∈ serialize kvs.
Proof.
  intros Hin. apply list_elem_of_In, in_map_iff. exists (k, v).
  split; [done|]. by apply list_elem_of_In.
Qed.

(** What an update leaves in a path: the path is untouched when the
    update has no such key, and holds what the driver wrote otherwise. *)
Lemma path_written_notin kvs u k :
  k ∉ kvs.*1 -> path (op_set (serialize kvs) u) k = path u k.
Proof. intros H. apply path_op_set_notin. by rewrite serialize_keys. Qed.

Lemma path_written_in kvs u k v :
  NoDup kvs.*1 -> (k, v) ∈ kvs -> path (op_set (serialize kvs) u) k = bson v.
Proof.
  intros Hnd Hin. apply path_op_set_in; [by rewrite serialize_keys|].
  by apply serialize_elem.
Qed.

Lemma bson_checkRequired v : checkRequired v = true -> bson v = v.
Proof. by destruct v. Qed.

Lemma validate_required kvs k v :
  validate kvs = true -> (k, v) ∈ kvs -> mem_string k required_paths = true ->
  checkRequired v = true.
Proof.
  intros Hv Hin Hk. unfold validate in Hv. rewrite forallb_forall in Hv.
  apply list_elem_of_In, Hv in Hin.
  change (implb (mem_string k required_paths) (checkRequired v) = true) in Hin.
  by rewrite Hk in Hin.
Qed.

Lemma updateData_keys body file :
  (updateData body file).*1 =
  (profile_fields ++ match file with Some _ => ["profileImg"] | None => [] end)%list.
Proof. by destruct file. Qed.

Lemma updateData_NoDup body file : NoDup (updateData body file).*1.
Proof.
  rewrite updateData_keys. destruct file; apply (bool_decide_unpack _); by vm_compute.
Qed.

Lemma updateData_field body file f :
  In f profile_fields ->
  assoc f (updateData body file) = Some (field (body !! f))
  /\ (f, field (body !! f)) ∈ updateData body file.
Proof.
  intros Hf. cbn in Hf.
  repeat (destruct Hf as [<-|Hf]; [split; [by destruct file|destruct file; set_solver]|]).
  done.
Qed.

Lemma castUpdate_keys policy kvs k :
  k ∈ (castUpdate policy kvs).*1 -> k ∈ kvs.*1.
Proof.
  destruct policy; cbn; [done|].
  intros ((k' & v) & -> & Hin)%list_elem_of_fmap.
  apply list_elem_of_filter in Hin as [_ Hin].
  apply list_elem_of_fmap. by exists (k', v).
Qed.

Lemma castUpdate_omit_undefined kvs k :
  (forall v, (k, v) ∈ kvs -> v = JUndefined) ->
  k ∉ (castUpdate OmitUndefined kvs).*1.
Proof.
  intros Hk ((k' & v) & Heq & Hin)%list_elem_of_fmap. cbn in Heq. subst k'.
  apply list_elem_of_filter in Hin as [Hdef Hin].
  apply Hk in Hin. subst v. by cbn in Hdef.
Qed.

Lemma updateData_binding body file k v :
  In k profile_fields -> (k, v) ∈ updateData body file -> v = field (body !! k).
Proof.
  intros Hk Hin.
  pose proof (updateData_field body file k Hk) as [_ Hin'].
  pose proof (updateData_NoDup body file) as Hnd.
  pose proof (set_paths_in _ ∅ _ _ Hnd Hin) as H1.
  pose proof (set_paths_in _ ∅ _ _ Hnd Hin') as H2.
  congruence.
Qed.

Lemma profileImg_not_profile_field : ~ In "profileImg" profile_fields.
Proof. cbn. intros H. repeat (destruct H as [H|H]; [discriminate H|]). done. Qed.

Lemma updateProfile_omitted_kept_when_dropped uid body file st u f :
  findById uid st = Some u -> In f profile_fields -> body !! f = None ->
  exists u',
    findById uid (updateProfile OmitUndefined uid body file st).1 = Some u'
    /\ path u' f = path u f.
Proof.
  intros Hu Hf Hb.
  destruct (updateProfile_store OmitUndefined uid body file st)
    as [(_ & _ & _ & ->)|[_ ->]]; [|by exists u].
  rewrite findById_update_same by done. rewrite Hu. eexists; split; [done|].
  apply path_written_notin, castUpdate_omit_undefined.
  intros v Hin. apply (updateData_binding _ _ _ _ Hf) in Hin. by rewrite Hb in Hin.
Qed.

Lemma updateProfile_omitted_required_refused uid body file st f :
  mem_string f required_paths = true -> In f profile_fields -> body !! f = None ->
  (updateProfile WriteUndefined uid body file st).1 = st.
Proof.
  intros Hreq Hf Hb.
  destruct (updateProfile_store WriteUndefined uid body file st)
    as [(_ & Hv & _ & _)|[_ ->]]; [|done].
  pose proof (updateData_field body file f Hf) as [_ Hin]. rewrite Hb in Hin.
  by pose proof (validate_required _ _ _ Hv Hin Hreq).
Qed.

Lemma getUserProfile_field uid st u f :
  findById uid st = Some u -> In f profile_fields ->
  exists fields,
    (getUserProfile uid st).2 = json (Profile (_id u) fields)
    /\ assoc f fields = Some (path u f).
Proof.
  intros Hu Hf. unfold getUserProfile. rewrite Hu. cbn.
  eexists; split; [reflexivity|].
  assert (Hp : forall k, k <> "password" -> path (select_no_password u) k = path u k).
  { intros k Hk. unfold path; cbn. by rewrite lookup_delete_ne. }
  cbn in Hf.
  repeat (destruct Hf as [<-|Hf]; [cbn; by rewrite Hp|]). done.
Qed.

(** C1, as the code has it.  The update payload always holds exactly the
    eleven profile fields, in the order of the object literal, followed by
    [profileImg] exactly when a file came with the request; each of the
    eleven is bound to the submitted text, or to [undefined] when the body
    leaves it out.  The update runs the schema validators, so a [fullName]
    or [email] left out is never cleared.  What happens to the other
    omitted fields is the store's treatment of [undefined]: a store that
    sends it writes [null] over every omitted field of an accepted request
    (HTTP 200), the profile read after it shows the field as [null], and a
    refused request leaves the store as it was; a store that drops it
    leaves every omitted field at its stored value. *)
Theorem update_profile_payload_and_omitted_fields
    (policy : UndefinedPolicy) (uid : Id) (body : gmap string string)
    (file : option File) (st : Store) :
  let res := updateProfile policy uid body file st in
  (updateData body file).*1 =
    (profile_fields ++ match file with Some _ => ["profileImg"] | None => [] end)%list
  /\ (forall f, In f profile_fields ->
        assoc f (updateData body file) = Some (field (body !! f)))
  /\ (forall f u, f = "fullName" \/ f = "email" -> body !! f = None ->
        findById uid st = Some u ->
        exists u', findById uid res.1 = Some u' /\ path u' f = path u f)
  /\ (policy = WriteUndefined ->
        (status res.2 = 200 ->
         forall f, In f profile_fields -> body !! f = None ->
           exists u' fields,
             findById uid res.1 = Some u'
             /\ path u' f = JNull
             /\ (getUserProfile uid res.1).2 = json (Profile (_id u') fields)
             /\ assoc f fields = Some JNull)
        /\ (status res.2 <> 200 -> res.1 = st))
  /\ (policy = OmitUndefined ->
        forall f u, In f profile_fields -> body !! f = None ->
          findById uid st = Some u ->
          exists u', findById uid res.1 = Some u' /\ path u' f = path u f).
Proof.
  cbv zeta. split; [apply updateData_keys|].
  split; [intros f Hf; by apply updateData_field|].
  split; [|split].
  - intros f u Hreq Hb Hu.
    assert (In f profile_fields /\ mem_string f required_paths = true) as [Hf Hm].
    { destruct Hreq as [->| ->]; split; cbn; auto. }
    destruct policy.
    + rewrite (updateProfile_omitted_required_refused uid body file st f) by done.
      by exists u.
    + by apply updateProfile_omitted_kept_when_dropped.
  - intros ->. split.
    + intros Hok f Hf Hb.
      destruct (updateProfile_store WriteUndefined uid body file st)
        as [(_ & _ & [u Hu] & Hst)|[Hno _]]; [|done].
      assert (Hu' : findById uid (updateProfile WriteUndefined uid body file st).1 =
                    Some (op_set (serialize (updateData body file)) u)).
      { rewrite Hst, findById_update_same by done. by rewrite Hu. }
      assert (Hp : path (op_set (serialize (updateData body file)) u) f = JNull).
      { pose proof (updateData_field body file f Hf) as [_ Hin]. rewrite Hb in Hin.
        by rewrite (path_written_in _ _ _ _ (updateData_NoDup body file) Hin). }
      destruct (getUserProfile_field _ _ _ f Hu' Hf) as (fields & Hget & Hfield).
      rewrite Hp in Hfield.
      by exists (op_set (serialize (updateData body file)) u), fields.
    + intros Hno.
      by destruct (updateProfile_store WriteUndefined uid body file st)
        as [(Hok & _)|[_ ->]].
  - intros -> f u Hf Hb Hu. by apply updateProfile_omitted_kept_when_dropped.
Qed.

(** ** The profile image *)

Lemma castUpdate_profileImg policy body file :
  (castUpdate policy
     (updateData body (Some file))) =
  (castUpdate policy (updateData body None)
   ++ [("profileImg", JStr ("/uploads/" +:+ filename file))])%list.
Proof.
  destruct policy; [done|].
  unfold castUpdate, updateData. by rewrite filter_app.
Qed.

Lemma set_paths_snoc kvs k v (m : gmap string JsVal) :
  set_paths (kvs ++ [(k, v)]) m = <[k := v]> (set_paths kvs m).
Proof. unfold set_paths. by rewrite fold_left_app. Qed.

Lemma serialize_app kvs kvs' :
  serialize (kvs ++ kvs') = (serialize kvs ++ serialize kvs')%list.
Proof. apply map_app. Qed.

(** C8, as the code has it.  When the request carries an image file and
    the update goes through (HTTP 200), the stored [profileImg] is
    "/uploads/profile-" followed by the decimal time of the upload and
    the extension of the file's original name.  When the request carries
    a file and the update is refused (any other status), the store is as
    it was before, the stored [profileImg] with it.  When the request
    carries no file, the update payload has no [profileImg] key, whatever
    the store does with [undefined], and the stored [profileImg] is the
    one from before the request. *)
Theorem profile_image_set_only_with_file
    (policy : UndefinedPolicy) (extname : string -> string) (now : Z)
    (uid : Id) (body : gmap string string) (st : Store) :
  (forall original,
     let res := updateProfile policy uid body
                  (upload_single extname now (Some original)) st in
     (status res.2 = 200 ->
      exists u',
        findById uid res.1 = Some u'
        /\ path u' "profileImg" =
             JStr ("/uploads/" +:+ "profile-" +:+ pretty now +:+ extname original))
     /\ (status res.2 <> 200 ->
         res.1 = st
         /\ forall u, findById uid st = Some u ->
              exists u', findById uid res.1 = Some u'
                         /\ path u' "profileImg" = path u "profileImg"))
  /\ (let file := upload_single extname now None in
      let res := updateProfile policy uid body file st in
      ~ In "profileImg" (updateData body file).*1
      /\ ~ In "profileImg" (castUpdate policy (updateData body file)).*1
      /\ forall u, findById uid st = Some u ->
           exists u', findById uid res.1 = Some u'
                      /\ path u' "profileImg" = path u "profileImg").
Proof.
  split.
  - intros original res. subst res.
    destruct (updateProfile_store policy uid body
                (upload_single extname now (Some original)) st)
      as [(Hok & _ & [u Hu] & Hst)|[Hno Hst]].
    + split; [intros _|done].
      rewrite Hst, findById_update_same by done. rewrite Hu.
      eexists; split; [reflexivity|].
      cbn [upload_single fmap option_fmap option_map].
      rewrite castUpdate_profileImg, serialize_app. unfold path; cbn [op_set paths].
      change (serialize [("profileImg", ?v)]) with [("profileImg", v)].
      rewrite set_paths_snoc, lookup_insert_eq. reflexivity.
    + split; [done|intros _]. split; [exact Hst|].
      intros u Hu. exists u. by rewrite Hst.
  - cbv zeta. cbn [upload_single fmap option_fmap option_map].
    assert (Hk : ~ In "profileImg" (updateData body None).*1).
    { rewrite updateData_keys, app_nil_r. apply profileImg_not_profile_field. }
    assert (Hc : ~ In "profileImg" (castUpdate policy (updateData body None)).*1).
    { intros H. apply Hk. apply list_elem_of_In. apply list_elem_of_In in H.
      by eapply castUpdate_keys. }
    split; [done|]. split; [done|].
    intros u Hu.
    destruct (updateProfile_store policy uid body None st)
      as [(_ & _ & _ & ->)|[_ ->]]; [|by exists u].
    rewrite findById_update_same by done. rewrite Hu.
    eexists; split; [reflexivity|].
    apply path_written_notin. intros H. by apply Hc, list_elem_of_In.
Qed.

(** * Worked requests *)

(** Against C1 as stated.  The specification's example, a profile update
    with only a phone and a blood type, against Ann's fresh account.  A store that writes
    [undefined] refuses the update (the required name and email would be
    cleared) and nothing changes; a store that drops [undefined] applies
    the two fields and keeps everything else.  Either way the profile
    read afterwards still shows the name and the email, where C1 expects
    them empty or absent. *)
Lemma partial_update_keeps_name_and_email :
  Sample.phone_and_blood !! "fullName" = None
  /\ Sample.phone_and_blood !! "email" = None
  /\ status (updateProfile WriteUndefined 0%nat Sample.phone_and_blood None
               Sample.ann_store).2 = 500
  /\ (getUserProfile 0%nat
        (updateProfile WriteUndefined 0%nat Sample.phone_and_blood None
           Sample.ann_store).1).2 =
     json (Profile 0%nat
             [("name", JStr "Ann"); ("fullName", JStr "Ann");
              ("email", JStr "ann@example.org"); ("phone", JStr "");
              ("address", JStr ""); ("gender", JStr ""); ("dob", JStr "");
              ("profileImg", JStr ""); ("bloodType", JStr "");
              ("height", JStr ""); ("weight", JStr ""); ("allergies", JStr "");
              ("conditions", JStr "")])
  /\ status (updateProfile OmitUndefined 0%nat Sample.phone_and_blood None
               Sample.ann_store).2 = 200
  /\ (getUserProfile 0%nat
        (updateProfile OmitUndefined 0%nat Sample.phone_and_blood None
           Sample.ann_store).1).2 =
     json (Profile 0%nat
             [("name", JStr "Ann"); ("fullName", JStr "Ann");
              ("email", JStr "ann@example.org"); ("phone", JStr "555");
              ("address", JStr ""); ("gender", JStr ""); ("dob", JStr "");
              ("profileImg", JStr ""); ("bloodType", JStr "O+");
              ("height", JStr ""); ("weight", JStr ""); ("allergies", JStr "");
              ("conditions", JStr "")]).
Proof. repeat split; vm_compute; reflexivity. Qed.

(** C1 at work: Ann resends her name and email and sets a gender; the
    store is sent [undefined], accepts the update, and her phone, left out
    of the body, is [null] from then on. *)
Lemma update_profile_payload_and_omitted_fields_witness :
  status (updateProfile WriteUndefined 0%nat Sample.name_email_gender None
            Sample.ann_store).2 = 200
  /\ In "phone" profile_fields
  /\ Sample.name_email_gender !! "phone" = None
  /\ exists u' fields,
       findById 0%nat
         (updateProfile WriteUndefined 0%nat Sample.name_email_gender None
            Sample.ann_store).1 = Some u'
       /\ path u' "phone" = JNull
       /\ (getUserProfile 0%nat
             (updateProfile WriteUndefined 0%nat Sample.name_email_gender None
                Sample.ann_store).1).2 = json (Profile (_id u') fields)
       /\ assoc "phone" fields = Some JNull.
Proof.
  assert (H200 : status (updateProfile WriteUndefined 0%nat Sample.name_email_gender
                           None Sample.ann_store).2 = 200)
    by (vm_compute; reflexivity).
  assert (Hin : In "phone" profile_fields) by (simpl; auto).
  assert (Hb : Sample.name_email_gender !! "phone" = None)
    by (vm_compute; reflexivity).
  split; [exact H200|]. split; [exact Hin|]. split; [exact Hb|].
  destruct (update_profile_payload_and_omitted_fields WriteUndefined 0%nat
              Sample.name_email_gender None Sample.ann_store)
    as (_ & _ & _ & Hwrite & _).
  destruct (Hwrite eq_refl) as [Hok _].
  exact (Hok H200 "phone" Hin Hb).
Defined.

(** Against C2 as stated.  Served one after another, two saves of a page
    whose url is an object both succeed, and Ann has two entries with the
    same [content.url].  And when two saves of the same article are in
    flight together, both lookups see no duplicate, both pushes happen,
    and Ann has two entries with the same string url. *)
Lemma same_url_stored_twice :
  reachable OmitUndefined Sample.jwt_sign Sample.jwt_verify Sample.extname
    More.linked_twice
  /\ (fun u => map content_url (savedData u)) <$> findById 0%nat More.linked_twice =
     Some [JObj [("href", JStr "https://example.org/x")];
           JObj [("href", JStr "https://example.org/x")]]
  /\ (savePage_overlapped 0%nat
        1000 None (Sample.article "https://example.org/bp") None
        1001 None (Sample.article "https://example.org/bp") None
        Sample.ann_store).1.2 = json (Message "Page saved successfully!")
  /\ (savePage_overlapped 0%nat
        1000 None (Sample.article "https://example.org/bp") None
        1001 None (Sample.article "https://example.org/bp") None
        Sample.ann_store).2 = json (Message "Page saved successfully!")
  /\ (fun u => map content_url (savedData u)) <$>
       findById 0%nat
         (savePage_overlapped 0%nat
            1000 None (Sample.article "https://example.org/bp") None
            1001 None (Sample.article "https://example.org/bp") None
            Sample.ann_store).1.1 =
     Some [JStr "https://example.org/bp"; JStr "https://example.org/bp"].
Proof.
  split.
  - unfold More.linked_twice, More.ann_registered, Sample.run.
    apply reachable_serve, reachable_serve, reachable_serve, reachable_empty.
  - repeat split; vm_compute; reflexivity.
Qed.

(** C2 at work: Ann has two pages; saving the first url again is refused,
    and the two stored urls differ. *)
Lemma duplicate_url_rejected_and_primitive_urls_distinct_witness :
  findById 0%nat (Sample.two_pages OmitUndefined) =
    Some (op_push_savedData Sample.page2 (op_push_savedData Sample.page1 Sample.ann))
  /\ get_prop (Sample.article "https://example.org/bp") "url" =
       Ok (JStr "https://example.org/bp")
  /\ In Sample.page1
        (savedData (op_push_savedData Sample.page2
                      (op_push_savedData Sample.page1 Sample.ann)))
  /\ strict_eq (content_url Sample.page1) (JStr "https://example.org/bp") = true
  /\ savePage 5000 0%nat (Some "again") (Sample.article "https://example.org/bp") None
       (Sample.two_pages OmitUndefined) =
     (Sample.two_pages OmitUndefined,
      status_json 400 (Message "You have already saved this article."))
  /\ reachable OmitUndefined Sample.jwt_sign Sample.jwt_verify Sample.extname
       (Sample.two_pages OmitUndefined)
  /\ is_primitive_url (content_url Sample.page1) = true
  /\ content_url Sample.page1 <> content_url Sample.page2.
Proof.
  assert (Hu : findById 0%nat (Sample.two_pages OmitUndefined) =
               Some (op_push_savedData Sample.page2
                       (op_push_savedData Sample.page1 Sample.ann)))
    by (vm_compute; reflexivity).
  assert (Hurl : get_prop (Sample.article "https://example.org/bp") "url" =
                 Ok (JStr "https://example.org/bp")) by reflexivity.
  assert (Hin : In Sample.page1
                  (savedData (op_push_savedData Sample.page2
                                (op_push_savedData Sample.page1 Sample.ann))))
    by (left; reflexivity).
  assert (Heq : strict_eq (content_url Sample.page1)
                          (JStr "https://example.org/bp") = true)
    by (vm_compute; reflexivity).
  assert (Hr : reachable OmitUndefined Sample.jwt_sign Sample.jwt_verify
                 Sample.extname (Sample.two_pages OmitUndefined)).
  { unfold Sample.two_pages, Sample.one_page, Sample.run.
    apply reachable_serve, reachable_serve, reachable_serve, reachable_empty. }
  assert (Hprim : is_primitive_url (content_url Sample.page1) = true)
    by (vm_compute; reflexivity).
  destruct duplicate_url_rejected_and_primitive_urls_distinct as [Hdup Hinv].
  split; [exact Hu|]. split; [exact Hurl|]. split; [exact Hin|].
  split; [exact Heq|].
  split; [exact (Hdup 5000 0%nat (Some "again") _ None _ _ _ _ Hu Hurl Hin Heq)|].
  split; [exact Hr|]. split; [exact Hprim|].
  refine (Hinv _ _ _ _ _ Hr
            (op_push_savedData Sample.page2
               (op_push_savedData Sample.page1 Sample.ann))
            0%nat 1%nat Sample.page1 Sample.page2 _ _ _ _ Hprim).
  - left. vm_compute. reflexivity.
  - reflexivity.
  - reflexivity.
  - lia.
Defined.

(** C3 at work: two saves by Ann, at times 1000 and 2000. *)
Lemma saved_pages_listed_newest_first_witness :
  findById 0%nat Sample.ann_store = Some Sample.ann
  /\ status (savePage 1000 0%nat (Some "Blood pressure")
               (Sample.article "https://example.org/bp") None Sample.ann_store).2 = 200
  /\ status (savePage 2000 0%nat None (Sample.article "https://example.org/heart")
               (Some "Cardiology")
               (savePage 1000 0%nat (Some "Blood pressure")
                  (Sample.article "https://example.org/bp") None
                  Sample.ann_store).1).2 = 200
  /\ 1000 < 2000
  /\ exists before between after e1 e2,
       getMySavedPages 0%nat
         (savePage 2000 0%nat None (Sample.article "https://example.org/heart")
            (Some "Cardiology")
            (savePage 1000 0%nat (Some "Blood pressure")
               (Sample.article "https://example.org/bp") None
               Sample.ann_store).1).1 =
       ((savePage 2000 0%nat None (Sample.article "https://example.org/heart")
           (Some "Cardiology")
           (savePage 1000 0%nat (Some "Blood pressure")
              (Sample.article "https://example.org/bp") None
              Sample.ann_store).1).1,
        json (SavedPages (before ++ e2 :: between ++ e1 :: after)))
       /\ SavedData.savedAt e1 = 1000 /\ SavedData.savedAt e2 = 2000.
Proof.
  assert (Hu : findById 0%nat Sample.ann_store = Some Sample.ann)
    by (vm_compute; reflexivity).
  assert (H1 : status (savePage 1000 0%nat (Some "Blood pressure")
                         (Sample.article "https://example.org/bp") None
                         Sample.ann_store).2 = 200)
    by (vm_compute; reflexivity).
  assert (H2 : status (savePage 2000 0%nat None
                         (Sample.article "https://example.org/heart")
                         (Some "Cardiology")
                         (savePage 1000 0%nat (Some "Blood pressure")
                            (Sample.article "https://example.org/bp") None
                            Sample.ann_store).1).2 = 200)
    by (vm_compute; reflexivity).
  assert (Hlt : 1000 < 2000) by lia.
  split; [exact Hu|]. split; [exact H1|]. split; [exact H2|]. split; [exact Hlt|].
  destruct (saved_pages_listed_newest_first 0%nat Sample.ann_store Sample.ann Hu)
    as [_ Htwo].
  destruct (Htwo 1000 2000 (Some "Blood pressure")
              (Sample.article "https://example.org/bp") None
              None (Sample.article "https://example.org/heart") (Some "Cardiology")
              H1 H2 Hlt)
    as (before & between & after & e1 & e2 & Hget & _ & _ & Ht1 & _ & _ & Ht2).
  exists before, between, after, e1, e2. split; [exact Hget|]. split; assumption.
Defined.

(** The same two saves, evaluated: the later page is listed first. *)
Example two_saves_listed_latest_first :
  (getMySavedPages 0%nat (Sample.two_pages OmitUndefined)).2 =
  json (SavedPages [Sample.page2; Sample.page1]).
Proof. vm_compute. reflexivity. Qed.

(** C4 at work: Ann posts appointment A, then B; both posts are answered
    500 and the listing is empty. *)
Lemma news_listed_in_reverse_appointments_never_added_witness :
  findById 0%nat Sample.ann_store = Some Sample.ann
  /\ addAppointment 0%nat (Some "Dr. A") (Some "Cardiology") (Some "2025-01-10") None
       Sample.ann_store =
     (Sample.ann_store, status_json 500 (Message "Error adding appointment"))
  /\ addAppointment 0%nat (Some "Dr. B") (Some "General") (Some "2025-02-01")
       (Some "Completed")
       (addAppointment 0%nat (Some "Dr. A") (Some "Cardiology") (Some "2025-01-10")
          None Sample.ann_store).1 =
     (Sample.ann_store, status_json 500 (Message "Error adding appointment"))
  /\ getAppointments 0%nat
       (addAppointment 0%nat (Some "Dr. B") (Some "General") (Some "2025-02-01")
          (Some "Completed")
          (addAppointment 0%nat (Some "Dr. A") (Some "Cardiology")
             (Some "2025-01-10") None Sample.ann_store).1).1 =
     (Sample.ann_store, json (Appointments [])).
Proof.
  assert (Hu : findById 0%nat Sample.ann_store = Some Sample.ann)
    by (vm_compute; reflexivity).
  split; [exact Hu|].
  destruct (news_listed_in_reverse_appointments_never_added 0%nat Sample.ann_store
              Sample.ann Hu) as (_ & _ & _ & Happt & _).
  exact (Happt (Some "Dr. A") (Some "Cardiology") (Some "2025-01-10") None
               (Some "Dr. B") (Some "General") (Some "2025-02-01")
               (Some "Completed")).
Defined.

(** Two news entries added by Ann are listed latest first. *)
Example two_news_listed_latest_first :
  (getNews 0%nat
     (addNews 20 0%nat (Some "Flu season") None None None
        (addNews 10 0%nat (Some "Heat wave") None None None Sample.ann_store).1).1).2 =
  json (News
          [{| NewsHistory._id := 2%nat; NewsHistory.title := JStr "Flu season";
              NewsHistory.source := JUndefined; NewsHistory.date := JUndefined;
              NewsHistory.url := JUndefined; NewsHistory.addedAt := 20 |};
           {| NewsHistory._id := 1%nat; NewsHistory.title := JStr "Heat wave";
              NewsHistory.source := JUndefined; NewsHistory.date := JUndefined;
              NewsHistory.url := JUndefined; NewsHistory.addedAt := 10 |}]).
Proof. vm_compute. reflexivity. Qed.

(** Against C5 as stated: a delete whose path parameter writes no id is
    answered 500, for saved pages and for news; it does not get the
    success message. *)
Lemma delete_with_malformed_id_is_500 :
  Sample.run OmitUndefined 9 (DeleteMySavedPage Sample.bearer (OtherText "first"))
    (Sample.two_pages OmitUndefined) =
    (Sample.two_pages OmitUndefined,
     status_json 500 (Message "Server error deleting item"))
  /\ Sample.run OmitUndefined 9 (DeleteNews Sample.bearer (OtherText "first"))
       (Sample.two_pages OmitUndefined) =
     (Sample.two_pages OmitUndefined, status_json 500 (Message "Error deleting news")).
Proof. split; vm_compute; reflexivity. Qed.

(** C5 at work: deleting a sub-id Ann does not have succeeds and changes
    no document. *)
Lemma delete_by_id_removes_matching_or_fails_witness :
  findById 0%nat (Sample.two_pages OmitUndefined) =
    Some (op_push_savedData Sample.page2 (op_push_savedData Sample.page1 Sample.ann))
  /\ Forall (fun e => SavedData._id e ≠ 99%nat)
       (savedData (op_push_savedData Sample.page2
                     (op_push_savedData Sample.page1 Sample.ann)))
  /\ (deleteMySavedPage 0%nat (ObjectIdText 99%nat) (Sample.two_pages OmitUndefined)).2 =
     json (Message "Item deleted successfully")
  /\ users (deleteMySavedPage 0%nat (ObjectIdText 99%nat)
              (Sample.two_pages OmitUndefined)).1 =
     users (Sample.two_pages OmitUndefined).
Proof.
  assert (Hu : findById 0%nat (Sample.two_pages OmitUndefined) =
               Some (op_push_savedData Sample.page2
                       (op_push_savedData Sample.page1 Sample.ann)))
    by (vm_compute; reflexivity).
  assert (Hall : Forall (fun e => SavedData._id e ≠ 99%nat)
                   (savedData (op_push_savedData Sample.page2
                                 (op_push_savedData Sample.page1 Sample.ann)))).
  { repeat constructor; simpl; lia. }
  destruct (delete_by_id_removes_matching_or_fails 0%nat (ObjectIdText 99%nat)
              (Sample.two_pages OmitUndefined))
    as ((Hres & _) & _ & Hnone & _).
  split; [exact Hu|]. split; [exact Hall|]. split; [exact Hres|].
  exact (proj1 (Hnone _ Hu) Hall).
Defined.

(** Deleting one of Ann's two pages by its sub-id leaves the other. *)
Example delete_page1_leaves_page2 :
  savedData <$> findById 0%nat
    (deleteMySavedPage 0%nat (ObjectIdText 1%nat) (Sample.two_pages OmitUndefined)).1 =
  Some [Sample.page2].
Proof. vm_compute. reflexivity. Qed.

(** Against C6 as stated: a request whose Authorization header is
    present with an empty value is answered 401; it is not handed to the
    verification, which would have failed and answered 400. *)
Lemma empty_authorization_header_is_401 :
  ({["authorization" := ""]} : gmap string string) !! "authorization" = Some ""
  /\ verifyToken Sample.jwt_verify {["authorization" := ""]} =
     Rejected (status_json 401 (Message "Access Denied: No Token"))
  /\ Sample.jwt_verify "" = Throw "invalid signature".
Proof. repeat split; vm_compute; reflexivity. Qed.

(** C6 at work: the token issued to Ann, sent as a bearer token. *)
Lemma verifyToken_contract_witness :
  Sample.bearer !! "authorization" = Some ("Bearer " +:+ "token-of-0")
  /\ verifyToken Sample.jwt_verify Sample.bearer = Next {| Jwt.id := 0%nat |}
  /\ protected Sample.jwt_verify Sample.bearer getUserProfile Sample.ann_store =
     getUserProfile 0%nat Sample.ann_store.
Proof.
  assert (Hh : Sample.bearer !! "authorization" = Some ("Bearer " +:+ "token-of-0"))
    by (vm_compute; reflexivity).
  destruct (verifyToken_contract Sample.jwt_verify Sample.bearer)
    as (_ & Hbearer & _ & Hnext).
  pose proof (Hbearer "token-of-0" Hh) as Hv.
  split; [exact Hh|]. split; [exact Hv|].
  exact (Hnext {| Jwt.id := 0%nat |} getUserProfile Sample.ann_store Hv).
Defined.


(** Against C8 as stated: a profile update that carries an image file
    and is refused sets no [profileImg].  Ann sends a picture with only a
    phone and a blood type to a store that is sent [undefined], or with
    a blanked name to either store: the answer is 500 and her
    [profileImg] is the empty string it was. *)
Lemma refused_update_with_file_sets_no_profileImg :
  status (updateProfile WriteUndefined 0%nat Sample.phone_and_blood
            (upload_single Sample.extname 1700000000000 (Some "me.png"))
            Sample.ann_store).2 = 500
  /\ (fun u => path u "profileImg") <$>
       findById 0%nat
         (updateProfile WriteUndefined 0%nat Sample.phone_and_blood
            (upload_single Sample.extname 1700000000000 (Some "me.png"))
            Sample.ann_store).1 = Some (JStr "")
  /\ status (updateProfile OmitUndefined 0%nat More.blank_name
               (upload_single Sample.extname 1700000000000 (Some "me.png"))
               Sample.ann_store).2 = 500
  /\ (fun u => path u "profileImg") <$>
       findById 0%nat
         (updateProfile OmitUndefined 0%nat More.blank_name
            (upload_single Sample.extname 1700000000000 (Some "me.png"))
            Sample.ann_store).1 = Some (JStr "").
Proof. repeat split; vm_compute; reflexivity. Qed.

(** C8 at work: Ann uploads me.png at time 1700000000000. *)
Lemma profile_image_set_only_with_file_witness :
  status (updateProfile OmitUndefined 0%nat Sample.name_email_gender
            (upload_single Sample.extname 1700000000000 (Some "me.png"))
            Sample.ann_store).2 = 200
  /\ exists u',
       findById 0%nat
         (updateProfile OmitUndefined 0%nat Sample.name_email_gender
            (upload_single Sample.extname 1700000000000 (Some "me.png"))
            Sample.ann_store).1 = Some u'
       /\ path u' "profileImg" = JStr "/uploads/profile-1700000000000.png".
Proof.
  assert (H200 : status (updateProfile OmitUndefined 0%nat Sample.name_email_gender
                           (upload_single Sample.extname 1700000000000 (Some "me.png"))
                           Sample.ann_store).2 = 200)
    by (vm_compute; reflexivity).
  split; [exact H200|].
  destruct (profile_image_set_only_with_file OmitUndefined Sample.extname
              1700000000000 0%nat Sample.name_email_gender Sample.ann_store)
    as [Hfile _].
  exact (proj1 (Hfile "me.png") H200).
Defined.

(** C9 at work: a token for user 7, who has no document. *)
Lemma missing_user_500_for_news_and_appointments_witness :
  findById 7%nat Sample.ann_store = None
  /\ (getNews 7%nat Sample.ann_store).2 =
     status_json 500 (Message "Error fetching news")
  /\ (getMySavedPages 7%nat Sample.ann_store).2 =
     status_json 404 (Message "User not found").
Proof.
  assert (H : findById 7%nat Sample.ann_store = None) by (vm_compute; reflexivity).
  destruct (missing_user_500_for_news_and_appointments 7%nat Sample.ann_store H)
    as (Hnews & _ & _ & Hsaved).
  split; [exact H|]. split.
  - exact (f_equal snd Hnews).
  - exact (f_equal snd Hsaved).
Defined.

(** Against C10 as stated.  Ann, who has a note without a url, saves a
    page whose url is an empty object: the check compares [undefined] with
    an object and passes, the store keeps the page without its empty url,
    and Ann has two entries without [content.url].  And when two notes
    without a url are in flight together, both are stored. *)
Lemma two_entries_without_url :
  reachable OmitUndefined Sample.jwt_sign Sample.jwt_verify Sample.extname
    More.note_and_empty_url
  /\ get_prop More.empty_url_page "url" = Ok (JObj [])
  /\ (fun u => map content_url (savedData u)) <$>
       findById 0%nat More.note_and_empty_url =
     Some [JStr "https://example.org/bp"; JStr "https://example.org/heart";
           JUndefined; JUndefined]
  /\ (savePage_overlapped 0%nat
        1000 (Some "Note") Sample.note None
        1001 (Some "Another note") Sample.note None
        Sample.ann_store).1.2 = json (Message "Page saved successfully!")
  /\ (savePage_overlapped 0%nat
        1000 (Some "Note") Sample.note None
        1001 (Some "Another note") Sample.note None
        Sample.ann_store).2 = json (Message "Page saved successfully!")
  /\ (fun u => map content_url (savedData u)) <$>
       findById 0%nat
         (savePage_overlapped 0%nat
            1000 (Some "Note") Sample.note None
            1001 (Some "Another note") Sample.note None
            Sample.ann_store).1.1 =
     Some [JUndefined; JUndefined].
Proof.
  split.
  - unfold More.note_and_empty_url, Sample.with_note, Sample.two_pages,
      Sample.one_page, Sample.run.
    apply reachable_serve, reachable_serve, reachable_serve, reachable_serve,
      reachable_serve, reachable_empty.
  - repeat split; vm_compute; reflexivity.
Qed.

(** C10 at work: Ann has saved a note without a url; a second one is
    refused. *)
Lemma url_less_request_refused_after_url_less_entry_witness :
  get_prop Sample.note "url" = Ok JUndefined
  /\ get_prop (JObj [("heading", JStr "Another note")]) "url" = Ok JUndefined
  /\ status (savePage 3000 0%nat (Some "Note") Sample.note None
               (Sample.two_pages OmitUndefined)).2 = 200
  /\ savePage 4000 0%nat None (JObj [("heading", JStr "Another note")]) None
       (savePage 3000 0%nat (Some "Note") Sample.note None
          (Sample.two_pages OmitUndefined)).1 =
     ((savePage 3000 0%nat (Some "Note") Sample.note None
         (Sample.two_pages OmitUndefined)).1,
      status_json 400 (Message "You have already saved this article.")).
Proof.
  assert (Hurl : get_prop Sample.note "url" = Ok JUndefined) by reflexivity.
  assert (Hurl' : get_prop (JObj [("heading", JStr "Another note")]) "url" =
                  Ok JUndefined) by reflexivity.
  assert (Hok : status (savePage 3000 0%nat (Some "Note") Sample.note None
                          (Sample.two_pages OmitUndefined)).2 = 200)
    by (vm_compute; reflexivity).
  destruct url_less_request_refused_after_url_less_entry as (_ & _ & Hnext).
  split; [exact Hurl|]. split; [exact Hurl'|]. split; [exact Hok|].
  exact (Hnext 3000 4000 0%nat (Some "Note") None Sample.note
           (JObj [("heading", JStr "Another note")]) None None
           (Sample.two_pages OmitUndefined) Hurl Hurl' Hok).
Defined.

(** * Further properties *)

(** ** Registration, case by case *)

Lemma register_outcome fullName email password st :
  let res := register fullName email password st in
  (status res.2 = 201
   /\ exists f e p,
        fullName = Some f /\ email = Some e /\ password = Some p
        /\ f <> "" /\ e <> "" /\ p <> ""
        /\ findOne_email (JStr e) st = None
        /\ res.1 = {| users := users st ++ [new_account (nextId st) f e p];
                      nextId := S (nextId st) |})
  \/ (status res.2 = 400 /\ is_Some (findOne_email (field email) st) /\ res.1 = st)
  \/ (status res.2 = 500 /\ findOne_email (field email) st = None
      /\ (checkRequired (field fullName) && checkRequired (field email)
          && checkRequired (field password) = false)
      /\ res.1 = st).
Proof.
  cbv zeta. unfold register.
  destruct (findOne_email (field email) st) as [u|] eqn:Hfind.
  { right; left. cbn. eauto. }
  destruct fullName as [[|c1 f]|], email as [[|c2 e]|], password as [[|c3 p]|];
    try (right; right; vm_compute; done).
  left. split; [vm_compute; done|].
  exists (String c1 f), (String c2 e), (String c3 p).
  repeat split; try done. 
Qed.

(** ** Accounts stay well formed *)

Lemma map_alter_by_id {B} (g : User -> B) f uid us :
  (forall u, g (f u) = g u) -> map g (alter_by_id f uid us) = map g us.
Proof.
  intros Hg. induction us as [|u us IH]; simpl; [done|].
  destruct (has_id uid u); simpl; [by rewrite Hg|by rewrite IH].
Qed.

Lemma well_formed_same_accounts st st' :
  map account_of (users st') = map account_of (users st) ->
  (nextId st <= nextId st')%nat ->
  well_formed st -> well_formed st'.
Proof.
  intros Hacc Hn [Hb Hd Hr He]. split.
  - change (Forall ((fun a => (a.1 < nextId st')%nat) ∘ account_of) (users st')).
    apply Forall_fmap. change (@fmap list _ _ _ account_of) with (map account_of).
    rewrite Hacc. apply Forall_fmap.
    eapply Forall_impl; [exact Hb|]. cbn. intros u Hu. lia.
  - replace (map _id (users st')) with (map fst (map account_of (users st')))
      by (by rewrite map_map).
    rewrite Hacc, map_map. exact Hd.
  - change (Forall ((fun a => Forall (fun k => checkRequired
                        (default JUndefined (a.2 !! k)) = true) required_paths)
                    ∘ account_of) (users st')).
    apply Forall_fmap. change (@fmap list _ _ _ account_of) with (map account_of).
    rewrite Hacc. apply Forall_fmap. exact Hr.
  - intros i j u' v' Hi Hj Hne.
    assert (Hlook : forall k w', users st' !! k = Some w' ->
              exists w, users st !! k = Some w /\ paths w = paths w').
    { intros k w' Hk.
      assert (H1 : map account_of (users st') !! k = Some (account_of w')).
      { change (map account_of) with (@fmap list _ _ _ account_of).
        by rewrite list_lookup_fmap, Hk. }
      rewrite Hacc in H1. change (map account_of) with (@fmap list _ _ _ account_of) in H1.
      rewrite list_lookup_fmap in H1.
      destruct (users st !! k) as [w|]; [|done]. injection H1 as H1 H2. eauto. }
    destruct (Hlook _ _ Hi) as (u & Hu & Hpu), (Hlook _ _ Hj) as (v & Hv & Hpv).
    unfold path. rewrite <- Hpu, <- Hpv. exact (He i j u v Hu Hv Hne).
Qed.

Lemma well_formed_update f uid n st :
  (forall u, _id (f u) = _id u) -> (forall u, paths (f u) = paths u) ->
  (nextId st <= n)%nat ->
  well_formed st ->
  well_formed {| users := alter_by_id f uid (users st); nextId := n |}.
Proof.
  intros Hid Hp Hn. apply well_formed_same_accounts; [|done].
  cbn. apply map_alter_by_id. intros u. unfold account_of. by rewrite Hid, Hp.
Qed.

Lemma path_new_account uid f e p :
  path (new_account uid f e p) "fullName" = JStr f
  /\ path (new_account uid f e p) "email" = JStr e
  /\ path (new_account uid f e p) "password" = JStr p.
Proof. repeat split; vm_compute; reflexivity. Qed.

Lemma checkRequired_nonempty s : s <> "" -> checkRequired (JStr s) = true.
Proof. intros H. cbn. by apply negb_true_iff, String.eqb_neq. Qed.

Lemma findOne_email_None email st u :
  findOne_email email st = None -> In u (users st) ->
  strict_eq (path u "email") email = false.
Proof. intros H Hin. exact (find_none _ _ H u Hin). Qed.

Lemma well_formed_register fullName email password st :
  well_formed st -> well_formed (register fullName email password st).1.
Proof.
  intros Hwf.
  destruct (register_outcome fullName email password st)
    as [(_ & f & e & p & _ & _ & _ & Hf & He & Hp & Hnone & ->)
       |[(_ & _ & ->)|(_ & _ & _ & ->)]]; [|done|done].
  destruct Hwf as [Hb Hd Hr Hem].
  destruct (path_new_account (nextId st) f e p) as (Pf & Pe & Pp).
  split; cbn [users nextId].
  - apply Forall_app. split.
    + eapply Forall_impl; [exact Hb|]. cbn. intros u Hu. lia.
    + repeat constructor.
  - rewrite map_app. apply NoDup_app. split; [done|]. split.
    + intros x Hx ->%list_elem_of_singleton.
      apply list_elem_of_fmap in Hx as (u & Hid & Hu).
      rewrite List.Forall_forall in Hb.
      apply list_elem_of_In, Hb in Hu. cbn in Hid. lia.
    + apply NoDup_singleton.
  - apply Forall_app. split; [done|]. constructor; [|constructor].
    repeat constructor; rewrite ?Pf, ?Pe, ?Pp; by apply checkRequired_nonempty.
  - intros i j u v Hi Hj Hne.
    assert (Hnew : forall w, In w (users st) ->
              strict_eq (path w "email") (JStr e) = false).
    { intros w Hw. by eapply findOne_email_None. }
    apply lookup_app_Some in Hi as [Hi|[Hil Hi]];
      apply lookup_app_Some in Hj as [Hj|[Hjl Hj]].
    + by eapply Hem.
    + apply list_lookup_singleton_Some in Hj as [_ <-]. rewrite Pe.
      apply Hnew, list_elem_of_In. by eapply list_elem_of_lookup_2.
    + apply list_lookup_singleton_Some in Hi as [_ <-]. rewrite Pe, strict_eq_sym.
      apply Hnew, list_elem_of_In. by eapply list_elem_of_lookup_2.
    + apply list_lookup_singleton_Some in Hi as [Hi0 _].
      apply list_lookup_singleton_Some in Hj as [Hj0 _]. lia.
Qed.

Lemma updateProfile_accepted policy uid body file st :
  let res := updateProfile policy uid body file st in
  let casted := castUpdate policy (updateData body file) in
  status res.2 = 200 ->
  validate casted = true
  /\ email_taken uid casted st = false
  /\ exists u,
       findById uid st = Some u
       /\ res = ((findByIdAndUpdate uid (op_set (serialize casted)) st).1,
                 json (Updated "Profile updated successfully!"
                         (select_no_password (op_set (serialize casted) u)))).
Proof.
  cbv zeta. unfold updateProfile, findByIdAndUpdate_set.
  destruct (validate _) eqn:Hv; cbn; [|done].
  destruct (email_taken _ _ _) eqn:He; cbn; [done|].
  destruct (findById uid st) as [u|] eqn:Hu; cbn; [|done].
  intros _. repeat split. by exists u.
Qed.

Lemma NoDup_fst_filter {A B} (P : A * B -> Prop) `{!forall x, Decision (P x)}
    (kvs : list (A * B)) :
  NoDup kvs.*1 -> NoDup (filter P kvs).*1.
Proof.
  induction kvs as [|kv kvs IH]; [done|].
  rewrite fmap_cons. intros [Hk Hnd]%NoDup_cons. destruct (decide (P kv)).
  - rewrite filter_cons_True by done. rewrite fmap_cons. apply NoDup_cons. split; [|by apply IH].
    intros (kv' & Heq & Hin)%list_elem_of_fmap. apply Hk.
    apply list_elem_of_filter in Hin as [_ Hin].
    apply list_elem_of_fmap. eauto.
  - rewrite filter_cons_False by done. by apply IH.
Qed.

Lemma castUpdate_NoDup policy body file :
  NoDup (castUpdate policy (updateData body file)).*1.
Proof.
  destruct policy; cbn; [apply updateData_NoDup|].
  apply NoDup_fst_filter, updateData_NoDup.
Qed.

Lemma assoc_Some_elem k kvs v : assoc k kvs = Some v -> (k, v) ∈ kvs.
Proof.
  induction kvs as [|[k' v'] kvs IH]; cbn; [done|].
  destruct (String.eqb_spec k k') as [->|Hne].
  - intros [= ->]. by left.
  - intros H. right. by apply IH.
Qed.

Lemma assoc_None_notin k kvs : assoc k kvs = None -> k ∉ kvs.*1.
Proof.
  induction kvs as [|[k' v'] kvs IH]; cbn; [intros _; apply not_elem_of_nil|].
  destruct (String.eqb_spec k k') as [->|Hne]; [done|].
  intros H. apply not_elem_of_cons. split; [done|by apply IH].
Qed.

Lemma alter_by_id_lookup f uid us i :
  NoDup (map _id us) ->
  alter_by_id f uid us !! i =
  (fun u => if has_id uid u then f u else u) <$> us !! i.
Proof.
  revert i. induction us as [|u us IH]; intros i; [done|].
  cbn. intros [Hu Hnd]%NoDup_cons.
  destruct (has_id uid u) eqn:E.
  - destruct i as [|i]; cbn; [by rewrite E|].
    destruct (us !! i) as [w|] eqn:Hw; cbn; [|done].
    assert (has_id uid w = false) as ->; [|done].
    apply not_true_is_false. intros Hw'. apply Hu.
    apply has_id_true in E, Hw'. rewrite E, <- Hw'.
    apply list_elem_of_fmap. exists w. split; [done|].
    by eapply list_elem_of_lookup_2.
  - destruct i as [|i]; cbn; [by rewrite E|]. by apply IH.
Qed.

Lemma email_not_taken uid kvs st u e other :
  email_taken uid kvs st = false ->
  findById uid st = Some u -> assoc "email" kvs = Some e ->
  In other (users st) -> has_id uid other = false ->
  strict_eq (path other "email") e = false.
Proof.
  unfold email_taken. intros H Hu He Hin Hother. rewrite Hu, He in H.
  destruct (strict_eq (path other "email") e) eqn:Heq; [|done].
  assert (existsb (fun other => negb (has_id uid other)
                                && strict_eq (path other "email") e)
                  (users st) = true) as Hex; [|congruence].
  apply existsb_exists. exists other. by rewrite Hother, Heq.
Qed.

Lemma well_formed_updateProfile policy uid body file st :
  well_formed st -> well_formed (updateProfile policy uid body file st).1.
Proof.
  intros Hwf.
  destruct (decide (status (updateProfile policy uid body file st).2 = 200))
    as [Hok|Hno].
  2:{ by destruct (updateProfile_store policy uid body file st)
        as [(? & _)|[_ ->]]. }
  apply updateProfile_accepted in Hok as (Hv & Htaken & u & Hu & ->).
  set (casted := castUpdate policy (updateData body file)) in *.
  pose proof (castUpdate_NoDup policy body file) as Hnd. fold casted in Hnd.
  destruct Hwf as [Hb Hd Hr Hem]. split; cbn [fst findByIdAndUpdate users nextId].
  - change (Forall ((fun n => (n < nextId st)%nat) ∘ _id)
                   (alter_by_id (op_set (serialize casted)) uid (users st))).
    apply Forall_fmap. change (@fmap list _ _ _ _id) with (map _id).
    rewrite map_alter_by_id by done. by apply Forall_fmap.
  - by rewrite map_alter_by_id.
  - apply Forall_alter_by_id; [done|]. intros w _ Hw.
    rewrite List.Forall_forall in Hw. apply List.Forall_forall. intros k Hk.
    destruct (decide (k ∈ casted.*1)) as [Hin|Hout].
    + apply list_elem_of_fmap in Hin as ([k' v] & Hkk & Hin). cbn in Hkk. subst k'.
      rewrite (path_written_in _ _ _ v) by done.
      assert (Hv' : checkRequired v = true).
      { apply (validate_required casted k v); [done|done|].
        unfold mem_string. apply existsb_exists. exists k. split; [done|].
        apply String.eqb_refl. }
      by rewrite (bson_checkRequired _ Hv').
    + rewrite path_written_notin by done. by apply Hw.
  - intros i j u' v' Hi Hj Hne.
    rewrite alter_by_id_lookup in Hi, Hj by done.
    destruct (users st !! i) as [ui|] eqn:Hui; [|done].
    destruct (users st !! j) as [uj|] eqn:Huj; [|done].
    cbn in Hi, Hj. injection Hi as <-. injection Hj as <-.
    pose proof (Hem i j ui uj Hui Huj Hne) as Hold.
    assert (Hnew : forall w,
              path (op_set (serialize casted) w) "email" = path w "email"
              \/ exists e, assoc "email" casted = Some e
                           /\ path (op_set (serialize casted) w) "email" = e).
    { intros w. destruct (assoc "email" casted) as [e|] eqn:He.
      - right. exists e. split; [done|].
        pose proof (assoc_Some_elem _ _ _ He) as Hin.
        rewrite (path_written_in _ _ _ e) by done.
        apply bson_checkRequired, (validate_required casted "email" e); done.
      - left. by apply path_written_notin, assoc_None_notin. }
    assert (Hin_i : In ui (users st))
      by (apply list_elem_of_In; by eapply list_elem_of_lookup_2).
    assert (Hin_j : In uj (users st))
      by (apply list_elem_of_In; by eapply list_elem_of_lookup_2).
    destruct (has_id uid ui) eqn:Ei, (has_id uid uj) eqn:Ej.
    + exfalso. apply Hne. apply has_id_true in Ei, Ej.
      apply (NoDup_lookup (map _id (users st)) i j uid); [done| |].
      * change (map _id) with (@fmap list _ _ _ _id).
        by rewrite list_lookup_fmap, Hui; cbn; rewrite Ei.
      * change (map _id) with (@fmap list _ _ _ _id).
        by rewrite list_lookup_fmap, Huj; cbn; rewrite Ej.
    + destruct (Hnew ui) as [->|(e & He & ->)]; [done|].
      rewrite strict_eq_sym. by eapply email_not_taken.
    + destruct (Hnew uj) as [->|(e & He & ->)]; [done|].
      by eapply email_not_taken.
    + done.
Qed.

Lemma well_formed_savePage now uid title pageData informationType st :
  well_formed st ->
  well_formed (savePage now uid title pageData informationType st).1.
Proof.
  intros Hwf.
  destruct (decide (status (savePage now uid title pageData informationType st).2 = 200))
    as [Hok|Hno]; [|by rewrite savePage_not_saved].
  apply savePage_saved in Hok as (u & url & _ & _ & _ & ->).
  apply well_formed_update; auto.
Qed.

Lemma well_formed_serve policy jwt_sign jwt_verify extname now req st :
  well_formed st ->
  well_formed (serve policy jwt_sign jwt_verify extname now req st).1.
Proof.
  intros Hwf.
  destruct req
    as [fullName email password|email password|headers|headers fields profileImage
       |headers title pageData informationType|headers|headers [id|raw]
       |headers title source date url|headers|headers [id|raw]
       |headers doctor type date status|headers|headers id];
    cbn [serve]; try (apply protected_preserves; [done|intros uid]).
  - by apply well_formed_register.
  - by rewrite login_store.
  - by rewrite getUserProfile_store.
  - by apply well_formed_updateProfile.
  - by apply well_formed_savePage.
  - by rewrite getMySavedPages_store.
  - apply (well_formed_update (op_pull_savedData id)); auto.
  - done.
  - apply (well_formed_update _ uid (S (nextId st))); auto.
  - by rewrite getNews_store.
  - apply (well_formed_update (op_pull_newsHistory id)); auto.
  - done.
  - by rewrite addAppointment_refused.
  - by rewrite getAppointments_store.
  - by rewrite deleteAppointment_answer.
Qed.

Lemma well_formed_empty : well_formed empty_store.
Proof. split; cbn; try constructor. intros i j u v Hi. by destruct i. Qed.

Lemma reachable_well_formed policy jwt_sign jwt_verify extname st :
  reachable policy jwt_sign jwt_verify extname st -> well_formed st.
Proof.
  induction 1 as [|st now req Hr IH]; [apply well_formed_empty|].
  by apply well_formed_serve.
Qed.

(** ** Registration and login *)

Lemma register_response fullName email password st :
  let res := register fullName email password st in
  (status res.2 = 201 ->
   res.2 = status_json 201 (Message "Account created! Please log in."))
  /\ (status res.2 = 400 -> res.2 = status_json 400 (Message "Email already in use."))
  /\ (status res.2 = 500 ->
      exists err, res.2 = status_json 500 (MessageError "Server Error" err)).
Proof.
  cbv zeta. unfold register.
  destruct (findOne_email (field email) st) as [u|] eqn:Hfind; [by repeat split|].
  destruct fullName as [[|c1 f]|], email as [[|c2 e]|], password as [[|c3 p]|];
    repeat split; try (vm_compute; done); intros _; eexists; vm_compute; reflexivity.
Qed.


Lemma find_app_None {A} (p : A -> bool) l l' :
  find p l = None -> find p (l ++ l') = find p l'.
Proof.
  induction l as [|x l IH]; cbn; [done|]. by destruct (p x).
Qed.

Lemma find_app_Some {A} (p : A -> bool) l l' x :
  find p l = Some x -> find p (l ++ l') = Some x.
Proof.
  induction l as [|y l IH]; cbn; [done|]. by destruct (p y).
Qed.

Lemma findOne_email_registered uid f e p st :
  findOne_email (JStr e) st = None ->
  findOne_email (JStr e)
    {| users := users st ++ [new_account uid f e p]; nextId := S (nextId st) |} =
  Some (new_account uid f e p).
Proof.
  intros Hnone. unfold findOne_email in *. cbn [users].
  rewrite find_app_None by done. cbn [find].
  destruct (path_new_account uid f e p) as (_ & -> & _).
  cbn. by rewrite String.eqb_refl.
Qed.

(** X2. Once a registration has succeeded, a second registration with the
    same email is answered 400 "Email already in use." whatever name and
    password it carries, and stores nothing. *)
Theorem register_same_email_twice
    (fullName email password fullName' password' : option string) (st : Store) :
  status (register fullName email password st).2 = 201 ->
  register fullName' email password' (register fullName email password st).1 =
    ((register fullName email password st).1,
     status_json 400 (Message "Email already in use.")).
Proof.
  intros Hok.
  destruct (register_outcome fullName email password st)
    as [(_ & f & e & p & _ & -> & _ & _ & _ & _ & Hnone & Hst)
       |[(H & _)|(H & _)]]; [|rewrite H in Hok; done..].
  rewrite Hst.
  set (st1 := {| users := users st ++ [new_account (nextId st) f e p];
                 nextId := S (nextId st) |}).
  pose proof (findOne_email_registered (nextId st) f e p st Hnone) as Hfound.
  fold st1 in Hfound.
  destruct (register_outcome fullName' (Some e) password' st1)
    as [(_ & f' & e' & p' & _ & [= <-] & _ & _ & _ & _ & Hnone' & _)
       |[(H400 & _ & Hsame)|(_ & Hnone' & _)]].
  - by rewrite Hfound in Hnone'.
  - destruct (register_response fullName' (Some e) password' st1) as (_ & Hbody & _).
    specialize (Hbody H400).
    destruct (register fullName' (Some e) password' st1) as [s r].
    cbn in Hsame, Hbody. by subst.
  - cbn [field] in Hnone'. by rewrite Hfound in Hnone'.
Qed.


Lemma checkRequired_JStr v : checkRequired v = true -> exists s, v = JStr s /\ s <> "".
Proof.
  destruct v; cbn; try done. intros H. exists s. split; [done|].
  intros ->. done.
Qed.

(** X4. In every store the server reaches, every account has a non-empty
    string as its fullName, its email and its password: registration
    refuses anything else, and no later request clears or empties them. *)
Theorem reachable_required_paths_filled
    (policy : UndefinedPolicy) (jwt_sign : Id -> Z -> string)
    (jwt_verify : string -> Exc Jwt.payload) (extname : string -> string)
    (st : Store) (u : User) (k : string) :
  reachable policy jwt_sign jwt_verify extname st ->
  In u (users st) -> In k required_paths ->
  exists s, path u k = JStr s /\ s <> "".
Proof.
  intros Hr Hu Hk. apply reachable_well_formed in Hr as [_ _ Hreq _].
  rewrite List.Forall_forall in Hreq. specialize (Hreq u Hu).
  rewrite List.Forall_forall in Hreq. by apply checkRequired_JStr, Hreq.
Qed.

(** X5. In every store the server reaches, two different accounts have
    different ids and different emails: registration refuses an email in
    use, and a profile update cannot move an account onto the email of
    another one. *)
Theorem reachable_emails_unique
    (policy : UndefinedPolicy) (jwt_sign : Id -> Z -> string)
    (jwt_verify : string -> Exc Jwt.payload) (extname : string -> string)
    (st : Store) (i j : nat) (u v : User) :
  reachable policy jwt_sign jwt_verify extname st ->
  users st !! i = Some u -> users st !! j = Some v -> i <> j ->
  _id u <> _id v /\ path u "email" <> path v "email".
Proof.
  intros Hr Hi Hj Hne. apply reachable_well_formed in Hr as [_ Hd Hreq Hem].
  split.
  - intros Heq. apply Hne.
    apply (NoDup_lookup (map _id (users st)) i j (_id u)); [done| |];
      change (map _id) with (@fmap list _ _ _ _id); rewrite list_lookup_fmap.
    + by rewrite Hi.
    + by rewrite Hj, Heq.
  - intros Heq. pose proof (Hem i j u v Hi Hj Hne) as Hs. rewrite <- Heq in Hs.
    rewrite List.Forall_forall in Hreq.
    assert (Hin : In u (users st))
      by (apply list_elem_of_In; by eapply list_elem_of_lookup_2).
    specialize (Hreq u Hin). rewrite List.Forall_forall in Hreq.
    destruct (checkRequired_JStr _ (Hreq "email" ltac:(cbn; auto))) as (s & Hs' & _).
    rewrite Hs' in Hs. cbn in Hs. by rewrite String.eqb_refl in Hs.
Qed.

Lemma findById_registered st f e p :
  well_formed st ->
  findById (nextId st)
    {| users := users st ++ [new_account (nextId st) f e p];
       nextId := S (nextId st) |} =
  Some (new_account (nextId st) f e p).
Proof.
  intros [Hb _ _ _]. unfold findById. cbn [users].
  rewrite find_app_None; [cbn; unfold has_id; cbn; by rewrite Nat.eqb_refl|].
  destruct (find (has_id (nextId st)) (users st)) as [u|] eqn:Hu; [|done].
  apply find_some in Hu as [Hin Hid]. apply has_id_true in Hid.
  rewrite List.Forall_forall in Hb. specialize (Hb u Hin). cbn in Hb. lia.
Qed.

(** X6. In a store the server has reached, a successful registration
    creates an account that reads back under the next id: its profile
    shows the registered name and email, empty strings for the ten other
    fields, and its three listings are empty. *)
Theorem registered_account_reads_back
    (policy : UndefinedPolicy) (jwt_sign : Id -> Z -> string)
    (jwt_verify : string -> Exc Jwt.payload) (extname : string -> string)
    (fullName email password : option string) (st : Store) :
  let st1 := (register fullName email password st).1 in
  let uid := nextId st in
  reachable policy jwt_sign jwt_verify extname st ->
  status (register fullName email password st).2 = 201 ->
  getUserProfile uid st1 =
    (st1, json (Profile uid
                  [("name", field fullName); ("fullName", field fullName);
                   ("email", field email); ("phone", JStr "");
                   ("address", JStr ""); ("gender", JStr ""); ("dob", JStr "");
                   ("profileImg", JStr ""); ("bloodType", JStr "");
                   ("height", JStr ""); ("weight", JStr "");
                   ("allergies", JStr ""); ("conditions", JStr "")]))
  /\ getMySavedPages uid st1 = (st1, json (SavedPages []))
  /\ getNews uid st1 = (st1, json (News []))
  /\ getAppointments uid st1 = (st1, json (Appointments [])).
Proof.
  cbv zeta. intros Hr Hok. apply reachable_well_formed in Hr.
  destruct (register_outcome fullName email password st)
    as [(_ & f & e & p & -> & -> & -> & _ & _ & _ & _ & Hst)
       |[(H & _)|(H & _)]]; [|rewrite H in Hok; done..].
  rewrite Hst.
  pose proof (findById_registered st f e p Hr) as Hfind.
  unfold getUserProfile, getMySavedPages, getNews, getAppointments.
  rewrite Hfind. repeat split.
Qed.

(** ** What a request may change *)

(** X7. A request to a protected route that the guard rejects is answered
    with the guard's response and changes nothing in the store, whatever
    the route and its body. *)
Theorem rejected_request_changes_nothing
    (policy : UndefinedPolicy) (jwt_sign : Id -> Z -> string)
    (jwt_verify : string -> Exc Jwt.payload) (extname : string -> string)
    (now : Z) (req : Request) (st : Store)
    (headers : gmap string string) (res : Response) :
  request_headers req = Some headers ->
  verifyToken jwt_verify headers = Rejected res ->
  serve policy jwt_sign jwt_verify extname now req st = (st, res).
Proof.
  intros Hh Hv.
  destruct req; cbn in Hh; try discriminate; injection Hh as ->;
    cbn [serve]; unfold protected; by rewrite Hv.
Qed.

(** X8. The login and the four listing routes never change the store:
    the sort and the reversal they apply work on the loaded copy only. *)
Theorem reading_routes_change_nothing
    (policy : UndefinedPolicy) (jwt_sign : Id -> Z -> string)
    (jwt_verify : string -> Exc Jwt.payload) (extname : string -> string)
    (now : Z) (req : Request) (st : Store) :
  reads_only req = true ->
  (serve policy jwt_sign jwt_verify extname now req st).1 = st.
Proof.
  intros Hr. destruct req; cbn in Hr; try discriminate; cbn [serve];
    try (apply (protected_preserves (fun s => s = st)); [done|intros uid]).
  - apply login_store.
  - apply getUserProfile_store.
  - apply getMySavedPages_store.
  - apply getNews_store.
  - apply getAppointments_store.
Qed.

Lemma findById_alter_other f uid other n st :
  (forall u, _id (f u) = _id u) -> other <> uid ->
  findById other {| users := alter_by_id f uid (users st); nextId := n |} =
  findById other st.
Proof.
  intros Hid Hne. unfold findById. cbn [users].
  rewrite find_alter_by_id by done. by rewrite decide_False.
Qed.

Lemma handler_other_untouched policy now uid other st :
  other <> uid ->
  (forall body file,
     findById other (updateProfile policy uid body file st).1 = findById other st)
  /\ (forall title pageData informationType,
        findById other (savePage now uid title pageData informationType st).1 =
        findById other st)
  /\ (forall id, findById other (deleteMySavedPage uid id st).1 = findById other st)
  /\ (forall title source date url,
        findById other (addNews now uid title source date url st).1 =
        findById other st)
  /\ (forall id, findById other (deleteNews uid id st).1 = findById other st)
  /\ (forall doctor type date status,
        findById other (addAppointment uid doctor type date status st).1 =
        findById other st)
  /\ (forall id, findById other (deleteAppointment uid id st).1 = findById other st).
Proof.
  intros Hne. repeat split.
  - intros fields file.
    destruct (updateProfile_store policy uid fields file st)
      as [(_ & _ & _ & ->)|[_ ->]]; [|done].
    by apply findById_update_other.
  - intros title pageData informationType.
    destruct (decide (status (savePage now uid title pageData informationType st).2 = 200))
      as [Hok|Hno]; [|by rewrite savePage_not_saved].
    apply savePage_saved in Hok as (u & url & _ & _ & _ & ->).
    by apply findById_alter_other.
  - intros [id|raw]; [|done].
    by apply (findById_update_other (op_pull_savedData id)).
  - intros title source date url.
    change (addNews now uid title source date url st).1
      with {| users := alter_by_id
                         (op_push_newsHistory
                            {| NewsHistory._id := nextId st;
                               NewsHistory.title := field title;
                               NewsHistory.source := field source;
                               NewsHistory.date := field date;
                               NewsHistory.url := field url;
                               NewsHistory.addedAt := now |})
                         uid (users st);
              nextId := S (nextId st) |}.
    by apply findById_alter_other.
  - intros [id|raw]; [|done].
    by apply (findById_update_other (op_pull_newsHistory id)).
  - intros id. by rewrite deleteAppointment_answer.
Qed.

Lemma findById_register_existing fullName email password st other u :
  findById other st = Some u ->
  findById other (register fullName email password st).1 = Some u.
Proof.
  intros Hu.
  destruct (register_outcome fullName email password st)
    as [(_ & f & e & p & _ & _ & _ & _ & _ & _ & _ & ->)
       |[(_ & _ & ->)|(_ & _ & _ & ->)]]; [|done|done].
  unfold findById in *. cbn [users]. by apply find_app_Some.
Qed.

(** X9. A request changes no account but the one its token names: every
    other document that was in the store is found afterwards exactly as
    it was.  Registration and login, which carry no token, change no
    existing document at all. *)
Theorem other_accounts_untouched
    (policy : UndefinedPolicy) (jwt_sign : Id -> Z -> string)
    (jwt_verify : string -> Exc Jwt.payload) (extname : string -> string)
    (now : Z) (req : Request) (st : Store) (other : Id) (u : User) :
  findById other st = Some u ->
  (forall headers verified,
     request_headers req = Some headers ->
     verifyToken jwt_verify headers = Next verified ->
     Jwt.id verified <> other) ->
  findById other (serve policy jwt_sign jwt_verify extname now req st).1 = Some u.
Proof.
  intros Hu Htok.
  destruct (request_headers req) as [h|] eqn:Hh.
  - destruct (verifyToken jwt_verify h) as [v|res] eqn:Hv.
    + assert (Hne : other <> Jwt.id v) by (intros ->; by eapply Htok).
      destruct (handler_other_untouched policy now (Jwt.id v) other st Hne)
        as (H1 & H2 & H3 & H4 & H5 & H6 & H7).
      destruct req; cbn in Hh; try discriminate; injection Hh as ->;
        cbn [serve]; unfold protected; rewrite Hv;
        rewrite ?H1, ?H2, ?H3, ?H4, ?H5, ?H6, ?H7,
          ?getUserProfile_store, ?getMySavedPages_store, ?getNews_store,
          ?getAppointments_store; done.
    + destruct req; cbn in Hh; try discriminate; injection Hh as ->;
        cbn [serve]; unfold protected; by rewrite Hv.
  - destruct req; cbn in Hh; try discriminate; cbn [serve].
    + by apply findById_register_existing.
    + by rewrite login_store.
Qed.

Lemma password_not_updated policy body file :
  "password" ∉ (castUpdate policy (updateData body file)).*1.
Proof.
  intros H%castUpdate_keys. rewrite updateData_keys in H.
  destruct file; apply list_elem_of_In in H; cbn in H;
    repeat (destruct H as [H|H]; [discriminate H|]); done.
Qed.

Lemma served_store_shape policy jwt_sign jwt_verify extname now req st :
  let st' := (serve policy jwt_sign jwt_verify extname now req st).1 in
  (exists f uid n,
     (forall u, _id (f u) = _id u /\ path (f u) "password" = path u "password")
     /\ st' = {| users := alter_by_id f uid (users st); nextId := n |})
  \/ (exists new, st' = {| users := users st ++ [new]; nextId := S (nextId st) |}).
Proof.
  cbv zeta.
  assert (Hsame : forall s, s = st ->
            exists f uid n,
              (forall u, _id (f u) = _id u /\ path (f u) "password" = path u "password")
              /\ s = {| users := alter_by_id f uid (users st); nextId := n |}).
  { intros s ->. exists (fun u => u), 0%nat, (nextId st). split; [done|].
    rewrite alter_by_id_id. by destruct st. }
  destruct req
    as [fullName email password|email password|headers|headers fields profileImage
       |headers title pageData informationType|headers|headers id
       |headers title source date url|headers|headers id
       |headers doctor type date status|headers|headers id];
    cbn [serve]; unfold protected;
    try (destruct (verifyToken jwt_verify headers) as [v|res]; [|left; by apply Hsame]).
  - destruct (register_outcome fullName email password st)
      as [(_ & f & e & p & _ & _ & _ & _ & _ & _ & _ & ->)
         |[(_ & _ & ->)|(_ & _ & _ & ->)]];
      [right; eauto|left; by apply Hsame..].
  - left. apply Hsame, login_store.
  - left. apply Hsame, getUserProfile_store.
  - left.
    destruct (updateProfile_store policy (Jwt.id v) fields
                (upload_single extname now profileImage) st)
      as [(_ & _ & _ & ->)|[_ ->]]; [|by apply Hsame].
    eexists _, (Jwt.id v), (nextId st). split; [|reflexivity].
    intros u. split; [done|]. apply path_written_notin, password_not_updated.
  - left.
    destruct (decide (status (savePage now (Jwt.id v) title pageData informationType
                                st).2 = 200)) as [Hok|Hno].
    + apply savePage_saved in Hok as (u & url & _ & _ & _ & ->).
      eexists _, (Jwt.id v), _. split; [|reflexivity]. done.
    + apply Hsame. by apply savePage_not_saved.
  - left. apply Hsame, getMySavedPages_store.
  - left. destruct id as [id|raw]; [|by apply Hsame].
    exists (op_pull_savedData id), (Jwt.id v), (nextId st). by split.
  - left. eexists _, (Jwt.id v), (S (nextId st)). split; [|reflexivity]. done.
  - left. apply Hsame, getNews_store.
  - left. destruct id as [id|raw]; [|by apply Hsame].
    exists (op_pull_newsHistory id), (Jwt.id v), (nextId st). by split.
  - left. apply Hsame. by rewrite addAppointment_refused.
  - left. apply Hsame, getAppointments_store.
  - left. apply Hsame. by rewrite deleteAppointment_answer.
Qed.

(** X10. No request removes an account or changes its password: an
    account that was in the store is found afterwards under the same id
    with the same stored password, whatever the request. *)
Theorem account_and_password_persist
    (policy : UndefinedPolicy) (jwt_sign : Id -> Z -> string)
    (jwt_verify : string -> Exc Jwt.payload) (extname : string -> string)
    (now : Z) (req : Request) (st : Store) (uid : Id) (u : User) :
  findById uid st = Some u ->
  exists u',
    findById uid (serve policy jwt_sign jwt_verify extname now req st).1 = Some u'
    /\ _id u' = _id u
    /\ path u' "password" = path u "password".
Proof.
  intros Hu.
  destruct (served_store_shape policy jwt_sign jwt_verify extname now req st)
    as [(f & tok & n & Hf & ->)|(new & ->)].
  - unfold findById in *. cbn [users].
    rewrite find_alter_by_id by (intros w; apply Hf).
    case_decide as Heq.
    + subst tok. rewrite Hu. exists (f u). split; [done|]. apply Hf.
    + by exists u.
  - exists u. split; [|done]. unfold findById in *. cbn [users].
    by apply find_app_Some.
Qed.

(** ** More on the profile update *)

(** X11. An accepted profile update (HTTP 200) stores every submitted
    field exactly as submitted, under either treatment of [undefined];
    it leaves the password, every path outside the payload and the three
    sub-lists as they were, and answers with the updated document without
    its password. *)
Theorem accepted_update_stores_submitted_fields
    (policy : UndefinedPolicy) (uid : Id) (body : gmap string string)
    (file : option File) (st : Store) :
  let res := updateProfile policy uid body file st in
  status res.2 = 200 ->
  exists u u',
    findById uid st = Some u
    /\ findById uid res.1 = Some u'
    /\ (forall f s, In f profile_fields -> body !! f = Some s -> path u' f = JStr s)
    /\ (forall k, ~ In k profile_fields -> k <> "profileImg" -> path u' k = path u k)
    /\ _id u' = _id u
    /\ savedData u' = savedData u
    /\ newsHistory u' = newsHistory u
    /\ appointmentHistory u' = appointmentHistory u
    /\ res.2 = json (Updated "Profile updated successfully!" (select_no_password u'))
    /\ paths (select_no_password u') !! "password" = None.
Proof.
  cbv zeta. intros Hok.
  apply updateProfile_accepted in Hok as (Hv & _ & u & Hu & ->).
  set (casted := castUpdate policy (updateData body file)).
  exists u, (op_set (serialize casted) u). cbn [fst snd].
  split; [done|]. split; [rewrite findById_update_same by done; by rewrite Hu|].
  split; [|split].
  - intros f s Hf Hb.
    rewrite (path_written_in _ _ _ (JStr s)); [done|apply castUpdate_NoDup|].
    pose proof (updateData_field body file f Hf) as [_ Hin]. rewrite Hb in Hin.
    subst casted. destruct policy; cbn; [done|].
    apply list_elem_of_filter. by split.
  - intros k Hk Himg. apply path_written_notin.
    intros Hin%castUpdate_keys. rewrite updateData_keys in Hin.
    apply elem_of_app in Hin as [Hin|Hin].
    + by apply Hk, list_elem_of_In.
    + destruct file; [|by apply elem_of_nil in Hin].
      by apply list_elem_of_singleton in Hin.
  - repeat split. cbn. apply lookup_delete_eq.
Qed.

Lemma validate_false kvs k v :
  (k, v) ∈ kvs -> mem_string k required_paths = true -> checkRequired v = false ->
  validate kvs = false.
Proof.
  intros Hin Hk Hv. apply not_true_is_false. intros Hval.
  pose proof (validate_required _ _ _ Hval Hin Hk). congruence.
Qed.

(** X12. A profile update that submits an empty fullName or an empty email
    is refused by the required validator: 500 "Error updating profile",
    and the store is as before, under either treatment of [undefined]. *)
Theorem update_with_empty_name_or_email_refused
    (policy : UndefinedPolicy) (uid : Id) (body : gmap string string)
    (file : option File) (st : Store) (f : string) :
  f = "fullName" \/ f = "email" -> body !! f = Some "" ->
  exists err,
    updateProfile policy uid body file st =
      (st, status_json 500 (MessageError "Error updating profile" err)).
Proof.
  intros Hf Hb.
  assert (In f profile_fields /\ mem_string f required_paths = true) as [Hin Hreq].
  { destruct Hf as [->| ->]; split; cbn; auto. }
  assert (Hval : validate (castUpdate policy (updateData body file)) = false).
  { apply (validate_false _ f (JStr "")); [|done|done].
    pose proof (updateData_field body file f Hin) as [_ Hin']. rewrite Hb in Hin'.
    destruct policy; cbn; [done|]. apply list_elem_of_filter. by split. }
  unfold updateProfile, findByIdAndUpdate_set. rewrite Hval. cbn. eauto.
Qed.

(** X13. A profile update for an id that resolves to no account changes
    nothing: it is answered 404 "User not found" when the payload passes
    the validators, and 500 "Error updating profile" when it does not
    (validation comes before the lookup). *)
Theorem update_for_missing_account
    (policy : UndefinedPolicy) (uid : Id) (body : gmap string string)
    (file : option File) (st : Store) :
  findById uid st = None ->
  if validate (castUpdate policy (updateData body file))
  then updateProfile policy uid body file st =
         (st, status_json 404 (Message "User not found"))
  else exists err,
         updateProfile policy uid body file st =
           (st, status_json 500 (MessageError "Error updating profile" err)).
Proof.
  intros Hu. unfold updateProfile, findByIdAndUpdate_set.
  destruct (validate _); cbn; [|eauto].
  unfold email_taken. rewrite Hu. cbn. rewrite Hu. cbn.
  rewrite alter_by_id_missing by done. by destruct st.
Qed.

(** ** Passwords stay in the store *)

Lemma path_select_no_password u k :
  k <> "password" -> path (select_no_password u) k = path u k.
Proof. intros Hk. unfold path; cbn. by rewrite lookup_delete_ne. Qed.

Lemma select_same u u' :
  select_no_password u = select_no_password u' ->
  _id u = _id u' /\ savedData u = savedData u' /\ newsHistory u = newsHistory u'
  /\ appointmentHistory u = appointmentHistory u'
  /\ forall k, k <> "password" -> path u k = path u' k.
Proof.
  intros H. repeat split.
  - exact (f_equal _id H).
  - exact (f_equal savedData H).
  - exact (f_equal newsHistory H).
  - exact (f_equal appointmentHistory H).
  - intros k Hk. rewrite <- (path_select_no_password u k Hk), <- (path_select_no_password u' k Hk).
    by rewrite H.
Qed.

Lemma find_select (p q : User -> bool) us :
  (forall u, q (select_no_password u) = p u) ->
  select_no_password <$> find p us = find q (map select_no_password us).
Proof.
  intros Hpq. induction us as [|u us IH]; cbn; [done|].
  rewrite Hpq. by destruct (p u).
Qed.

Lemma findById_view uid st st' :
  public_view st = public_view st' ->
  select_no_password <$> findById uid st = select_no_password <$> findById uid st'.
Proof.
  intros [= Hus _]. unfold findById.
  rewrite !(find_select (has_id uid) (has_id uid)) by done. by rewrite Hus.
Qed.

Lemma findOne_email_view email st st' :
  public_view st = public_view st' ->
  select_no_password <$> findOne_email email st =
  select_no_password <$> findOne_email email st'.
Proof.
  intros [= Hus _]. unfold findOne_email.
  rewrite !(find_select _ (fun u => strict_eq (path u "email") email)).
  - by rewrite Hus.
  - intros u. by rewrite path_select_no_password.
  - intros u. by rewrite path_select_no_password.
Qed.

Lemma existsb_select (p q : User -> bool) us :
  (forall u, q (select_no_password u) = p u) ->
  existsb p us = existsb q (map select_no_password us).
Proof.
  intros Hpq. induction us as [|u us IH]; cbn; [done|]. by rewrite Hpq, IH.
Qed.

Lemma email_taken_view uid kvs st st' :
  public_view st = public_view st' ->
  email_taken uid kvs st = email_taken uid kvs st'.
Proof.
  intros Hv. pose proof (findById_view uid _ _ Hv) as Hfind.
  injection Hv as Hus _. unfold email_taken.
  destruct (findById uid st) as [w|], (findById uid st') as [w'|]; try done.
  destruct (assoc "email" kvs) as [email|]; [|done].
  assert (Hq : forall u,
            negb (has_id uid (select_no_password u))
            && strict_eq (path (select_no_password u) "email") email =
            negb (has_id uid u) && strict_eq (path u "email") email).
  { intros u. by rewrite path_select_no_password. }
  set (p := fun other => negb (has_id uid other)
                         && strict_eq (path other "email") email) in *.
  rewrite (existsb_select p p (users st) Hq), (existsb_select p p (users st') Hq).
  by rewrite Hus.
Qed.

Lemma select_alter_by_id f g uid us :
  (forall u, select_no_password (f u) = g (select_no_password u)) ->
  map select_no_password (alter_by_id f uid us) =
  alter_by_id g uid (map select_no_password us).
Proof.
  intros Hfg. induction us as [|u us IH]; [done|].
  cbn [alter_by_id map].
  change (has_id uid (select_no_password u)) with (has_id uid u).
  destruct (has_id uid u); cbn [map]; [by rewrite Hfg|by rewrite IH].
Qed.

Lemma view_update f g uid n st st' :
  (forall u, select_no_password (f u) = g (select_no_password u)) ->
  public_view st = public_view st' ->
  public_view {| users := alter_by_id f uid (users st); nextId := n |} =
  public_view {| users := alter_by_id f uid (users st'); nextId := n |}.
Proof.
  intros Hfg [= Hus _]. unfold public_view; cbn.
  by rewrite !(select_alter_by_id f g), Hus.
Qed.

Lemma view_update_same f uid n st st' :
  (forall u, select_no_password (f u) = f (select_no_password u)) ->
  public_view st = public_view st' ->
  public_view {| users := alter_by_id f uid (users st); nextId := n |} =
  public_view {| users := alter_by_id f uid (users st'); nextId := n |}.
Proof. apply view_update. Qed.

Lemma delete_set_paths kvs (m : gmap string JsVal) k :
  k ∉ kvs.*1 -> delete k (set_paths kvs m) = set_paths kvs (delete k m).
Proof.
  revert m. induction kvs as [|[k' v'] kvs IH]; intros m Hk; [done|].
  cbn in Hk. apply not_elem_of_cons in Hk as [Hne Hk].
  change (delete k (set_paths kvs (<[k':=v']> m)) =
          set_paths kvs (<[k':=v']> (delete k m))).
  rewrite IH by done. by rewrite delete_insert_ne.
Qed.

Lemma select_op_set kvs u :
  "password" ∉ kvs.*1 ->
  select_no_password (op_set kvs u) = op_set kvs (select_no_password u).
Proof.
  intros Hk. unfold select_no_password, op_set; cbn. f_equal.
  by apply delete_set_paths.
Qed.

Lemma findById_same uid st st' :
  public_view st = public_view st' ->
  match findById uid st, findById uid st' with
  | Some u, Some u' => select_no_password u = select_no_password u'
  | None, None => True
  | _, _ => False
  end.
Proof.
  intros Hfind%(findById_view uid).
  destruct (findById uid st), (findById uid st'); cbn in Hfind; try done.
  congruence.
Qed.

Lemma getUserProfile_blind uid : password_blind (getUserProfile uid).
Proof.
  intros st st' Hv. rewrite !getUserProfile_store. split; [|done].
  unfold getUserProfile. rewrite (findById_view uid st st' Hv).
  by destruct (select_no_password <$> findById uid st').
Qed.

Lemma getMySavedPages_blind uid : password_blind (getMySavedPages uid).
Proof.
  intros st st' Hv. rewrite !getMySavedPages_store. split; [|done].
  pose proof (findById_same uid st st' Hv) as Hsame. unfold getMySavedPages.
  destruct (findById uid st) as [u|], (findById uid st') as [u'|]; try done.
  destruct (select_same _ _ Hsame) as (_ & Hs & _). cbn. by rewrite Hs.
Qed.

Lemma getNews_blind uid : password_blind (getNews uid).
Proof.
  intros st st' Hv. rewrite !getNews_store. split; [|done].
  pose proof (findById_same uid st st' Hv) as Hsame. unfold getNews.
  destruct (findById uid st) as [u|], (findById uid st') as [u'|]; try done.
  destruct (select_same _ _ Hsame) as (_ & _ & Hn & _). cbn. by rewrite Hn.
Qed.

Lemma getAppointments_blind uid : password_blind (getAppointments uid).
Proof.
  intros st st' Hv. rewrite !getAppointments_store. split; [|done].
  pose proof (findById_same uid st st' Hv) as Hsame. unfold getAppointments.
  destruct (findById uid st) as [u|], (findById uid st') as [u'|]; try done.
  destruct (select_same _ _ Hsame) as (_ & _ & _ & Ha & _). cbn. by rewrite Ha.
Qed.

Lemma updateProfile_blind policy uid body file :
  password_blind (updateProfile policy uid body file).
Proof.
  intros st st' Hv.
  pose proof (findById_same uid st st' Hv) as Hsame.
  assert (Hk : "password" ∉ (serialize (castUpdate policy (updateData body file))).*1).
  { rewrite serialize_keys. apply password_not_updated. }
  unfold updateProfile, findByIdAndUpdate_set.
  rewrite (email_taken_view uid _ st st' Hv).
  destruct (validate _); cbn; [|by split].
  destruct (email_taken _ _ _); cbn; [by split|].
  assert (Hst : public_view
                  {| users := alter_by_id
                                (op_set (serialize (castUpdate policy
                                                      (updateData body file))))
                                uid (users st);
                     nextId := nextId st |} =
                public_view
                  {| users := alter_by_id
                                (op_set (serialize (castUpdate policy
                                                      (updateData body file))))
                                uid (users st');
                     nextId := nextId st' |}).
  { assert (Hn : nextId st = nextId st') by (by injection Hv).
    rewrite <- Hn. apply view_update_same; [|done].
    intros u. by apply select_op_set. }
  destruct (findById uid st) as [u|], (findById uid st') as [u'|]; try done; cbn.
  split; [|done]. by rewrite !select_op_set, Hsame.
Qed.

Lemma savePage_blind now uid title pageData informationType :
  password_blind (savePage now uid title pageData informationType).
Proof.
  intros st st' Hv.
  pose proof (findById_same uid st st' Hv) as Hsame.
  assert (Hn : nextId st = nextId st') by (by injection Hv).
  unfold savePage, savePage_continue, savePage_check.
  destruct (get_prop pageData "url") as [url|]; cbn; [|by split].
  destruct (findById uid st) as [u|], (findById uid st') as [u'|]; try done; cbn.
  destruct (select_same _ _ Hsame) as (_ & Hs & _). rewrite <- Hs.
  destruct (array_some _ _); cbn; [by split|]. split; [done|].
  unfold savePage_push; cbn. rewrite <- Hn. by apply view_update_same.
Qed.

Lemma register_blind fullName email password :
  password_blind (register fullName email password).
Proof.
  intros st st' Hv.
  pose proof (findOne_email_view (field email) st st' Hv) as Hfind.
  injection Hv as Hus Hn. unfold register. rewrite <- Hn.
  destruct (findOne_email (field email) st), (findOne_email (field email) st');
    try done; cbv zeta.
  - split; [done|]. unfold public_view. cbn. by rewrite Hus, Hn.
  - match goal with |- context [validate ?kvs] => destruct (validate kvs) end;
      cbn [negb try_catch mret Exc_ret fst snd].
    + split; [done|]. unfold public_view. cbn [users nextId].
      by rewrite !map_app, Hus.
    + split; [done|]. unfold public_view. by rewrite Hus, Hn.
Qed.

Lemma addNews_blind now uid title source date url :
  password_blind (addNews now uid title source date url).
Proof.
  intros st st' Hv. assert (Hn : nextId st = nextId st') by (by injection Hv).
  unfold addNews; cbn. split; [done|]. rewrite <- Hn. by apply view_update_same.
Qed.

Lemma deleteMySavedPage_blind uid id : password_blind (deleteMySavedPage uid id).
Proof.
  intros st st' Hv. assert (Hn : nextId st = nextId st') by (by injection Hv).
  destruct id as [id|raw]; [|by split].
  rewrite !deleteMySavedPage_ObjectId. split; [done|].
  unfold findByIdAndUpdate; cbn. rewrite <- Hn.
  by apply view_update_same.
Qed.

Lemma deleteNews_blind uid id : password_blind (deleteNews uid id).
Proof.
  intros st st' Hv. assert (Hn : nextId st = nextId st') by (by injection Hv).
  destruct id as [id|raw]; [|by split].
  rewrite !deleteNews_ObjectId. split; [done|].
  unfold findByIdAndUpdate; cbn. rewrite <- Hn.
  by apply view_update_same.
Qed.

Lemma login_blind jwt_sign now email password st st' :
  public_view st = public_view st' ->
  (login jwt_sign now email password st).2 = (login jwt_sign now email password st').2
  \/ (login jwt_sign now email password st).2 =
     status_json 400 (Message "Invalid email or password.")
  \/ (login jwt_sign now email password st').2 =
     status_json 400 (Message "Invalid email or password.").
Proof.
  intros Hv. pose proof (findOne_email_view (field email) st st' Hv) as Hfind.
  unfold login.
  destruct (findOne_email (field email) st) as [u|],
           (findOne_email (field email) st') as [u'|]; try done; [|by left].
  assert (Hsame : select_no_password u = select_no_password u')
    by (cbn in Hfind; congruence).
  destruct (select_same _ _ Hsame) as (Hid & _ & _ & _ & Hp).
  destruct (strict_eq (path u "password") (field password)); cbn; [|by right; left].
  destruct (strict_eq (path u' "password") (field password)); cbn; [|by right; right].
  left. by rewrite Hid, !Hp.
Qed.

(** X14. No response carries a password.  Take two stores that differ at
    most in the passwords they hold.  Every request leaves two stores
    that again differ at most in the passwords.  Every request other than
    a login is answered the same in both: what a password is never
    reaches a response, and never reaches another path of a document.  A
    login is answered the same in both unless one of the two answers is
    400 "Invalid email or password.": all it tells of a stored password
    is whether the submitted one equals it. *)
Theorem responses_do_not_depend_on_passwords
    (policy : UndefinedPolicy) (jwt_sign : Id -> Z -> string)
    (jwt_verify : string -> Exc Jwt.payload) (extname : string -> string)
    (now : Z) (req : Request) (st st' : Store) :
  let res := serve policy jwt_sign jwt_verify extname now req st in
  let res' := serve policy jwt_sign jwt_verify extname now req st' in
  public_view st = public_view st' ->
  public_view res.1 = public_view res'.1
  /\ (is_login req = false -> res.2 = res'.2)
  /\ (is_login req = true ->
      res.2 = res'.2
      \/ res.2 = status_json 400 (Message "Invalid email or password.")
      \/ res'.2 = status_json 400 (Message "Invalid email or password.")).
Proof.
  cbv zeta. intros Hv.
  assert (Hblind : forall h : Store -> Store * Response,
            password_blind h ->
            public_view (h st).1 = public_view (h st').1
            /\ (false = false -> (h st).2 = (h st').2)
            /\ (false = true ->
                (h st).2 = (h st').2
                \/ (h st).2 = status_json 400 (Message "Invalid email or password.")
                \/ (h st').2 = status_json 400 (Message "Invalid email or password."))).
  { intros h Hh. destruct (Hh st st' Hv) as [Hres Hst]. by repeat split. }
  destruct req
    as [fullName email password|email password|headers|headers fields profileImage
       |headers title pageData informationType|headers|headers id
       |headers title source date url|headers|headers id
       |headers doctor type date status|headers|headers id];
    cbn [serve is_login]; unfold protected;
    try (destruct (verifyToken jwt_verify headers) as [v|res];
         [|by apply (Hblind (fun s => (s, res)))]).
  - by apply Hblind, register_blind.
  - rewrite !login_store. split; [done|]. split; [done|].
    intros _. by apply login_blind.
  - by apply Hblind, getUserProfile_blind.
  - by apply Hblind, updateProfile_blind.
  - by apply Hblind, savePage_blind.
  - by apply Hblind, getMySavedPages_blind.
  - by apply Hblind, deleteMySavedPage_blind.
  - by apply Hblind, addNews_blind.
  - by apply Hblind, getNews_blind.
  - by apply Hblind, deleteNews_blind.
  - apply (Hblind (addAppointment (Jwt.id v) doctor type date status)).
    intros s s' Hs. by rewrite !addAppointment_refused.
  - by apply Hblind, getAppointments_blind.
  - apply (Hblind (deleteAppointment (Jwt.id v) id)).
    intros s s' Hs. by rewrite !deleteAppointment_answer.
Qed.

(** ** More on saving pages *)

Lemma js_or_field o d :
  js_or (field o) (JStr d) =
  JStr (match o with
        | Some s => if String.eqb s "" then d else s
        | None => d
        end).
Proof. destruct o as [s|]; [|done]. unfold js_or; cbn. by destruct (String.eqb s ""). Qed.

(** X15. A save that succeeds (HTTP 200) appends exactly one entry at the
    end of the user's savedData: the next id, the time of the request, the
    page data without its empty objects (no content at all when nothing
    is left of it), the title or "Untitled" when the title is missing or
    empty, the information type or "General" likewise.  The user's paths
    and other lists are unchanged and the id counter advances by one.
    Page data that holds no object without properties is stored as
    sent. *)
Theorem saved_page_is_appended
    (now : Z) (uid : Id) (title : option string) (pageData : JsVal)
    (informationType : option string) (st : Store) :
  let res := savePage now uid title pageData informationType st in
  status res.2 = 200 ->
  exists u,
    findById uid st = Some u
    /\ res.2 = json (Message "Page saved successfully!")
    /\ findById uid res.1 =
       Some {| _id := _id u; paths := paths u;
               savedData :=
                 savedData u ++
                 [{| SavedData._id := nextId st;
                     SavedData.title :=
                       JStr (match title with
                             | Some s => if String.eqb s "" then "Untitled" else s
                             | None => "Untitled"
                             end);
                     SavedData.informationType :=
                       JStr (match informationType with
                             | Some s => if String.eqb s "" then "General" else s
                             | None => "General"
                             end);
                     SavedData.content := minimize pageData;
                     SavedData.savedAt := now |}];
               newsHistory := newsHistory u;
               appointmentHistory := appointmentHistory u |}
    /\ nextId res.1 = S (nextId st)
    /\ (no_empty_object pageData = true -> minimize pageData = pageData).
Proof.
  cbv zeta. intros Hok.
  pose proof (savePage_saved _ _ _ _ _ _ Hok) as (u & url & Hu & Hurl & Hdup & Hst).
  exists u. split; [done|]. split; [|split; [|split]].
  - unfold savePage, savePage_continue, savePage_check.
    rewrite Hurl; cbn. rewrite Hu; cbn. by rewrite Hdup.
  - rewrite (findById_savePage_saved _ _ _ _ _ _ u Hok Hu).
    by rewrite !js_or_field.
  - by rewrite Hst.
  - apply minimize_no_empty_object.
Qed.

(** X16. Saving the same page twice: when the first save succeeds and the
    page's url is a primitive value (a string, a number, a boolean, null,
    or no url at all), a second save of the same page data is answered
    400 "You have already saved this article." and stores nothing,
    whatever its title, type and time. *)
Theorem same_page_saved_twice
    (now now' : Z) (uid : Id) (title title' : option string) (pageData : JsVal)
    (informationType informationType' : option string) (st : Store) (url : JsVal) :
  let first := savePage now uid title pageData informationType st in
  status first.2 = 200 ->
  get_prop pageData "url" = Ok url ->
  strict_eq url url = true ->
  savePage now' uid title' pageData informationType' first.1 =
    (first.1, status_json 400 (Message "You have already saved this article.")).
Proof.
  cbv zeta. intros Hok Hurl Hprim.
  pose proof (savePage_saved _ _ _ _ _ _ Hok) as (u & url' & Hu & Hurl' & _ & _).
  pose proof (findById_savePage_saved _ _ _ _ _ _ u Hok Hu) as Hu1.
  eapply savePage_duplicate; [exact Hu1|exact Hurl| |].
  - cbn [op_push_savedData savedData]. apply in_or_app. right. by left.
  - rewrite (content_url_stored _ _ _ _ _ _ Hurl).
    by rewrite minimize_primitive.
Qed.

Lemma strict_eq_structured url x : strict_eq url url = false -> strict_eq x url = false.
Proof.
  destruct url; cbn; try done.
  - by destruct b.
  - by rewrite Z.eqb_refl.
  - by rewrite String.eqb_refl.
  - by destruct x.
  - by destruct x.
Qed.

(** X17. The duplicate check never fires for a page whose url is an array
    or an object: such a value is [===] to nothing stored, so for a user
    that resolves the save always succeeds, even when the same page data
    has been saved before. *)
Theorem structured_url_is_never_a_duplicate
    (now : Z) (uid : Id) (title : option string) (pageData : JsVal)
    (informationType : option string) (st : Store) (u : User) (url : JsVal) :
  findById uid st = Some u ->
  get_prop pageData "url" = Ok url ->
  strict_eq url url = false ->
  (savePage now uid title pageData informationType st).2 =
    json (Message "Page saved successfully!")
  /\ (savePage (now + 1) uid title pageData informationType
        (savePage now uid title pageData informationType st).1).2 =
     json (Message "Page saved successfully!").
Proof.
  intros Hu Hurl Hstruct.
  assert (Hsave : forall t s w, findById uid s = Some w ->
            (savePage t uid title pageData informationType s).2 =
            json (Message "Page saved successfully!")).
  { intros t s w Hw. unfold savePage, savePage_continue, savePage_check.
    rewrite Hurl; cbn. rewrite Hw; cbn.
    assert (array_some (fun item => strict_eq (content_url item) url) (savedData w)
            = false) as ->; [|done].
    unfold array_some. induction (savedData w) as [|e l IH]; [done|].
    cbn. by rewrite (strict_eq_structured url), IH. }
  split; [by eapply Hsave|].
  eapply Hsave. apply findById_savePage_saved; [|exact Hu].
  by rewrite (Hsave now st u Hu).
Qed.

(** X18. A save-page request with no page data ([undefined] or [null]), or
    for an id that resolves to no account, ends in the [catch]: 500 "Error
    saving page", nothing stored. *)
Theorem save_page_failures
    (now : Z) (uid : Id) (title : option string) (pageData : JsVal)
    (informationType : option string) (st : Store) :
  pageData = JUndefined \/ pageData = JNull \/ findById uid st = None ->
  savePage now uid title pageData informationType st =
    (st, status_json 500 (Message "Error saving page")).
Proof.
  intros [->|[->|Hu]]; [done|done|].
  unfold savePage, savePage_continue, savePage_check.
  destruct (get_prop pageData "url"); cbn; [|done].
  by rewrite Hu.
Qed.

(** ** Deleting, then listing *)

Lemma sort_insert_split {A} (cmp : A -> A -> Z) x l :
  exists l1 l2, l = (l1 ++ l2)%list /\ sort_insert cmp x l = (l1 ++ x :: l2)%list.
Proof.
  induction l as [|y l (l1 & l2 & Hl & Hs)]; cbn.
  - by exists [], [].
  - destruct (Z.leb (cmp x y) 0).
    + by exists [], (y :: l).
    + exists (y :: l1), l2. cbn. by rewrite <- Hl, Hs.
Qed.

Lemma sort_insert_first x l :
  Forall (fun z => by_savedAt_desc x z <= 0) l ->
  sort_insert by_savedAt_desc x l = x :: l.
Proof.
  destruct 1 as [|z l Hz _]; cbn; [done|].
  by apply Z.leb_le in Hz as ->.
Qed.

Lemma filter_sort_insert (P : SavedData.t -> Prop) `{!forall e, Decision (P e)} x l :
  StronglySorted newer_first l ->
  filter P (sort_insert by_savedAt_desc x l) =
  if decide (P x) then sort_insert by_savedAt_desc x (filter P l) else filter P l.
Proof.
  case_decide as Hx.
  - induction 1 as [|y l Hl IH Hy]; cbn [sort_insert].
    + by rewrite filter_cons_True.
    + destruct (Z.leb_spec (by_savedAt_desc x y) 0) as [Hle|Hgt].
      * rewrite filter_cons_True by done.
        rewrite sort_insert_first; [done|].
        apply List.Forall_forall. intros z Hz.
        apply list_elem_of_In, list_elem_of_filter in Hz as [_ Hz].
        apply elem_of_cons in Hz as [->|Hz]; [done|].
        rewrite List.Forall_forall in Hy.
        apply list_elem_of_In, Hy in Hz.
        unfold newer_first, by_savedAt_desc in *. lia.
      * destruct (decide (P y)).
        -- rewrite !(filter_cons_True _ y) by done. cbn [sort_insert].
           destruct (Z.leb_spec (by_savedAt_desc x y) 0); [lia|]. by rewrite IH.
        -- rewrite !(filter_cons_False _ y) by done. exact IH.
  - intros _. destruct (sort_insert_split by_savedAt_desc x l) as (l1 & l2 & -> & ->).
    rewrite !filter_app. by rewrite filter_cons_False.
Qed.

Lemma filter_array_sort (P : SavedData.t -> Prop) `{!forall e, Decision (P e)} l :
  array_sort by_savedAt_desc (filter P l) = filter P (array_sort by_savedAt_desc l).
Proof.
  induction l as [|x l IH]; [done|].
  cbn [array_sort fold_right]. fold (array_sort by_savedAt_desc l).
  rewrite filter_sort_insert by apply array_sort_sorted.
  destruct (decide (P x)).
  - rewrite filter_cons_True by done. cbn [array_sort fold_right].
    fold (array_sort by_savedAt_desc (filter P l)). by rewrite IH.
  - by rewrite filter_cons_False.
Qed.

Lemma filter_rev {A} (P : A -> Prop) `{!forall x, Decision (P x)} (l : list A) :
  filter P (rev l) = rev (filter P l).
Proof.
  induction l as [|x l IH]; [done|].
  cbn [rev]. rewrite filter_app, IH.
  destruct (decide (P x)).
  - by rewrite !filter_cons_True.
  - rewrite !filter_cons_False by done. cbn. by rewrite app_nil_r.
Qed.

(** X19. Deleting a saved page or a news entry by sub-id and then listing
    gives the listing from before the delete with the entries of that
    sub-id taken out and the order of the others kept. *)
Theorem listing_after_delete (uid id : Id) (st : Store) (u : User) :
  findById uid st = Some u ->
  (exists listed,
     (getMySavedPages uid st).2 = json (SavedPages listed)
     /\ (getMySavedPages uid (deleteMySavedPage uid (ObjectIdText id) st).1).2 =
        json (SavedPages (filter (fun e => SavedData._id e ≠ id) listed)))
  /\ (exists listed,
        (getNews uid st).2 = json (News listed)
        /\ (getNews uid (deleteNews uid (ObjectIdText id) st).1).2 =
           json (News (filter (fun e => NewsHistory._id e ≠ id) listed))).
Proof.
  intros Hu.
  assert (Hs : findById uid (deleteMySavedPage uid (ObjectIdText id) st).1 =
               Some (op_pull_savedData id u)).
  { rewrite deleteMySavedPage_ObjectId. cbn [fst].
    rewrite findById_update_same by done. by rewrite Hu. }
  assert (Hn : findById uid (deleteNews uid (ObjectIdText id) st).1 =
               Some (op_pull_newsHistory id u)).
  { rewrite deleteNews_ObjectId. cbn [fst].
    rewrite findById_update_same by done. by rewrite Hu. }
  split.
  - exists (array_sort by_savedAt_desc (savedData u)).
    unfold getMySavedPages. rewrite Hu, Hs. split; [done|].
    by rewrite <- filter_array_sort.
  - exists (rev (newsHistory u)).
    unfold getNews. rewrite Hu, Hn. split; [done|].
    by rewrite filter_rev.
Qed.

(** X20. Adding news for an id that resolves to no account still answers
    with the success message, although no document receives the entry:
    the result of the update is not looked at. *)
Theorem add_for_missing_account_reports_success
    (now : Z) (uid : Id) (a b c d : option string) (st : Store) :
  findById uid st = None ->
  (addNews now uid a b c d st).2 = json (Message "News saved successfully!")
  /\ users (addNews now uid a b c d st).1 = users st.
Proof.
  intros Hu. unfold addNews; cbn.
  rewrite !alter_by_id_missing by done. done.
Qed.

(** ** From login to the profile *)

Lemma find_has_id_unique us u :
  NoDup (map _id us) -> In u us -> find (has_id (_id u)) us = Some u.
Proof.
  induction us as [|w us IH]; [done|].
  rewrite map_cons. intros [Hw Hnd]%NoDup_cons [->|Hin]; cbn.
  - unfold has_id. by rewrite Nat.eqb_refl.
  - destruct (has_id (_id u) w) eqn:E; [|by apply IH].
    exfalso. apply Hw. apply has_id_true in E. rewrite E.
    apply list_elem_of_fmap. exists u. split; [done|]. by apply list_elem_of_In.
Qed.

(** X21. In a store the server has reached, the token a successful login
    returns opens the profile of the account that logged in, provided the
    verification accepts what the signing issued: sent as "Bearer
    <token>", it gets the profile with the id, name and email of the login
    summary. *)
Theorem login_token_opens_profile
    (policy : UndefinedPolicy) (jwt_sign : Id -> Z -> string)
    (jwt_verify : string -> Exc Jwt.payload) (extname : string -> string)
    (now now' : Z) (email password : option string) (st : Store)
    (token : string) (uid : Id) (name mail : JsVal) :
  reachable policy jwt_sign jwt_verify extname st ->
  login jwt_sign now email password st = (st, json (LoginOk token uid name mail)) ->
  jwt_verify token = Ok {| Jwt.id := uid |} ->
  exists fields,
    serve policy jwt_sign jwt_verify extname now'
      (GetUserProfile {["authorization" := "Bearer " +:+ token]}) st =
      (st, json (Profile uid fields))
    /\ assoc "name" fields = Some name
    /\ assoc "email" fields = Some mail.
Proof.
  intros Hr Hlogin Hverify.
  apply reachable_well_formed in Hr as [_ Hd _ _].
  unfold login in Hlogin.
  destruct (findOne_email (field email) st) as [u|] eqn:Hfind; cbn in Hlogin; [|done].
  destruct (strict_eq (path u "password") (field password)); cbn in Hlogin; [|done].
  injection Hlogin as _ <- <- <-.
  apply find_some in Hfind as [Hin _].
  pose proof (find_has_id_unique _ _ Hd Hin) as Hu.
  cbn [serve]. unfold protected.
  assert (Hne : "Bearer " +:+ token <> "") by (rewrite Bearer_cons; discriminate).
  assert (Hh : ({["authorization" := "Bearer " +:+ token]} : gmap string string)
               !! "authorization" = Some ("Bearer " +:+ token))
    by apply lookup_singleton_eq.
  rewrite (verifyToken_nonempty jwt_verify _ _ Hh Hne).
  rewrite startsWith_Bearer, slice_from_Bearer, Hverify. cbn [Jwt.id].
  unfold getUserProfile, findById. rewrite Hu. cbn.
  eexists. split; [reflexivity|]. cbn.
  assert (Hp : forall k, k <> "password" -> path (select_no_password u) k = path u k).
  { intros k Hk. unfold path; cbn. by rewrite lookup_delete_ne. }
  by rewrite !Hp.
Qed.

(** ** Stored file names *)

Lemma string_app_length (a b : string) :
  String.length (a +:+ b) = (String.length a + String.length b)%nat.
Proof.
  induction a as [|c a IH]; [done|].
  change (String c a +:+ b) with (String c (a +:+ b)). cbn. by rewrite IH.
Qed.

Lemma string_app_inv_tail (a b x : string) : a +:+ x = b +:+ x -> a = b.
Proof.
  revert b. induction a as [|c a IH]; intros [|d b] H.
  - done.
  - apply (f_equal String.length) in H. rewrite !string_app_length in H.
    cbn in H. lia.
  - apply (f_equal String.length) in H. rewrite !string_app_length in H.
    cbn in H. lia.
  - change (String c (a +:+ x) = String d (b +:+ x)) in H.
    injection H as -> H. f_equal. by apply IH.
Qed.

(** X22. The stored file name depends on the upload only through the time
    and the extension: two uploads of the same original name at different
    times get different names, and two uploads at the same millisecond
    with the same extension get the same name, whoever sent them. *)
Theorem stored_filename_by_time_and_extension
    (extname : string -> string) (t1 t2 : Z) (n1 n2 : string) :
  (storage_filename extname t1 n1 = storage_filename extname t2 n1 -> t1 = t2)
  /\ (extname n1 = extname n2 ->
      storage_filename extname t1 n1 = storage_filename extname t1 n2).
Proof.
  split.
  - unfold storage_filename. intros H.
    assert (H' : pretty t1 +:+ extname n1 = pretty t2 +:+ extname n1).
    { cbn in H. by repeat injection H as H. }
    by apply string_app_inv_tail, (inj pretty) in H'.
  - unfold storage_filename. by intros ->.
Qed.

(** ** The earlier revision *)

(** X23. The earlier save-page route has no duplicate check and reads no
    property of the page data: for a user that resolves it always answers
    200 and appends the entry (title "Untitled Save" when missing or
    empty, the page data as the store keeps it), so the same page saved
    twice is stored twice; for an id that resolves to no account it
    answers 404 "User not found." and no document changes. *)
Theorem earlier_save_page_always_appends
    (now : Z) (uid : Id) (title : option string) (pageData : JsVal)
    (informationType : option string) (st : Store) :
  let res := Part000.savePage now uid title pageData informationType st in
  let entry id t :=
    {| SavedData._id := id;
       SavedData.title :=
         JStr (match title with
               | Some s => if String.eqb s "" then "Untitled Save" else s
               | None => "Untitled Save"
               end);
       SavedData.informationType :=
         JStr (match informationType with
               | Some s => if String.eqb s "" then "General" else s
               | None => "General"
               end);
       SavedData.content := minimize pageData;
       SavedData.savedAt := t |} in
  match findById uid st with
  | Some u =>
      res.2 = json (Message "Page saved successfully!")
      /\ savedData <$> findById uid res.1 = Some (savedData u ++ [entry (nextId st) now])%list
      /\ (forall now',
            let again :=
              Part000.savePage now' uid title pageData informationType res.1 in
            again.2 = json (Message "Page saved successfully!")
            /\ savedData <$> findById uid again.1 =
               Some (savedData u ++ [entry (nextId st) now; entry (nextId res.1) now'])%list)
  | None =>
      res.2 = status_json 404 (Message "User not found.")
      /\ users res.1 = users st
  end.
Proof.
  cbv zeta.
  assert (Hsave : forall t s w,
            findById uid s = Some w ->
            (Part000.savePage t uid title pageData informationType s).2 =
              json (Message "Page saved successfully!")
            /\ findById uid (Part000.savePage t uid title pageData informationType s).1 =
               Some (op_push_savedData
                       {| SavedData._id := nextId s;
                          SavedData.title := js_or (field title) (JStr "Untitled Save");
                          SavedData.informationType :=
                            js_or (field informationType) (JStr "General");
                          SavedData.content := minimize pageData;
                          SavedData.savedAt := t |} w)).
  { intros t s w Hw. unfold Part000.savePage; cbn. rewrite Hw; cbn. split; [done|].
    unfold findById in *. cbn [users]. rewrite find_alter_by_id by done.
    rewrite decide_True by done. by rewrite Hw. }
  destruct (findById uid st) as [u|] eqn:Hu.
  - destruct (Hsave now st u Hu) as [H1 H2]. split; [done|].
    split; [rewrite H2; cbn; by rewrite !js_or_field|].
    intros now'. destruct (Hsave now' _ _ H2) as [H3 H4]. split; [done|].
    rewrite H4. cbn. rewrite !js_or_field. by rewrite <- app_assoc.
  - unfold Part000.savePage; cbn. rewrite Hu; cbn. split; [done|].
    by apply alter_by_id_missing.
Qed.

(** X24. The earlier profile update sends six fields (and profileImg with
    a file): whatever the outcome and the treatment of [undefined], it
    changes no other path of the account, so the medical fields, which the
    later [updateData] includes, are out of its reach. *)
Theorem earlier_update_reaches_six_fields
    (policy : UndefinedPolicy) (uid : Id) (body : gmap string string)
    (file : option File) (st : Store) (u : User) (k : string) :
  findById uid st = Some u ->
  ~ In k Part000.profile_fields -> k <> "profileImg" ->
  (Part000.updateData body file).*1 =
    (Part000.profile_fields
     ++ match file with Some _ => ["profileImg"] | None => [] end)%list
  /\ exists u',
       findById uid (Part000.updateProfile policy uid body file st).1 = Some u'
       /\ path u' k = path u k.
Proof.
  intros Hu Hk Himg. split; [by destruct file|].
  unfold Part000.updateProfile, findByIdAndUpdate_set.
  destruct (validate _); cbn; [|by exists u].
  destruct (email_taken _ _ _); cbn; [by exists u|].
  rewrite Hu; cbn.
  exists (op_set (serialize (castUpdate policy (Part000.updateData body file))) u).
  split.
  - unfold findById in *. cbn [users]. rewrite find_alter_by_id by done.
    rewrite decide_True by done. by rewrite Hu.
  - apply path_written_notin. intros Hin%castUpdate_keys.
    assert (Hkeys : (Part000.updateData body file).*1 =
              (Part000.profile_fields
               ++ match file with Some _ => ["profileImg"] | None => [] end)%list)
      by (by destruct file).
    rewrite Hkeys in Hin. apply elem_of_app in Hin as [Hin|Hin].
    + by apply Hk, list_elem_of_In.
    + destruct file; [|by apply elem_of_nil in Hin].
      by apply list_elem_of_singleton in Hin.
Qed.

(** * More worked requests *)

Lemma reachable_ann_registered :
  reachable OmitUndefined Sample.jwt_sign Sample.jwt_verify Sample.extname
    More.ann_registered.
Proof. apply reachable_serve, reachable_empty. Qed.

Lemma reachable_both_registered :
  reachable OmitUndefined Sample.jwt_sign Sample.jwt_verify Sample.extname
    More.both_registered.
Proof. apply reachable_serve, reachable_ann_registered. Qed.

(** X2 at work: a second registration under Ann's email. *)
Lemma register_same_email_twice_witness :
  status (register (Some "Ann") (Some "ann@example.org") (Some "secret")
            empty_store).2 = 201
  /\ register (Some "Annabel") (Some "ann@example.org") (Some "other")
       (register (Some "Ann") (Some "ann@example.org") (Some "secret") empty_store).1 =
     ((register (Some "Ann") (Some "ann@example.org") (Some "secret") empty_store).1,
      status_json 400 (Message "Email already in use.")).
Proof.
  assert (H : status (register (Some "Ann") (Some "ann@example.org") (Some "secret")
                        empty_store).2 = 201) by (vm_compute; reflexivity).
  split; [exact H|].
  exact (register_same_email_twice (Some "Ann") (Some "ann@example.org")
           (Some "secret") (Some "Annabel") (Some "other") empty_store H).
Defined.


(** X4 at work: Bob's email, once Ann and Bob have registered. *)
Lemma reachable_required_paths_filled_witness :
  reachable OmitUndefined Sample.jwt_sign Sample.jwt_verify Sample.extname
    More.both_registered
  /\ In More.bob (users More.both_registered)
  /\ In "email" required_paths
  /\ exists s, path More.bob "email" = JStr s /\ s <> "".
Proof.
  assert (Hus : users More.both_registered = [Sample.ann; More.bob])
    by (vm_compute; reflexivity).
  assert (Hin : In More.bob (users More.both_registered))
    by (rewrite Hus; right; left; reflexivity).
  assert (Hk : In "email" required_paths) by (right; left; reflexivity).
  split; [exact reachable_both_registered|]. split; [exact Hin|]. split; [exact Hk|].
  exact (reachable_required_paths_filled _ _ _ _ _ _ _
           reachable_both_registered Hin Hk).
Defined.

(** X5 at work: Ann and Bob. *)
Lemma reachable_emails_unique_witness :
  reachable OmitUndefined Sample.jwt_sign Sample.jwt_verify Sample.extname
    More.both_registered
  /\ users More.both_registered !! 0%nat = Some Sample.ann
  /\ users More.both_registered !! 1%nat = Some More.bob
  /\ 0%nat <> 1%nat
  /\ _id Sample.ann <> _id More.bob
  /\ path Sample.ann "email" <> path More.bob "email".
Proof.
  assert (H0 : users More.both_registered !! 0%nat = Some Sample.ann)
    by (vm_compute; reflexivity).
  assert (H1 : users More.both_registered !! 1%nat = Some More.bob)
    by (vm_compute; reflexivity).
  assert (Hne : 0%nat <> 1%nat) by lia.
  split; [exact reachable_both_registered|]. split; [exact H0|].
  split; [exact H1|]. split; [exact Hne|].
  exact (reachable_emails_unique _ _ _ _ _ _ _ _ _
           reachable_both_registered H0 H1 Hne).
Defined.

(** X6 at work: Bob's registration into the store that holds Ann. *)
Lemma registered_account_reads_back_witness :
  reachable OmitUndefined Sample.jwt_sign Sample.jwt_verify Sample.extname
    More.ann_registered
  /\ status (register (Some "Bob") (Some "bob@example.org") (Some "hunter2")
               More.ann_registered).2 = 201
  /\ (getUserProfile 1%nat
        (register (Some "Bob") (Some "bob@example.org") (Some "hunter2")
           More.ann_registered).1).2 =
     json (Profile 1%nat
             [("name", JStr "Bob"); ("fullName", JStr "Bob");
              ("email", JStr "bob@example.org"); ("phone", JStr "");
              ("address", JStr ""); ("gender", JStr ""); ("dob", JStr "");
              ("profileImg", JStr ""); ("bloodType", JStr "");
              ("height", JStr ""); ("weight", JStr "");
              ("allergies", JStr ""); ("conditions", JStr "")]).
Proof.
  assert (H : status (register (Some "Bob") (Some "bob@example.org") (Some "hunter2")
                        More.ann_registered).2 = 201) by (vm_compute; reflexivity).
  split; [exact reachable_ann_registered|]. split; [exact H|].
  exact (f_equal snd
           (proj1 (registered_account_reads_back _ _ _ _ (Some "Bob")
                     (Some "bob@example.org") (Some "hunter2") More.ann_registered
                     reachable_ann_registered H))).
Defined.

(** X7 at work: a delete sent with no Authorization header. *)
Lemma rejected_request_changes_nothing_witness :
  request_headers (DeleteMySavedPage ∅ (ObjectIdText 1%nat)) = Some ∅
  /\ verifyToken Sample.jwt_verify ∅ =
     Rejected (status_json 401 (Message "Access Denied: No Token"))
  /\ Sample.run OmitUndefined 9 (DeleteMySavedPage ∅ (ObjectIdText 1%nat))
       (Sample.two_pages OmitUndefined) =
     (Sample.two_pages OmitUndefined,
      status_json 401 (Message "Access Denied: No Token")).
Proof.
  assert (Hh : request_headers (DeleteMySavedPage ∅ (ObjectIdText 1%nat)) = Some ∅)
    by reflexivity.
  assert (Hv : verifyToken Sample.jwt_verify ∅ =
               Rejected (status_json 401 (Message "Access Denied: No Token")))
    by (vm_compute; reflexivity).
  split; [exact Hh|]. split; [exact Hv|].
  exact (rejected_request_changes_nothing OmitUndefined Sample.jwt_sign
           Sample.jwt_verify Sample.extname 9 _ (Sample.two_pages OmitUndefined)
           _ _ Hh Hv).
Defined.

(** X8 at work: listing Ann's saved pages. *)
Lemma reading_routes_change_nothing_witness :
  reads_only (GetMySavedPages Sample.bearer) = true
  /\ (Sample.run OmitUndefined 9 (GetMySavedPages Sample.bearer)
        (Sample.two_pages OmitUndefined)).1 = Sample.two_pages OmitUndefined.
Proof.
  assert (H : reads_only (GetMySavedPages Sample.bearer) = true) by reflexivity.
  split; [exact H|].
  exact (reading_routes_change_nothing OmitUndefined Sample.jwt_sign
           Sample.jwt_verify Sample.extname 9 _ (Sample.two_pages OmitUndefined) H).
Defined.

(** X9 at work: Ann saves a page; Bob's document is as it was. *)
Lemma other_accounts_untouched_witness :
  findById 1%nat More.both_registered = Some More.bob
  /\ (forall headers verified,
        request_headers
          (PostSavePage Sample.bearer None (Sample.article "https://example.org/bp")
             None) = Some headers ->
        verifyToken Sample.jwt_verify headers = Next verified ->
        Jwt.id verified <> 1%nat)
  /\ findById 1%nat
       (Sample.run OmitUndefined 9
          (PostSavePage Sample.bearer None (Sample.article "https://example.org/bp")
             None)
          More.both_registered).1 = Some More.bob.
Proof.
  assert (Hb : findById 1%nat More.both_registered = Some More.bob)
    by (vm_compute; reflexivity).
  assert (Htok : forall headers verified,
            request_headers
              (PostSavePage Sample.bearer None
                 (Sample.article "https://example.org/bp") None) = Some headers ->
            verifyToken Sample.jwt_verify headers = Next verified ->
            Jwt.id verified <> 1%nat).
  { intros headers verified Hh Hv. injection Hh as <-.
    vm_compute in Hv. injection Hv as <-. simpl. lia. }
  split; [exact Hb|]. split; [exact Htok|].
  exact (other_accounts_untouched OmitUndefined Sample.jwt_sign Sample.jwt_verify
           Sample.extname 9 _ More.both_registered 1%nat More.bob Hb Htok).
Defined.

(** X10 at work: Ann updates her profile; her password is as it was. *)
Lemma account_and_password_persist_witness :
  findById 0%nat More.ann_registered = Some Sample.ann
  /\ exists u',
       findById 0%nat
         (Sample.run WriteUndefined 9
            (PutUpdateProfile Sample.bearer Sample.name_email_gender None)
            More.ann_registered).1 = Some u'
       /\ _id u' = 0%nat
       /\ path u' "password" = JStr "secret".
Proof.
  assert (Hu : findById 0%nat More.ann_registered = Some Sample.ann)
    by (vm_compute; reflexivity).
  split; [exact Hu|].
  exact (account_and_password_persist WriteUndefined Sample.jwt_sign
           Sample.jwt_verify Sample.extname 9
           (PutUpdateProfile Sample.bearer Sample.name_email_gender None)
           More.ann_registered 0%nat Sample.ann Hu).
Defined.

(** X11 at work: Ann resends her name and email and sets a gender. *)
Lemma accepted_update_stores_submitted_fields_witness :
  status (updateProfile OmitUndefined 0%nat Sample.name_email_gender None
            Sample.ann_store).2 = 200
  /\ exists u u',
       findById 0%nat Sample.ann_store = Some u
       /\ findById 0%nat
            (updateProfile OmitUndefined 0%nat Sample.name_email_gender None
               Sample.ann_store).1 = Some u'
       /\ path u' "gender" = JStr "F"
       /\ savedData u' = savedData u.
Proof.
  assert (H : status (updateProfile OmitUndefined 0%nat Sample.name_email_gender None
                        Sample.ann_store).2 = 200) by (vm_compute; reflexivity).
  assert (Hin : In "gender" profile_fields) by (do 4 right; left; reflexivity).
  assert (Hb : Sample.name_email_gender !! "gender" = Some "F")
    by (vm_compute; reflexivity).
  split; [exact H|].
  destruct (accepted_update_stores_submitted_fields OmitUndefined 0%nat
              Sample.name_email_gender None Sample.ann_store H)
    as (u & u' & Hu & Hu' & Hsub & _ & _ & Hsaved & _).
  exists u, u'. split; [exact Hu|]. split; [exact Hu'|].
  split; [exact (Hsub "gender" "F" Hin Hb)|exact Hsaved].
Defined.

(** X12 at work: Ann blanks her name. *)
Lemma update_with_empty_name_or_email_refused_witness :
  ("fullName" = "fullName" \/ "fullName" = "email")
  /\ More.blank_name !! "fullName" = Some ""
  /\ exists err,
       updateProfile OmitUndefined 0%nat More.blank_name None Sample.ann_store =
         (Sample.ann_store,
          status_json 500 (MessageError "Error updating profile" err)).
Proof.
  assert (Hf : "fullName" = "fullName" \/ "fullName" = "email") by (left; reflexivity).
  assert (Hb : More.blank_name !! "fullName" = Some "") by (vm_compute; reflexivity).
  split; [exact Hf|]. split; [exact Hb|].
  exact (update_with_empty_name_or_email_refused OmitUndefined 0%nat More.blank_name
           None Sample.ann_store "fullName" Hf Hb).
Defined.

(** X13 at work: a profile update with a token for user 7. *)
Lemma update_for_missing_account_witness :
  findById 7%nat Sample.ann_store = None
  /\ validate (castUpdate OmitUndefined (updateData Sample.name_email_gender None))
     = true
  /\ updateProfile OmitUndefined 7%nat Sample.name_email_gender None Sample.ann_store =
     (Sample.ann_store, status_json 404 (Message "User not found")).
Proof.
  assert (Hu : findById 7%nat Sample.ann_store = None) by (vm_compute; reflexivity).
  assert (Hv : validate (castUpdate OmitUndefined
                           (updateData Sample.name_email_gender None)) = true)
    by (vm_compute; reflexivity).
  split; [exact Hu|]. split; [exact Hv|].
  pose proof (update_for_missing_account OmitUndefined 7%nat Sample.name_email_gender
                None Sample.ann_store Hu) as H.
  rewrite Hv in H. exact H.
Defined.

(** X14 at work: Ann's profile reads the same whatever her password. *)
Lemma responses_do_not_depend_on_passwords_witness :
  is_login (GetUserProfile Sample.bearer) = false
  /\ public_view Sample.ann_store = public_view More.ann_other_password
  /\ (fun u => path u "password") <$> findById 0%nat Sample.ann_store =
     Some (JStr "secret")
  /\ (fun u => path u "password") <$> findById 0%nat More.ann_other_password =
     Some (JStr "other")
  /\ (Sample.run OmitUndefined 9 (GetUserProfile Sample.bearer) Sample.ann_store).2 =
     (Sample.run OmitUndefined 9 (GetUserProfile Sample.bearer)
        More.ann_other_password).2.
Proof.
  assert (Hreq : is_login (GetUserProfile Sample.bearer) = false) by reflexivity.
  assert (Hv : public_view Sample.ann_store = public_view More.ann_other_password)
    by (vm_compute; reflexivity).
  split; [exact Hreq|]. split; [exact Hv|].
  split; [vm_compute; reflexivity|]. split; [vm_compute; reflexivity|].
  exact (proj1 (proj2 (responses_do_not_depend_on_passwords OmitUndefined
                         Sample.jwt_sign Sample.jwt_verify Sample.extname 9 _
                         Sample.ann_store More.ann_other_password Hv)) Hreq).
Defined.

(** X15 at work: Ann saves a page with no title; nothing of it is
    stripped. *)
Lemma saved_page_is_appended_witness :
  status (savePage 1000 0%nat None (Sample.article "https://example.org/bp") None
            Sample.ann_store).2 = 200
  /\ no_empty_object (Sample.article "https://example.org/bp") = true
  /\ exists u,
       findById 0%nat Sample.ann_store = Some u
       /\ nextId (savePage 1000 0%nat None (Sample.article "https://example.org/bp")
                    None Sample.ann_store).1 = S (nextId Sample.ann_store)
       /\ minimize (Sample.article "https://example.org/bp") =
          Sample.article "https://example.org/bp".
Proof.
  assert (H : status (savePage 1000 0%nat None
                        (Sample.article "https://example.org/bp") None
                        Sample.ann_store).2 = 200) by (vm_compute; reflexivity).
  assert (Hp : no_empty_object (Sample.article "https://example.org/bp") = true)
    by (vm_compute; reflexivity).
  split; [exact H|]. split; [exact Hp|].
  destruct (saved_page_is_appended 1000 0%nat None
              (Sample.article "https://example.org/bp") None Sample.ann_store H)
    as (u & Hu & _ & _ & Hn & Hmin).
  exists u. split; [exact Hu|]. split; [exact Hn|exact (Hmin Hp)].
Defined.

(** X16 at work: Ann saves the same article a second time. *)
Lemma same_page_saved_twice_witness :
  status (savePage 1000 0%nat None (Sample.article "https://example.org/bp") None
            Sample.ann_store).2 = 200
  /\ get_prop (Sample.article "https://example.org/bp") "url" =
     Ok (JStr "https://example.org/bp")
  /\ strict_eq (JStr "https://example.org/bp") (JStr "https://example.org/bp") = true
  /\ savePage 2000 0%nat (Some "again") (Sample.article "https://example.org/bp")
       (Some "Cardiology")
       (savePage 1000 0%nat None (Sample.article "https://example.org/bp") None
          Sample.ann_store).1 =
     ((savePage 1000 0%nat None (Sample.article "https://example.org/bp") None
         Sample.ann_store).1,
      status_json 400 (Message "You have already saved this article.")).
Proof.
  assert (H : status (savePage 1000 0%nat None
                        (Sample.article "https://example.org/bp") None
                        Sample.ann_store).2 = 200) by (vm_compute; reflexivity).
  assert (Hurl : get_prop (Sample.article "https://example.org/bp") "url" =
                 Ok (JStr "https://example.org/bp")) by reflexivity.
  assert (Hprim : strict_eq (JStr "https://example.org/bp")
                            (JStr "https://example.org/bp") = true)
    by (vm_compute; reflexivity).
  split; [exact H|]. split; [exact Hurl|]. split; [exact Hprim|].
  exact (same_page_saved_twice 1000 2000 0%nat None (Some "again")
           (Sample.article "https://example.org/bp") None (Some "Cardiology")
           Sample.ann_store (JStr "https://example.org/bp") H Hurl Hprim).
Defined.

(** X17 at work: Ann saves a page whose url is an object, twice. *)
Lemma structured_url_is_never_a_duplicate_witness :
  findById 0%nat Sample.ann_store = Some Sample.ann
  /\ get_prop More.linked_page "url" =
     Ok (JObj [("href", JStr "https://example.org/x")])
  /\ strict_eq (JObj [("href", JStr "https://example.org/x")])
               (JObj [("href", JStr "https://example.org/x")]) = false
  /\ (savePage (1000 + 1) 0%nat None More.linked_page None
        (savePage 1000 0%nat None More.linked_page None Sample.ann_store).1).2 =
     json (Message "Page saved successfully!").
Proof.
  assert (Hu : findById 0%nat Sample.ann_store = Some Sample.ann)
    by (vm_compute; reflexivity).
  assert (Hurl : get_prop More.linked_page "url" =
                 Ok (JObj [("href", JStr "https://example.org/x")])) by reflexivity.
  assert (Hs : strict_eq (JObj [("href", JStr "https://example.org/x")])
                         (JObj [("href", JStr "https://example.org/x")]) = false)
    by reflexivity.
  split; [exact Hu|]. split; [exact Hurl|]. split; [exact Hs|].
  exact (proj2 (structured_url_is_never_a_duplicate 1000 0%nat None More.linked_page
                  None Sample.ann_store Sample.ann _ Hu Hurl Hs)).
Defined.

(** X18 at work: a save-page request whose body has no pageData. *)
Lemma save_page_failures_witness :
  (JUndefined = JUndefined \/ JUndefined = JNull
   \/ findById 0%nat Sample.ann_store = None)
  /\ savePage 1000 0%nat (Some "t") JUndefined None Sample.ann_store =
     (Sample.ann_store, status_json 500 (Message "Error saving page")).
Proof.
  assert (H : JUndefined = JUndefined \/ JUndefined = JNull
              \/ findById 0%nat Sample.ann_store = None) by (left; reflexivity).
  split; [exact H|].
  exact (save_page_failures 1000 0%nat (Some "t") JUndefined None Sample.ann_store H).
Defined.

(** X19 at work: Ann deletes the first of her two pages and lists. *)
Lemma listing_after_delete_witness :
  findById 0%nat (Sample.two_pages OmitUndefined) =
    Some (op_push_savedData Sample.page2 (op_push_savedData Sample.page1 Sample.ann))
  /\ exists listed,
       (getMySavedPages 0%nat (Sample.two_pages OmitUndefined)).2 =
         json (SavedPages listed)
       /\ (getMySavedPages 0%nat
             (deleteMySavedPage 0%nat (ObjectIdText 1%nat)
                (Sample.two_pages OmitUndefined)).1).2 =
          json (SavedPages (filter (fun e => SavedData._id e ≠ 1%nat) listed)).
Proof.
  assert (Hu : findById 0%nat (Sample.two_pages OmitUndefined) =
               Some (op_push_savedData Sample.page2
                       (op_push_savedData Sample.page1 Sample.ann)))
    by (vm_compute; reflexivity).
  split; [exact Hu|].
  exact (proj1 (listing_after_delete 0%nat 1%nat (Sample.two_pages OmitUndefined)
                  _ Hu)).
Defined.

(** X20 at work: news added with a token for user 7. *)
Lemma add_for_missing_account_reports_success_witness :
  findById 7%nat Sample.ann_store = None
  /\ (addNews 10 7%nat (Some "Flu season") None None None Sample.ann_store).2 =
     json (Message "News saved successfully!")
  /\ users (addNews 10 7%nat (Some "Flu season") None None None Sample.ann_store).1 =
     users Sample.ann_store.
Proof.
  assert (Hu : findById 7%nat Sample.ann_store = None) by (vm_compute; reflexivity).
  destruct (add_for_missing_account_reports_success 10 7%nat (Some "Flu season")
              None None None Sample.ann_store Hu) as (H1 & H2).
  split; [exact Hu|]. split; [exact H1|exact H2].
Defined.

(** X21 at work: Ann logs in and reads her profile with the token. *)
Lemma login_token_opens_profile_witness :
  reachable OmitUndefined Sample.jwt_sign Sample.jwt_verify Sample.extname
    More.ann_registered
  /\ login Sample.jwt_sign 5 (Some "ann@example.org") (Some "secret")
       More.ann_registered =
     (More.ann_registered,
      json (LoginOk "token-of-0" 0%nat (JStr "Ann") (JStr "ann@example.org")))
  /\ Sample.jwt_verify "token-of-0" = Ok {| Jwt.id := 0%nat |}
  /\ exists fields,
       serve OmitUndefined Sample.jwt_sign Sample.jwt_verify Sample.extname 6
         (GetUserProfile {["authorization" := "Bearer " +:+ "token-of-0"]})
         More.ann_registered =
       (More.ann_registered, json (Profile 0%nat fields))
       /\ assoc "name" fields = Some (JStr "Ann")
       /\ assoc "email" fields = Some (JStr "ann@example.org").
Proof.
  assert (Hl : login Sample.jwt_sign 5 (Some "ann@example.org") (Some "secret")
                 More.ann_registered =
               (More.ann_registered,
                json (LoginOk "token-of-0" 0%nat (JStr "Ann")
                        (JStr "ann@example.org"))))
    by (vm_compute; reflexivity).
  assert (Hv : Sample.jwt_verify "token-of-0" = Ok {| Jwt.id := 0%nat |})
    by (vm_compute; reflexivity).
  split; [exact reachable_ann_registered|]. split; [exact Hl|]. split; [exact Hv|].
  exact (login_token_opens_profile OmitUndefined Sample.jwt_sign Sample.jwt_verify
           Sample.extname 5 6 (Some "ann@example.org") (Some "secret")
           More.ann_registered "token-of-0" 0%nat (JStr "Ann")
           (JStr "ann@example.org") reachable_ann_registered Hl Hv).
Defined.

(** X22 at work: two pictures with the same extension, uploaded at the
    same millisecond. *)
Lemma stored_filename_by_time_and_extension_witness :
  Sample.extname "ann.png" = Sample.extname "bob.png"
  /\ storage_filename Sample.extname 1700000000000 "ann.png" =
     storage_filename Sample.extname 1700000000000 "bob.png".
Proof.
  assert (H : Sample.extname "ann.png" = Sample.extname "bob.png") by reflexivity.
  split; [exact H|].
  exact (proj2 (stored_filename_by_time_and_extension Sample.extname
                  1700000000000 1700000000000 "ann.png" "bob.png") H).
Defined.

(** X24 at work: the earlier update cannot reach Ann's blood type. *)
Lemma earlier_update_reaches_six_fields_witness :
  findById 0%nat Sample.ann_store = Some Sample.ann
  /\ ~ In "bloodType" Part000.profile_fields
  /\ "bloodType" <> "profileImg"
  /\ exists u',
       findById 0%nat
         (Part000.updateProfile WriteUndefined 0%nat Sample.name_email_gender None
            Sample.ann_store).1 = Some u'
       /\ path u' "bloodType" = path Sample.ann "bloodType".
Proof.
  assert (Hu : findById 0%nat Sample.ann_store = Some Sample.ann)
    by (vm_compute; reflexivity).
  assert (Hk : ~ In "bloodType" Part000.profile_fields).
  { intros H. repeat (destruct H as [H|H]; [discriminate H|]). exact H. }
  assert (Hi : "bloodType" <> "profileImg") by discriminate.
  split; [exact Hu|]. split; [exact Hk|]. split; [exact Hi|].
  exact (proj2 (earlier_update_reaches_six_fields WriteUndefined 0%nat
                  Sample.name_email_gender None Sample.ann_store Sample.ann
                  "bloodType" Hu Hk Hi)).
Defined.
